(** * Test-run execution and scoring engine of json-llm-tester

    A shallow embedding of [backend/app/api/api_test_runs.py] (the per-case
    executor [run_single_test_case], the background driver
    [execute_test_run_background], run creation and the per-model summary),
    of [backend/app/services/llm_service.py] and of the two mock-item
    mutations of [backend/app/api/api_mock_data_crud.py].

    Python's exceptions, the database session, the monotonic clock and the
    LLM gateway are modelled by a state-and-exception monad over an explicit
    world.  [json.dumps], [json.loads], [jsonschema.validate], the HTTP
    transport, database faults and the duration of each phase are taken as
    parameters of the development: the code is polymorphic in them.
    Numbers that are floats in the source (times, percentages) are exact
    rationals here.  Calls of the logger have no effect on the state and
    are left out.  Requests and the background unit of work are run one
    after the other: a mutation by another request is placed between
    them, not inside them. *)

From Stdlib Require Import String Ascii Bool Arith ZArith QArith Qround Lia List.
From Stdlib Require Import DecimalString Sorted Permutation.
Import ListNotations.

Local Open Scope list_scope.
Local Open Scope nat_scope.

Infix "+++" := String.append (at level 60, right associativity).

(** ** Python string primitives used by the source *)

Module Py.

(** [str.startswith]. *)
Definition startswith (s p : string) : bool := String.prefix p s.

Fixpoint rev_string (s : string) : string :=
  match s with
  | EmptyString => EmptyString
  | String c s' => rev_string s' +++ String c EmptyString
  end.

(** [str.endswith]. *)
Definition endswith (s p : string) : bool :=
  String.prefix (rev_string p) (rev_string s).

(** The ASCII characters for which [str.isspace] holds. *)
Definition isspace (c : ascii) : bool :=
  let n := nat_of_ascii c in
  ((9 <=? n) && (n <=? 13)) || ((28 <=? n) && (n <=? 32)).

Fixpoint lstrip (s : string) : string :=
  match s with
  | EmptyString => EmptyString
  | String c s' => if isspace c then lstrip s' else s
  end.

(** [str.strip()] with no argument. *)
Definition strip (s : string) : string :=
  rev_string (lstrip (rev_string (lstrip s))).

Fixpoint drop (n : nat) (s : string) : string :=
  match n, s with
  | O, _ => s
  | S _, EmptyString => EmptyString
  | S k, String _ s' => drop k s'
  end.

Fixpoint take (n : nat) (s : string) : string :=
  match n, s with
  | O, _ => EmptyString
  | S _, EmptyString => EmptyString
  | S k, String c s' => String c (take k s')
  end.

(** [s[a:]] for a non-negative literal [a]. *)
Definition slice_from (a : nat) (s : string) : string := drop a s.

(** [s[a:-b]] for non-negative literals [a] and [b > 0]: the end index is
    [max (len s - b) 0], and an end before the start gives the empty
    string. *)
Definition slice (a b : nat) (s : string) : string :=
  drop a (take (String.length s - b) s).

(** [new.join(...)] interleaved with the characters of [s]: the result of
    [s.replace(old, new)] for an empty [old]. *)
Fixpoint interleave (new s : string) : string :=
  match s with
  | EmptyString => new
  | String c s' => new +++ String c (interleave new s')
  end.

(** Left-to-right scan of [str.replace] for a non-empty [old]: [skip]
    counts the characters of the occurrence just replaced that are still
    to be passed over. *)
Fixpoint replace_from (old new : string) (skip : nat) (s : string) : string :=
  match s with
  | EmptyString => EmptyString
  | String c s' =>
      match skip with
      | S k => replace_from old new k s'
      | O =>
          if String.prefix old s
          then new +++ replace_from old new (String.length old - 1) s'
          else String c (replace_from old new 0 s')
      end
  end.

(** [s.replace(old, new)]: every non-overlapping occurrence, leftmost
    first. *)
Definition replace (s old new : string) : string :=
  match old with
  | EmptyString => interleave new s
  | String _ _ => replace_from old new 0 s
  end.

(** The same scan, cutting instead of substituting: [s.split(old)]. *)
Fixpoint split_from (old : string) (skip : nat) (s : string) : list string :=
  match s with
  | EmptyString => [EmptyString]
  | String c s' =>
      match skip with
      | S k => split_from old k s'
      | O =>
          if String.prefix old s
          then EmptyString :: split_from old (String.length old - 1) s'
          else match split_from old 0 s' with
               | [] => [String c EmptyString]
               | p :: ps => String c p :: ps
               end
      end
  end.

Definition split (s old : string) : list string := split_from old 0 s.

(** Number of positions of [s] at which [old] occurs. *)
Fixpoint occurrences (old s : string) : nat :=
  match s with
  | EmptyString => 0
  | String _ s' => (if String.prefix old s then 1 else 0) + occurrences old s'
  end.

(** [sum] over rationals, left to right from [0]. *)
Definition sum (l : list Q) : Q := fold_left Qplus l 0%Q.

Definition sum_int (l : list Z) : Z := fold_left Z.add l 0%Z.

(** Round half to even, the rule of Python's [round]. *)
Definition round_half_even (q : Q) : Z :=
  let f := Qfloor q in
  let r := (q - inject_Z f)%Q in
  match (r ?= 1 # 2)%Q with
  | Lt => f
  | Gt => (f + 1)%Z
  | Eq => if Z.even f then f else (f + 1)%Z
  end.

(** [round(q, 2)]. *)
Definition round2 (q : Q) : Q :=
  (inject_Z (round_half_even (q * 100)) / 100)%Q.

End Py.

(** ** Data model *)

(** JSON values, as [json.loads] builds them and [json.dumps] prints them. *)
#[warnings="-register-all"] Inductive json : Type :=
| JNull
| JBool (b : bool)
| JInt (n : Z)
| JFloat (mantissa exponent : Z)
| JString (s : string)
| JArray (items : list json)
| JObject (members : list (string * json)).

(** One normalized schema violation, the dictionary built at lines 82-86
    and 90 of [api_test_runs.py]. *)
Record violation := {
  v_message : string;
  v_path : list string;
  v_validator : string
}.

Module db_models.

(** Modelled from the spec: [app/db_models.py] is not among the sources;
    the rows carry the columns that the constructor calls and attribute
    accesses of [api_test_runs.py] and [api_mock_data_crud.py] name. *)
Record MasterPrompt := {
  mp_id : Z;
  prompt_content : string
}.

(** Modelled from the spec: a mock input set ([MockDataPrompt] row); its
    [generated_items] are the items whose [prompt_id] is its id. *)
Record MockDataPrompt := {
  mdp_id : Z
}.

(** Modelled from the spec: one mock input ([MockDataItem] row). *)
Record MockDataItem := {
  item_id : Z;
  prompt_id : Z;
  item_content : json
}.

(** Modelled from the spec: a JSON schema row. *)
Record JsonSchema := {
  schema_id : Z;
  schema_status : string;
  schema_content : json
}.

(** Modelled from the spec: a test run row.  [error_message] is the
    attribute that line 177 assigns. *)
Record TestRun := {
  id : Z;
  name : option string;
  master_prompt_id : Z;
  mock_data_prompt_id : Z;
  target_llm_model_ids : list string;
  master_schema_id : Z;
  status : string;
  started_at : option Q;
  completed_at : option Q;
  error_message : option string
}.

(** Modelled from the spec: a test result row, the keyword arguments of
    lines 114-125. *)
Record TestResult := {
  test_run_id : Z;
  target_llm_model_id : string;
  mock_input_data_used : json;
  llm_raw_output : option string;
  parse_status : option bool;
  schema_compliance_status : option string;
  validation_errors : option (list violation);
  execution_time_ms : option Q;
  tokens_used : option Z;
  result_error_message : option string
}.

Definition with_status (st : string) (r : TestRun) : TestRun :=
  {| id := id r; name := name r; master_prompt_id := master_prompt_id r;
     mock_data_prompt_id := mock_data_prompt_id r;
     target_llm_model_ids := target_llm_model_ids r;
     master_schema_id := master_schema_id r; status := st;
     started_at := started_at r; completed_at := completed_at r;
     error_message := error_message r |}.

Definition with_started_at (t : Q) (r : TestRun) : TestRun :=
  {| id := id r; name := name r; master_prompt_id := master_prompt_id r;
     mock_data_prompt_id := mock_data_prompt_id r;
     target_llm_model_ids := target_llm_model_ids r;
     master_schema_id := master_schema_id r; status := status r;
     started_at := Some t; completed_at := completed_at r;
     error_message := error_message r |}.

Definition with_completed_at (t : Q) (r : TestRun) : TestRun :=
  {| id := id r; name := name r; master_prompt_id := master_prompt_id r;
     mock_data_prompt_id := mock_data_prompt_id r;
     target_llm_model_ids := target_llm_model_ids r;
     master_schema_id := master_schema_id r; status := status r;
     started_at := started_at r; completed_at := Some t;
     error_message := error_message r |}.

Definition with_error_message (m : string) (r : TestRun) : TestRun :=
  {| id := id r; name := name r; master_prompt_id := master_prompt_id r;
     mock_data_prompt_id := mock_data_prompt_id r;
     target_llm_model_ids := target_llm_model_ids r;
     master_schema_id := master_schema_id r; status := status r;
     started_at := started_at r; completed_at := completed_at r;
     error_message := Some m |}.

Definition with_item_content (c : json) (it : MockDataItem) : MockDataItem :=
  {| item_id := item_id it; prompt_id := prompt_id it; item_content := c |}.

End db_models.

Module pydantic_models.

(** [TestRunCreate] of [app/models.py]. *)
Record TestRunCreate := {
  name : option string;
  master_prompt_id : Z;
  mock_data_prompt_id : Z;
  target_llm_model_ids : list string;
  master_schema_id : Z
}.

(** [LLMRunSummary] of [app/models.py]. *)
Record LLMRunSummary := {
  target_llm_model_id : string;
  total_tests : nat;
  successful_parses : nat;
  schema_compliant_tests : nat;
  schema_compliance_percentage : Q;
  average_execution_time_ms : option Q;
  total_tokens_used : option Z
}.

(** [TestRunOverallSummaryResponse] of [app/models.py]. *)
Record TestRunOverallSummaryResponse := {
  test_run_id : Z;
  test_run_name : option string;
  overall_total_tests : nat;
  llm_summaries : list LLMRunSummary
}.

End pydantic_models.

(** ** The LLM gateway envelope *)

Record chat_message := {
  role : string;
  content : string
}.

(** The message of a choice; a missing or null ["content"] is [None]. *)
Record response_message := {
  rm_content : option string
}.

(** A choice; a missing, null or empty ["message"] is [None]. *)
Record choice := {
  message : option response_message
}.

(** The decoded body of a chat completion: a dictionary with its
    ["choices"], or a value on which the key lookups of line 58 raise
    (the text is that of the exception). *)
Inductive response_json : Type :=
| Envelope (choices : list choice)
| NotAnEnvelope (err : string).

(** One invocation of the gateway, with the clock before and after it. *)
Record llm_call := {
  call_model : string;
  call_messages : list chat_message;
  call_temperature : Q;
  call_started : Q;
  call_finished : Q
}.

(** ** Exceptions *)

Inductive exn : Type :=
| LLMServiceError (msg : string) (status_code : option Z)
| RequestException (msg : string) (response : option (Z * string))
| JSONDecodeError (msg : string)
| ValidationError (msg : string) (path : list string) (validator : string)
| SchemaError (msg : string)
| ValueError (msg : string)
| HTTPException (status_code : Z) (detail : string)
| OperationalError (msg : string)
| OtherException (msg : string).

(** [str(e)]. *)
Definition str (e : exn) : string :=
  match e with
  | LLMServiceError m _ => m
  | RequestException m _ => m
  | JSONDecodeError m => m
  | ValidationError m _ _ => m
  | SchemaError m => m
  | ValueError m => m
  | HTTPException _ d => d
  | OperationalError m => m
  | OtherException m => m
  end.

Definition string_of_Z (z : Z) : string :=
  NilZero.string_of_int (Z.to_int z).

Inductive outcome (A : Type) : Type :=
| Returned (a : A)
| Raised (e : exn).
Arguments Returned {A} a.
Arguments Raised {A} e.

(** ** A state-and-exception monad *)

Section Monad.
Context {S : Type}.

Definition M (A : Type) : Type := S -> outcome A * S.

Definition ret {A} (a : A) : M A := fun s => (Returned a, s).

Definition bind {A B} (c : M A) (k : A -> M B) : M B :=
  fun s =>
    match c s with
    | (Returned a, s') => k a s'
    | (Raised e, s') => (Raised e, s')
    end.

Definition raise {A} (e : exn) : M A := fun s => (Raised e, s).

Definition get : M S := fun s => (Returned s, s).

Definition modify (f : S -> S) : M unit := fun s => (Returned tt, f s).

(** [try: body except ... as e: handler e]; a handler that does not
    match the class of [e] re-raises it. *)
Definition try_except {A} (body : M A) (handler : exn -> M A) : M A :=
  fun s =>
    match body s with
    | (Returned a, s') => (Returned a, s')
    | (Raised e, s') => handler e s'
    end.

(** [try: body finally: fin]. *)
Definition try_finally {A} (body : M A) (fin : M unit) : M A :=
  fun s =>
    match body s with
    | (o, s') =>
        match fin s' with
        | (Returned _, s'') => (o, s'')
        | (Raised e, s'') => (Raised e, s'')
        end
    end.

(** [for x in xs: body x]. *)
Fixpoint for_each {A} (xs : list A) (body : A -> M unit) : M unit :=
  match xs with
  | [] => ret tt
  | x :: xs' => bind (body x) (fun _ => for_each xs' body)
  end.

End Monad.
Arguments M : clear implicits.

(** Run a computation on a component of a larger state. *)
Definition zoom {S T A} (proj : T -> S) (upd : S -> T -> T) (c : M S A) : M T A :=
  fun t => match c (proj t) with (o, s') => (o, upd s' t) end.

Declare Scope monad_scope.
Delimit Scope monad_scope with monad.
Notation "x <- c1 ;; c2" := (bind c1 (fun x => c2))
  (at level 61, c1 at next level, right associativity) : monad_scope.
Notation "c1 ;; c2" := (bind c1 (fun _ => c2))
  (at level 61, right associativity) : monad_scope.
Local Open Scope monad_scope.

(** ** The world: database tables, clock and gateway trace *)

Record World := {
  db_master_prompts : list db_models.MasterPrompt;
  db_mock_data_prompts : list db_models.MockDataPrompt;
  db_mock_data_items : list db_models.MockDataItem;
  db_json_schemas : list db_models.JsonSchema;
  db_test_runs : list db_models.TestRun;
  db_test_results : list db_models.TestResult;
  db_ops : nat;
  clock : Q;
  llm_trace : list llm_call
}.

Definition set_mock_data_items (v : list db_models.MockDataItem) (w : World) : World :=
  {| db_master_prompts := db_master_prompts w;
     db_mock_data_prompts := db_mock_data_prompts w;
     db_mock_data_items := v;
     db_json_schemas := db_json_schemas w;
     db_test_runs := db_test_runs w;
     db_test_results := db_test_results w;
     db_ops := db_ops w; clock := clock w; llm_trace := llm_trace w |}.

Definition set_test_runs (v : list db_models.TestRun) (w : World) : World :=
  {| db_master_prompts := db_master_prompts w;
     db_mock_data_prompts := db_mock_data_prompts w;
     db_mock_data_items := db_mock_data_items w;
     db_json_schemas := db_json_schemas w;
     db_test_runs := v;
     db_test_results := db_test_results w;
     db_ops := db_ops w; clock := clock w; llm_trace := llm_trace w |}.

Definition set_test_results (v : list db_models.TestResult) (w : World) : World :=
  {| db_master_prompts := db_master_prompts w;
     db_mock_data_prompts := db_mock_data_prompts w;
     db_mock_data_items := db_mock_data_items w;
     db_json_schemas := db_json_schemas w;
     db_test_runs := db_test_runs w;
     db_test_results := v;
     db_ops := db_ops w; clock := clock w; llm_trace := llm_trace w |}.

Definition set_db_ops (v : nat) (w : World) : World :=
  {| db_master_prompts := db_master_prompts w;
     db_mock_data_prompts := db_mock_data_prompts w;
     db_mock_data_items := db_mock_data_items w;
     db_json_schemas := db_json_schemas w;
     db_test_runs := db_test_runs w;
     db_test_results := db_test_results w;
     db_ops := v; clock := clock w; llm_trace := llm_trace w |}.

Definition set_clock (v : Q) (w : World) : World :=
  {| db_master_prompts := db_master_prompts w;
     db_mock_data_prompts := db_mock_data_prompts w;
     db_mock_data_items := db_mock_data_items w;
     db_json_schemas := db_json_schemas w;
     db_test_runs := db_test_runs w;
     db_test_results := db_test_results w;
     db_ops := db_ops w; clock := v; llm_trace := llm_trace w |}.

Definition set_llm_trace (v : list llm_call) (w : World) : World :=
  {| db_master_prompts := db_master_prompts w;
     db_mock_data_prompts := db_mock_data_prompts w;
     db_mock_data_items := db_mock_data_items w;
     db_json_schemas := db_json_schemas w;
     db_test_runs := db_test_runs w;
     db_test_results := db_test_results w;
     db_ops := db_ops w; clock := clock w; llm_trace := v |}.

(** The phases of one test case whose duration the clock sees. *)
Inductive phase : Type :=
| PhBuildPrompt
| PhLLMCall
| PhInterpret
| PhValidate.

(** Replace the row of a run by [obj], the effect of flushing the ORM
    object on commit. *)
Fixpoint store_test_run (obj : db_models.TestRun) (rows : list db_models.TestRun)
  : list db_models.TestRun :=
  match rows with
  | [] => []
  | r :: rows' =>
      if (db_models.id r =? db_models.id obj)%Z
      then obj :: rows'
      else r :: store_test_run obj rows'
  end.

(** The locals of [run_single_test_case] that its handlers and its
    persistence step read (lines 37-42), next to the world. *)
Record case_frame := {
  cf_world : World;
  llm_raw_output : option string;
  parse_status : option bool;
  schema_compliance_status : option string;
  validation_errors_list : list violation;
  error_message_str : option string;
  tokens_used_val : option Z
}.

Definition cf_set_world (w : World) (f : case_frame) : case_frame :=
  {| cf_world := w; llm_raw_output := llm_raw_output f;
     parse_status := parse_status f;
     schema_compliance_status := schema_compliance_status f;
     validation_errors_list := validation_errors_list f;
     error_message_str := error_message_str f;
     tokens_used_val := tokens_used_val f |}.

Definition set_llm_raw_output (v : option string) (f : case_frame) : case_frame :=
  {| cf_world := cf_world f; llm_raw_output := v;
     parse_status := parse_status f;
     schema_compliance_status := schema_compliance_status f;
     validation_errors_list := validation_errors_list f;
     error_message_str := error_message_str f;
     tokens_used_val := tokens_used_val f |}.

Definition set_parse_status (v : option bool) (f : case_frame) : case_frame :=
  {| cf_world := cf_world f; llm_raw_output := llm_raw_output f;
     parse_status := v;
     schema_compliance_status := schema_compliance_status f;
     validation_errors_list := validation_errors_list f;
     error_message_str := error_message_str f;
     tokens_used_val := tokens_used_val f |}.

Definition set_schema_compliance_status (v : option string) (f : case_frame) : case_frame :=
  {| cf_world := cf_world f; llm_raw_output := llm_raw_output f;
     parse_status := parse_status f;
     schema_compliance_status := v;
     validation_errors_list := validation_errors_list f;
     error_message_str := error_message_str f;
     tokens_used_val := tokens_used_val f |}.

Definition set_validation_errors_list (v : list violation) (f : case_frame) : case_frame :=
  {| cf_world := cf_world f; llm_raw_output := llm_raw_output f;
     parse_status := parse_status f;
     schema_compliance_status := schema_compliance_status f;
     validation_errors_list := v;
     error_message_str := error_message_str f;
     tokens_used_val := tokens_used_val f |}.

Definition set_error_message_str (v : option string) (f : case_frame) : case_frame :=
  {| cf_world := cf_world f; llm_raw_output := llm_raw_output f;
     parse_status := parse_status f;
     schema_compliance_status := schema_compliance_status f;
     validation_errors_list := validation_errors_list f;
     error_message_str := v;
     tokens_used_val := tokens_used_val f |}.

(** The locals of [execute_test_run_background] that its [except] and
    [finally] clauses read: [test_run_obj] is [None] while it is unbound
    or bound to [None]. *)
Record run_frame := {
  rf_world : World;
  test_run_obj : option db_models.TestRun;
  test_cases_count : nat
}.

Definition rf_set_world (w : World) (f : run_frame) : run_frame :=
  {| rf_world := w; test_run_obj := test_run_obj f;
     test_cases_count := test_cases_count f |}.

Definition set_test_run_obj (v : option db_models.TestRun) (f : run_frame) : run_frame :=
  {| rf_world := rf_world f; test_run_obj := v;
     test_cases_count := test_cases_count f |}.

Definition set_test_cases_count (v : nat) (f : run_frame) : run_frame :=
  {| rf_world := rf_world f; test_run_obj := test_run_obj f;
     test_cases_count := v |}.

Definition on_world {A} (c : M World A) : M case_frame A :=
  zoom cf_world cf_set_world c.

Definition in_session {A} (c : M World A) : M run_frame A :=
  zoom rf_world rf_set_world c.

(** ** The environment of the engine

    What the code calls and does not define: [json.dumps], [json.loads]
    and [jsonschema.validate (instance, schema)] with the exception each
    may raise; the HTTP round trip of [requests.post(...)],
    [raise_for_status()] and [response.json()] for the [n]-th gateway
    call; whether the [n]-th database operation fails, and with which
    message; and the seconds a phase takes once [n] database operations
    have been attempted. *)
Record Env := {
  json_dumps : json -> string;
  json_loads : string -> outcome json;
  validate : json -> json -> outcome unit;
  requests_post :
    nat -> string -> list chat_message -> Q -> nat -> outcome response_json;
  db_fault : nat -> option string;
  latency : phase -> nat -> Q
}.

(** ** The engine *)

Section Engine.

Variable E : Env.

Definition lift_outcome {S A} (o : outcome A) : M S A := fun s => (o, s).

(** [time.monotonic()]. *)
Definition monotonic : M World Q := w <- get ;; ret (clock w).

(** [datetime.utcnow()], read off the same clock. *)
Definition utcnow : M World Q := w <- get ;; ret (clock w).

Definition elapse (ph : phase) : M World unit :=
  modify (fun w => set_clock (clock w + latency E ph (db_ops w))%Q w).

(** One awaited database operation: it either goes through or raises. *)
Definition db_operation : M World unit :=
  fun w =>
    let w' := set_db_ops (S (db_ops w)) w in
    match db_fault E (db_ops w) with
    | Some m => (Raised (OperationalError m), w')
    | None => (Returned tt, w')
    end.

(** [select(MockDataItem).filter(MockDataItem.id.in_(ids))], rows in
    table order. *)
Definition select_mock_data_items (ids : list Z) : M World (list db_models.MockDataItem) :=
  db_operation ;;
  w <- get ;;
  ret (filter (fun it => existsb (Z.eqb (db_models.item_id it)) ids)
         (db_mock_data_items w)).

(** [db.get(TestRun, test_run_id)]. *)
Definition get_test_run_row (test_run_id : Z) : M World (option db_models.TestRun) :=
  db_operation ;;
  w <- get ;;
  ret (find (fun r => (db_models.id r =? test_run_id)%Z) (db_test_runs w)).

(** [select(TestResult).filter(TestResult.test_run_id == run_id)]. *)
Definition select_test_results (run_id : Z) : M World (list db_models.TestResult) :=
  db_operation ;;
  w <- get ;;
  ret (filter (fun r => (db_models.test_run_id r =? run_id)%Z) (db_test_results w)).

(** [task_session.add(row); await task_session.commit()]. *)
Definition add_test_result (row : db_models.TestResult) : M World unit :=
  db_operation ;;
  modify (fun w => set_test_results (db_test_results w ++ [row]) w).

(** ** [llm_service.call_llm_chat_completions] *)

Definition call_llm_chat_completions
    (model_id : string) (messages : list chat_message)
    (temperature : Q) (max_tokens : nat) : M World response_json :=
  w <- get ;;
  let n := length (llm_trace w) in
  let started := clock w in
  elapse PhLLMCall ;;
  finished <- monotonic ;;
  modify (fun w' =>
    set_llm_trace (llm_trace w' ++
      [{| call_model := model_id; call_messages := messages;
          call_temperature := temperature;
          call_started := started; call_finished := finished |}]) w') ;;
  try_except
    (lift_outcome (requests_post E n model_id messages temperature max_tokens))
    (fun e =>
       match e with
       | RequestException _ (Some (code, text)) =>
           raise (LLMServiceError
                    ("LLM service error: " +++ string_of_Z code +++ " - " +++ text)
                    (Some code))
       | RequestException _ None =>
           raise (LLMServiceError
                    ("Could not connect to LLM service: " +++ str e) (Some 503%Z))
       | _ =>
           raise (LLMServiceError
                    ("An unexpected error occurred during chat completion: " +++ str e)
                    (Some 500%Z))
       end).

(** ** [run_single_test_case] *)

(** Lines 58-59: the content of the first choice's message, when the
    envelope has one. *)
Definition probe_response (llm_response : response_json) : M case_frame unit :=
  match llm_response with
  | NotAnEnvelope err => raise (OtherException err)
  | Envelope [] => ret tt
  | Envelope (c :: _) =>
      match message c with
      | None => ret tt
      | Some m => modify (set_llm_raw_output (rm_content m))
      end
  end.

(** Lines 66-69: drop a fenced-code-block wrapper. *)
Definition clean_markdown (raw : string) : string :=
  let stripped := Py.strip raw in
  if Py.startswith stripped "```json" then
    if Py.endswith stripped "```" then Py.slice 7 3 stripped
    else Py.slice_from 7 stripped
  else if Py.startswith stripped "```" then
    if Py.endswith stripped "```" then Py.slice 3 3 stripped
    else Py.slice_from 3 stripped
  else raw.

(** Lines 75-91. *)
Definition check_compliance (parsed_output master_schema_content : json)
  : M case_frame unit :=
  try_except
    (on_world (elapse PhValidate) ;;
     lift_outcome (validate E parsed_output master_schema_content) ;;
     modify (set_schema_compliance_status (Some "Pass"%string)))
    (fun e =>
       match e with
       | ValidationError m p v =>
           modify (set_schema_compliance_status (Some "Fail"%string)) ;;
           modify (fun f => set_validation_errors_list
                     (validation_errors_list f ++
                        [{| v_message := m; v_path := p; v_validator := v |}]) f)
       | sve =>
           modify (set_schema_compliance_status (Some "Fail"%string)) ;;
           modify (fun f => set_validation_errors_list
                     (validation_errors_list f ++
                        [{| v_message := str sve; v_path := [];
                            v_validator := "schema_error" |}]) f)
       end).

(** Lines 63-99. *)
Definition validate_output (master_schema_content : json) : M case_frame unit :=
  f <- get ;;
  match llm_raw_output f with
  | Some (String _ _ as raw) =>
      try_except
        (on_world (elapse PhInterpret) ;;
         let cleaned := clean_markdown raw in
         modify (set_llm_raw_output (Some cleaned)) ;;
         parsed_output <- lift_outcome (json_loads E cleaned) ;;
         modify (set_parse_status (Some true)) ;;
         check_compliance parsed_output master_schema_content)
        (fun e =>
           match e with
           | JSONDecodeError _ =>
               modify (set_parse_status (Some false)) ;;
               modify (set_schema_compliance_status
                         (Some "N/A (not valid JSON)"%string))
           | _ => raise e
           end)
  | _ =>
      modify (set_error_message_str (Some "LLM did not return any content."%string))
  end.

(** Line 47. *)
Definition final_prompt_content
    (master_prompt_content : string) (mock_data_item : db_models.MockDataItem) : string :=
  Py.replace master_prompt_content "{{INPUT_DATA}}"
    (json_dumps E (db_models.item_content mock_data_item)).

(** Line 49. *)
Definition prompt_messages
    (master_prompt_content : string) (mock_data_item : db_models.MockDataItem)
  : list chat_message :=
  [{| role := "user";
      content := final_prompt_content master_prompt_content mock_data_item |}].

(** Lines 44-107: the guarded block with its two handlers. *)
Definition guarded_case
    (master_prompt_content : string) (mock_data_item : db_models.MockDataItem)
    (target_llm_id : string) (master_schema_content : json) : M case_frame unit :=
  try_except
    (on_world (elapse PhBuildPrompt) ;;
     let prompt_messages := prompt_messages master_prompt_content mock_data_item in
     llm_response <- on_world
       (call_llm_chat_completions target_llm_id prompt_messages (1 # 2) 1024) ;;
     probe_response llm_response ;;
     validate_output master_schema_content)
    (fun e =>
       match e with
       | LLMServiceError _ _ =>
           modify (set_error_message_str
                     (Some ("LLM Service Error: " +++ str e)))
       | _ =>
           modify (set_error_message_str
                     (Some ("Unexpected error during test case: " +++ str e)))
       end).

Definition new_case_frame (w : World) : case_frame :=
  {| cf_world := w; llm_raw_output := None; parse_status := None;
     schema_compliance_status := None; validation_errors_list := [];
     error_message_str := None; tokens_used_val := None |}.

Definition run_single_test_case
    (test_run_id : Z) (master_prompt_content : string)
    (mock_data_item : db_models.MockDataItem)
    (target_llm_id : string) (master_schema_content : json) : M World unit :=
  fun w =>
    let body : M case_frame unit :=
      start_time <- on_world monotonic ;;
      guarded_case master_prompt_content mock_data_item target_llm_id
        master_schema_content ;;
      end_time <- on_world monotonic ;;
      let execution_time_ms := ((end_time - start_time) * 1000)%Q in
      f <- get ;;
      on_world (add_test_result
        {| db_models.test_run_id := test_run_id;
           db_models.target_llm_model_id := target_llm_id;
           db_models.mock_input_data_used := db_models.item_content mock_data_item;
           db_models.llm_raw_output := llm_raw_output f;
           db_models.parse_status := parse_status f;
           db_models.schema_compliance_status := schema_compliance_status f;
           db_models.validation_errors :=
             match validation_errors_list f with
             | [] => None
             | l => Some l
             end;
           db_models.execution_time_ms := Some execution_time_ms;
           db_models.tokens_used := tokens_used_val f;
           db_models.result_error_message := error_message_str f |})
    in
    match body (new_case_frame w) with
    | (o, f) => (o, cf_world f)
    end.

(** ** [execute_test_run_background] *)

Definition update_test_run_obj (g : db_models.TestRun -> db_models.TestRun)
  : M run_frame unit :=
  modify (fun f => set_test_run_obj (option_map g (test_run_obj f)) f).

(** [await db.commit()]: flush the run object held by the session. *)
Definition commit : M run_frame unit :=
  in_session db_operation ;;
  f <- get ;;
  match test_run_obj f with
  | Some obj =>
      in_session (modify (fun w => set_test_runs (store_test_run obj (db_test_runs w)) w))
  | None => ret tt
  end.

(** Lines 141-172, the body of the [try]. *)
Definition run_body
    (test_run_id : Z) (master_prompt_content : string)
    (mock_data_item_ids : list Z) (target_llm_ids : list string)
    (master_schema_content : json) : M run_frame unit :=
  mock_data_items <- in_session (select_mock_data_items mock_data_item_ids) ;;
  match mock_data_items with
  | [] =>
      raise (ValueError
               "No mock data items found for the provided IDs in background task.")
  | _ :: _ =>
      obj <- in_session (get_test_run_row test_run_id) ;;
      modify (set_test_run_obj obj) ;;
      match obj with
      | None => ret tt
      | Some _ =>
          now <- in_session utcnow ;;
          update_test_run_obj
            (fun r => db_models.with_started_at now (db_models.with_status "running" r)) ;;
          commit ;;
          modify (set_test_cases_count 0) ;;
          for_each target_llm_ids (fun target_llm_id =>
            for_each mock_data_items (fun mock_item =>
              in_session (run_single_test_case test_run_id master_prompt_content
                            mock_item target_llm_id master_schema_content) ;;
              modify (fun f => set_test_cases_count (test_cases_count f + 1) f))) ;;
          update_test_run_obj (db_models.with_status "completed")
      end
  end.

(** Lines 173-177, the [except Exception as e] clause. *)
Definition run_handler (e : exn) : M run_frame unit :=
  f <- get ;;
  match test_run_obj f with
  | Some _ =>
      update_test_run_obj
        (fun r => db_models.with_error_message (str e) (db_models.with_status "failed" r))
  | None => ret tt
  end.

(** Lines 178-181, the [finally] clause. *)
Definition run_finally : M run_frame unit :=
  f <- get ;;
  match test_run_obj f with
  | Some _ =>
      now <- in_session utcnow ;;
      update_test_run_obj (db_models.with_completed_at now) ;;
      commit
  | None => ret tt
  end.

Definition new_run_frame (w : World) : run_frame :=
  {| rf_world := w; test_run_obj := None; test_cases_count := 0 |}.

Definition execute_test_run_background
    (test_run_id : Z) (master_prompt_content : string)
    (mock_data_item_ids : list Z) (target_llm_ids : list string)
    (master_schema_content : json) : M World unit :=
  fun w =>
    match try_finally
            (try_except
               (run_body test_run_id master_prompt_content mock_data_item_ids
                  target_llm_ids master_schema_content)
               run_handler)
            run_finally (new_run_frame w) with
    | (o, f) => (o, rf_world f)
    end.

(** ** [create_and_initiate_test_run] *)

(** The arguments handed to [background_tasks.add_task]. *)
Record background_task := {
  task_test_run_id : Z;
  task_master_prompt_content : string;
  task_mock_data_item_ids : list Z;
  task_target_llm_ids : list string;
  task_master_schema_content : json
}.

(** The next value of an auto-incremented primary key. *)
Definition next_id (ids : list Z) : Z := (1 + fold_right Z.max 0 ids)%Z.

Definition create_and_initiate_test_run (test_run_create : pydantic_models.TestRunCreate)
  : M World (db_models.TestRun * background_task) :=
  (* 1. Validate foreign keys *)
  db_operation ;;
  w <- get ;;
  match find (fun p => (db_models.mp_id p =? pydantic_models.master_prompt_id test_run_create)%Z)
             (db_master_prompts w) with
  | None =>
      raise (HTTPException 404
               ("MasterPrompt with ID "
                +++ string_of_Z (pydantic_models.master_prompt_id test_run_create)
                +++ " not found."))
  | Some master_prompt =>
      db_operation ;;
      w <- get ;;
      match find (fun p => (db_models.mdp_id p
                            =? pydantic_models.mock_data_prompt_id test_run_create)%Z)
                 (db_mock_data_prompts w) with
      | None =>
          raise (HTTPException 404
                   ("MockDataPrompt with ID "
                    +++ string_of_Z (pydantic_models.mock_data_prompt_id test_run_create)
                    +++ " not found."))
      | Some mock_data_prompt =>
          let generated_items :=
            filter (fun it => (db_models.prompt_id it =? db_models.mdp_id mock_data_prompt)%Z)
                   (db_mock_data_items w) in
          match generated_items with
          | [] =>
              raise (HTTPException 400
                       ("MockDataPrompt ID "
                        +++ string_of_Z (pydantic_models.mock_data_prompt_id test_run_create)
                        +++ " has no generated mock data items."))
          | _ :: _ =>
              db_operation ;;
              w <- get ;;
              match find (fun sc => (db_models.schema_id sc
                                     =? pydantic_models.master_schema_id test_run_create)%Z)
                         (db_json_schemas w) with
              | None =>
                  raise (HTTPException 404
                           ("Master JsonSchema with ID "
                            +++ string_of_Z (pydantic_models.master_schema_id test_run_create)
                            +++ " not found."))
              | Some master_schema =>
                  (* 2. Create TestRun DB record *)
                  db_operation ;;
                  w <- get ;;
                  let db_test_run :=
                    {| db_models.id := next_id (map db_models.id (db_test_runs w));
                       db_models.name := pydantic_models.name test_run_create;
                       db_models.master_prompt_id :=
                         pydantic_models.master_prompt_id test_run_create;
                       db_models.mock_data_prompt_id :=
                         pydantic_models.mock_data_prompt_id test_run_create;
                       db_models.target_llm_model_ids :=
                         pydantic_models.target_llm_model_ids test_run_create;
                       db_models.master_schema_id :=
                         pydantic_models.master_schema_id test_run_create;
                       db_models.status := "queued";
                       db_models.started_at := None;
                       db_models.completed_at := None;
                       db_models.error_message := None |} in
                  modify (fun w => set_test_runs (db_test_runs w ++ [db_test_run]) w) ;;
                  db_operation ;;
                  (* 3. Add the actual test execution to background tasks *)
                  let mock_data_item_ids := map db_models.item_id generated_items in
                  db_operation ;;
                  ret (db_test_run,
                       {| task_test_run_id := db_models.id db_test_run;
                          task_master_prompt_content := db_models.prompt_content master_prompt;
                          task_mock_data_item_ids := mock_data_item_ids;
                          task_target_llm_ids := db_models.target_llm_model_ids db_test_run;
                          task_master_schema_content := db_models.schema_content master_schema |})
              end
          end
      end
  end.

(** The background unit of work that FastAPI runs after the response. *)
Definition run_background_task (t : background_task) : M World unit :=
  execute_test_run_background (task_test_run_id t) (task_master_prompt_content t)
    (task_mock_data_item_ids t) (task_target_llm_ids t) (task_master_schema_content t).

(** ** Mock item mutations of [api_mock_data_crud.py] *)

Definition update_specific_mock_data_item (item_id : Z) (new_content : json)
  : M World db_models.MockDataItem :=
  db_operation ;;
  w <- get ;;
  match find (fun it => (db_models.item_id it =? item_id)%Z) (db_mock_data_items w) with
  | None =>
      raise (HTTPException 404
               ("MockDataItem with ID " +++ string_of_Z item_id +++ " not found."))
  | Some db_item =>
      let updated := db_models.with_item_content new_content db_item in
      db_operation ;;
      modify (fun w =>
        set_mock_data_items
          (map (fun it => if (db_models.item_id it =? item_id)%Z then updated else it)
               (db_mock_data_items w)) w) ;;
      db_operation ;;
      ret updated
  end.

Definition delete_specific_mock_data_item (item_id : Z) : M World unit :=
  db_operation ;;
  w <- get ;;
  match find (fun it => (db_models.item_id it =? item_id)%Z) (db_mock_data_items w) with
  | None =>
      raise (HTTPException 404
               ("MockDataItem with ID " +++ string_of_Z item_id +++ " not found."))
  | Some _ =>
      db_operation ;;
      modify (fun w =>
        set_mock_data_items
          (filter (fun it => negb (db_models.item_id it =? item_id)%Z)
                  (db_mock_data_items w)) w)
  end.

(** ** [get_test_run_summary_by_llm] *)

(** The per-model accumulator that [defaultdict] creates at lines 338-344. *)
Record llm_stats := {
  st_total_tests : nat;
  st_successful_parses : nat;
  st_schema_compliant_tests : nat;
  st_execution_times : list Q;
  st_tokens : list Z
}.

Definition default_stats : llm_stats :=
  {| st_total_tests := 0; st_successful_parses := 0;
     st_schema_compliant_tests := 0; st_execution_times := [];
     st_tokens := [] |}.

(** [d[k]] of a [defaultdict] followed by in-place updates of the entry:
    an existing key keeps its position, a new key goes last. *)
Fixpoint dict_update (d : list (string * llm_stats)) (k : string)
    (g : llm_stats -> llm_stats) : list (string * llm_stats) :=
  match d with
  | [] => [(k, g default_stats)]
  | (k', v) :: d' =>
      if String.eqb k' k then (k', g v) :: d'
      else (k', v) :: dict_update d' k g
  end.

(** Lines 348-356. *)
Definition record_result (result : db_models.TestResult) (stats : llm_stats) : llm_stats :=
  {| st_total_tests := st_total_tests stats + 1;
     st_successful_parses :=
       match db_models.parse_status result with
       | Some true => st_successful_parses stats + 1
       | _ => st_successful_parses stats
       end;
     st_schema_compliant_tests :=
       match db_models.schema_compliance_status result with
       | Some s => if String.eqb s "Pass" then st_schema_compliant_tests stats + 1
                   else st_schema_compliant_tests stats
       | None => st_schema_compliant_tests stats
       end;
     st_execution_times :=
       match db_models.execution_time_ms result with
       | Some t => st_execution_times stats ++ [t]
       | None => st_execution_times stats
       end;
     st_tokens :=
       match db_models.tokens_used result with
       | Some t => st_tokens stats ++ [t]
       | None => st_tokens stats
       end |}.

(** Lines 346-356. *)
Definition aggregate (all_test_results_for_run : list db_models.TestResult)
  : list (string * llm_stats) :=
  fold_left
    (fun llm_stats_temp result =>
       dict_update llm_stats_temp (db_models.target_llm_model_id result)
         (record_result result))
    all_test_results_for_run [].

Definition ratio (a b : nat) : Q :=
  (inject_Z (Z.of_nat a) / inject_Z (Z.of_nat b))%Q.

(** Lines 363-375. *)
Definition summarize (entry : string * llm_stats) : pydantic_models.LLMRunSummary :=
  let (llm_id, stats) := entry in
  let avg_exec_time :=
    match st_execution_times stats with
    | [] => None
    | ts => Some (Py.sum ts / inject_Z (Z.of_nat (length ts)))%Q
    end in
  let total_tokens :=
    match st_tokens stats with
    | [] => None
    | ts => Some (Py.sum_int ts)
    end in
  let compliance_percentage :=
    if 0 <? st_total_tests stats
    then (ratio (st_schema_compliant_tests stats) (st_total_tests stats) * 100)%Q
    else 0%Q in
  {| pydantic_models.target_llm_model_id := llm_id;
     pydantic_models.total_tests := st_total_tests stats;
     pydantic_models.successful_parses := st_successful_parses stats;
     pydantic_models.schema_compliant_tests := st_schema_compliant_tests stats;
     pydantic_models.schema_compliance_percentage := Py.round2 compliance_percentage;
     pydantic_models.average_execution_time_ms := option_map Py.round2 avg_exec_time;
     pydantic_models.total_tokens_used := total_tokens |}.

Definition get_test_run_summary_by_llm (run_id : Z)
  : M World pydantic_models.TestRunOverallSummaryResponse :=
  db_test_run <- get_test_run_row run_id ;;
  match db_test_run with
  | None =>
      raise (HTTPException 404
               ("TestRun with ID " +++ string_of_Z run_id +++ " not found."))
  | Some db_test_run =>
      all_test_results_for_run <- select_test_results run_id ;;
      match all_test_results_for_run with
      | [] =>
          ret {| pydantic_models.test_run_id := run_id;
                 pydantic_models.test_run_name := db_models.name db_test_run;
                 pydantic_models.overall_total_tests := 0;
                 pydantic_models.llm_summaries := [] |}
      | _ :: _ =>
          let llm_stats_temp := aggregate all_test_results_for_run in
          ret {| pydantic_models.test_run_id := run_id;
                 pydantic_models.test_run_name := db_models.name db_test_run;
                 pydantic_models.overall_total_tests :=
                   fold_left (fun acc entry => acc + st_total_tests (snd entry))
                     llm_stats_temp 0;
                 pydantic_models.llm_summaries := map summarize llm_stats_temp |}
      end
  end.

(** ** Vocabulary of the properties *)

(** The tables and the operation counter are those of [w]. *)
Definition same_tables (w w' : World) : Prop :=
  db_master_prompts w' = db_master_prompts w /\
  db_mock_data_prompts w' = db_mock_data_prompts w /\
  db_mock_data_items w' = db_mock_data_items w /\
  db_json_schemas w' = db_json_schemas w /\
  db_test_runs w' = db_test_runs w /\
  db_test_results w' = db_test_results w /\
  db_ops w' = db_ops w.

(** The gateway call that a case makes from world [w]. *)
Definition case_call (mp : string) (it : db_models.MockDataItem) (m : string) (w : World)
  : llm_call :=
  {| call_model := m;
     call_messages := prompt_messages mp it;
     call_temperature := 1 # 2;
     call_started := clock w + latency E PhBuildPrompt (db_ops w);
     call_finished :=
       clock w + latency E PhBuildPrompt (db_ops w) + latency E PhLLMCall (db_ops w) |}.

(** Seconds spent after the gateway call and before the clock is read
    again: interpretation of a non-empty content, and the compliance check
    of a parsed one. *)
Definition post_call_time (d : nat) (r : outcome response_json) : Q :=
  match r with
  | Returned (Envelope (c :: _)) =>
      match message c with
      | Some {| rm_content := Some (String _ _ as raw) |} =>
          latency E PhInterpret d +
          match json_loads E (clean_markdown raw) with
          | Returned _ => latency E PhValidate d
          | Raised _ => 0
          end
      | _ => 0
      end
  | _ => 0
  end.

Definition locals_consistent (f : case_frame) : Prop :=
  (parse_status f = Some false ->
   schema_compliance_status f = Some "N/A (not valid JSON)"%string /\
   validation_errors_list f = []) /\
  (schema_compliance_status f = Some "Pass"%string -> validation_errors_list f = []).

(** The row that line 114 builds from the locals, for a case entered when
    the clock read [start_time]. *)
Definition case_row (test_run_id : Z) (it : db_models.MockDataItem) (m : string)
    (start_time : Q) (f : case_frame) : db_models.TestResult :=
  {| db_models.test_run_id := test_run_id;
     db_models.target_llm_model_id := m;
     db_models.mock_input_data_used := db_models.item_content it;
     db_models.llm_raw_output := llm_raw_output f;
     db_models.parse_status := parse_status f;
     db_models.schema_compliance_status := schema_compliance_status f;
     db_models.validation_errors :=
       match validation_errors_list f with
       | [] => None
       | l => Some l
       end;
     db_models.execution_time_ms := Some ((clock (cf_world f) - start_time) * 1000)%Q;
     db_models.tokens_used := tokens_used_val f;
     db_models.result_error_message := error_message_str f |}.

(** The invariants of a stored row that the claims speak of. *)
Definition result_consistent (r : db_models.TestResult) : Prop :=
  (db_models.parse_status r = Some false ->
   db_models.schema_compliance_status r = Some "N/A (not valid JSON)"%string /\
   db_models.validation_errors r = None) /\
  (db_models.schema_compliance_status r = Some "Pass"%string ->
   db_models.validation_errors r = None).

(** What one call of the executor does to the world: one gateway call,
    then one row, unless the write fails. *)
Definition row_of_case (id : Z) (p : string * db_models.MockDataItem)
    (row : db_models.TestResult) : Prop :=
  db_models.test_run_id row = id /\
  db_models.target_llm_model_id row = fst p /\
  db_models.mock_input_data_used row = db_models.item_content (snd p) /\
  db_models.tokens_used row = None /\
  db_models.execution_time_ms row <> None /\
  result_consistent row.

Definition call_of_case (mp : string) (p : string * db_models.MockDataItem)
    (c : llm_call) : Prop :=
  call_model c = fst p /\ call_messages c = prompt_messages mp (snd p).

(** Lines 161-169 for one pairing. *)
Definition case_step (id : Z) (mp : string) (sc : json)
    (p : string * db_models.MockDataItem) : M run_frame unit :=
  in_session (run_single_test_case id mp (snd p) (fst p) sc) ;;
  modify (fun f => set_test_cases_count (test_cases_count f + 1) f).

(** How many consecutive writes go through, of [n] starting at operation
    [d]. *)
Fixpoint completed_cases (d n : nat) : nat :=
  match n with
  | 0 => 0
  | S n' =>
      match db_fault E d with
      | None => S (completed_cases (S d) n')
      | Some _ => 0
      end
  end.

(** Everything but the results, the trace, the clock and the operation
    counter is as in [w]. *)
Definition config_unchanged (w w' : World) : Prop :=
  db_master_prompts w' = db_master_prompts w /\
  db_mock_data_prompts w' = db_mock_data_prompts w /\
  db_mock_data_items w' = db_mock_data_items w /\
  db_json_schemas w' = db_json_schemas w /\
  db_test_runs w' = db_test_runs w.

Definition loop_post (id : Z) (mp : string) (l : list (string * db_models.MockDataItem))
    (f : run_frame) (o : outcome unit) (f' : run_frame) : Prop :=
  let w := rf_world f in
  let w' := rf_world f' in
  let c := completed_cases (db_ops w) (length l) in
  let a := Nat.min (length l) (S c) in
  test_run_obj f' = test_run_obj f /\
  config_unchanged w w' /\
  db_ops w' = db_ops w + a /\
  (exists rows,
      db_test_results w' = db_test_results w ++ rows /\
      Forall2 (row_of_case id) (firstn c l) rows) /\
  (exists calls,
      llm_trace w' = llm_trace w ++ calls /\
      Forall2 (call_of_case mp) (firstn a l) calls) /\
  (c = length l ->
   o = Returned tt /\ test_cases_count f' = test_cases_count f + length l) /\
  (c < length l ->
   exists msg, db_fault E (db_ops w + c) = Some msg /\ o = Raised (OperationalError msg)).

(** The rows that line 142-144 load, and the row that line 150 loads. *)
Definition loaded_items (ids : list Z) (w : World) : list db_models.MockDataItem :=
  filter (fun it => existsb (Z.eqb (db_models.item_id it)) ids) (db_mock_data_items w).

Definition found_run (id : Z) (w : World) : option db_models.TestRun :=
  find (fun r => (db_models.id r =? id)%Z) (db_test_runs w).

(** The run object after lines 154-155. *)
Definition running_obj (w : World) (obj : db_models.TestRun) : db_models.TestRun :=
  db_models.with_started_at (clock w) (db_models.with_status "running" obj).

(** The run object after the [except] clause. *)
Definition failed_obj (msg : string) (obj : db_models.TestRun) : db_models.TestRun :=
  db_models.with_error_message msg (db_models.with_status "failed" obj).

End Engine.

(** The text that lines 58-63 hand to the interpretation step: the
    content of the first choice's message when it is a non-empty string. *)
Definition reply_content (r : outcome response_json) : option string :=
  match r with
  | Returned (Envelope (c :: _)) =>
      match message c with
      | Some {| rm_content := Some (String a s) |} => Some (String a s)
      | _ => None
      end
  | _ => None
  end.

(** ** Further endpoints

    The other routes of [api_test_runs.py], the routes of
    [api_mock_data_crud.py] for single items, the validation route of
    [api_json_schemas.py], the chat route of [api_llm_operations.py] and
    the model listing of [llm_service.py]. *)

(** SQL [ORDER BY], as a stable insertion sort for the order [leb]. *)
Fixpoint insert_by {A} (leb : A -> A -> bool) (x : A) (l : list A) : list A :=
  match l with
  | [] => [x]
  | y :: l' => if leb x y then x :: l else y :: insert_by leb x l'
  end.

Definition order_by {A} (leb : A -> A -> bool) (l : list A) : list A :=
  fold_right (insert_by leb) [] l.

(** [.offset(skip).limit(limit)] as SQLite runs it: a negative offset
    skips nothing and a negative limit does not bound the rows. *)
Definition offset_limit {A} (skip limit : Z) (l : list A) : list A :=
  let rest := skipn (Z.to_nat skip) l in
  if (limit <? 0)%Z then rest else firstn (Z.to_nat limit) rest.

(** [TestRunResponse] of [app/models.py]: a run with its nested results. *)
Record TestRunResponse := {
  tr_run : db_models.TestRun;
  tr_results : list db_models.TestResult
}.

(** [SchemaValidationResponse] of [app/models.py]; its error details have
    the fields of [violation]. *)
Record SchemaValidationResponse := {
  is_valid : bool;
  errors : option (list violation)
}.

(** [LLMModel] of [app/models.py]. *)
Record LLMModel := {
  model_id : string;
  model_name : string;
  model_description : option string
}.

(** [e.status_code or 500]. *)
Definition status_code_or (default : Z) (code : option Z) : Z :=
  match code with
  | Some c => if (c =? 0)%Z then default else c
  | None => default
  end.

(** Truthiness of a decoded JSON value. *)
Definition json_truthy (j : json) : bool :=
  match j with
  | JNull => false
  | JBool b => b
  | JInt n => negb (n =? 0)%Z
  | JFloat m _ => negb (m =? 0)%Z
  | JString s => negb (String.eqb s EmptyString)
  | JArray l => match l with [] => false | _ :: _ => true end
  | JObject l => match l with [] => false | _ :: _ => true end
  end.

(** [d.get(k)] on the members of a decoded object, whose keys are
    distinct. *)
Fixpoint dict_lookup (k : string) (members : list (string * json)) : option json :=
  match members with
  | [] => None
  | (k', v) :: rest => if String.eqb k' k then Some v else dict_lookup k rest
  end.

Section Endpoints.

Variable E : Env.

(** Modelled from the spec: [app/db_models.py] is not among the sources;
    the relationship [TestRun.results] that [selectinload] loads is taken
    to be the rows of the result table whose [test_run_id] is the id of
    the run, in table order. *)
Definition with_results (w : World) (r : db_models.TestRun) : TestRunResponse :=
  {| tr_run := r;
     tr_results :=
       filter (fun x => (db_models.test_run_id x =? db_models.id r)%Z)
              (db_test_results w) |}.

(** [list_test_runs], lines 254-276. *)
Definition list_test_runs (skip limit : Z) : M World (list TestRunResponse) :=
  db_operation E ;;
  w <- get ;;
  ret (map (with_results w)
         (offset_limit skip limit
            (order_by (fun a b => (db_models.id b <=? db_models.id a)%Z)
                      (db_test_runs w)))).

(** [get_test_run], lines 278-305. *)
Definition get_test_run (run_id : Z) : M World TestRunResponse :=
  db_operation E ;;
  w <- get ;;
  match find (fun r => (db_models.id r =? run_id)%Z) (db_test_runs w) with
  | None =>
      raise (HTTPException 404
               ("TestRun with ID " +++ string_of_Z run_id +++ " not found."))
  | Some test_run => ret (with_results w test_run)
  end.

(** [get_specific_mock_data_item] of [api_mock_data_crud.py]. *)
Definition get_specific_mock_data_item (item_id : Z) : M World db_models.MockDataItem :=
  db_operation E ;;
  w <- get ;;
  match find (fun it => (db_models.item_id it =? item_id)%Z) (db_mock_data_items w) with
  | None =>
      raise (HTTPException 404
               ("MockDataItem with ID " +++ string_of_Z item_id +++ " not found."))
  | Some item => ret item
  end.

(** [list_items_for_prompt] of [api_mock_data_crud.py]. *)
Definition list_items_for_prompt (prompt_id skip limit : Z)
  : M World (list db_models.MockDataItem) :=
  db_operation E ;;
  w <- get ;;
  match find (fun p => (db_models.mdp_id p =? prompt_id)%Z) (db_mock_data_prompts w) with
  | None =>
      raise (HTTPException 404
               ("MockDataPrompt with ID " +++ string_of_Z prompt_id +++ " not found."))
  | Some _ =>
      db_operation E ;;
      w <- get ;;
      ret (offset_limit skip limit
             (order_by (fun a b => (db_models.item_id a <=? db_models.item_id b)%Z)
                (filter (fun it => (db_models.prompt_id it =? prompt_id)%Z)
                        (db_mock_data_items w))))
  end.

(** [manually_add_item_to_prompt_set] of [api_mock_data_crud.py]. *)
Definition manually_add_item_to_prompt_set (prompt_id : Z) (item_content : json)
  : M World db_models.MockDataItem :=
  db_operation E ;;
  w <- get ;;
  match find (fun p => (db_models.mdp_id p =? prompt_id)%Z) (db_mock_data_prompts w) with
  | None =>
      raise (HTTPException 404
               ("MockDataPrompt with ID " +++ string_of_Z prompt_id +++ " not found."))
  | Some _ =>
      db_operation E ;;
      w <- get ;;
      let db_item :=
        {| db_models.item_id := next_id (map db_models.item_id (db_mock_data_items w));
           db_models.prompt_id := prompt_id;
           db_models.item_content := item_content |} in
      modify (fun w => set_mock_data_items (db_mock_data_items w ++ [db_item]) w) ;;
      db_operation E ;;
      ret db_item
  end.

(** [validate_object_against_schema] of [api_json_schemas.py], lines
    208-278. *)
Definition validate_object_against_schema (schema_id : Z) (json_object : json)
  : M World SchemaValidationResponse :=
  db_operation E ;;
  w <- get ;;
  match find (fun sc => (db_models.schema_id sc =? schema_id)%Z) (db_json_schemas w) with
  | None =>
      raise (HTTPException 404
               ("JSON schema with ID " +++ string_of_Z schema_id +++ " not found."))
  | Some db_schema =>
      match db_models.schema_content db_schema with
      | JObject _ =>
          try_except
            (lift_outcome (validate E json_object (db_models.schema_content db_schema)) ;;
             ret {| is_valid := true; errors := None |})
            (fun e =>
               match e with
               | ValidationError m p v =>
                   ret {| is_valid := false;
                          errors := Some [{| v_message := m; v_path := p;
                                             v_validator := v |}] |}
               | SchemaError m =>
                   raise (HTTPException 500
                            ("The stored schema (ID: " +++ string_of_Z schema_id
                             +++ ") is invalid: " +++ m))
               | _ =>
                   raise (HTTPException 500
                            ("An unexpected error occurred during validation: " +++ str e))
               end)
      | _ =>
          raise (HTTPException 500
                   "Stored schema content is not in a valid format for validation.")
      end
  end.

(** [test_chat_completions_with_llm_service] of [api_llm_operations.py]. *)
Definition test_chat_completions_with_llm_service
    (model_id : string) (messages : list chat_message)
    (temperature : Q) (max_tokens : nat) : M World response_json :=
  try_except
    (call_llm_chat_completions E model_id messages temperature max_tokens)
    (fun e =>
       match e with
       | LLMServiceError _ code =>
           raise (HTTPException (status_code_or 500 code) (str e))
       | _ =>
           raise (HTTPException 500 ("An unexpected error occurred: " +++ str e))
       end).

End Endpoints.

(** ** [llm_service.get_available_models] *)

Section Models.

(** The text of the error that pydantic raises when [LLMModel] is given
    these values for its three fields. *)
Variable llm_model_error : json -> json -> option json -> string.

(** [LLMModel(model_id=..., name=..., description=...)]: the first two
    fields must be strings, the third a string or nothing. *)
Definition make_LLMModel (id name : json) (description : option json)
  : outcome LLMModel :=
  match id, name, description with
  | JString i, JString n, None
  | JString i, JString n, Some JNull =>
      Returned {| model_id := i; model_name := n; model_description := None |}
  | JString i, JString n, Some (JString d) =>
      Returned {| model_id := i; model_name := n; model_description := Some d |}
  | _, _, _ => Raised (OtherException (llm_model_error id name description))
  end.

(** Lines 45-66 of [llm_service.py]: the loop over the items of ["data"]. *)
Fixpoint parse_models (model_list_to_parse : list json) : outcome (list LLMModel) :=
  match model_list_to_parse with
  | [] => Returned []
  | model_info :: rest =>
      match model_info with
      | JObject members =>
          match dict_lookup "id" members with
          | Some id =>
              if json_truthy id then
                let name := match dict_lookup "name" members with
                            | Some n => n
                            | None => id
                            end in
                match make_LLMModel id name (dict_lookup "description" members) with
                | Raised e => Raised e
                | Returned m =>
                    match parse_models rest with
                    | Raised e => Raised e
                    | Returned ms => Returned (m :: ms)
                    end
                end
              else parse_models rest
          | None => parse_models rest
          end
      | _ => parse_models rest
      end
  end.

(** [get_available_models], given what [requests.get(...)],
    [raise_for_status()] and [response.json()] produce. *)
Definition get_available_models (response : outcome json) : outcome (list LLMModel) :=
  match response with
  | Raised e =>
      match e with
      | RequestException _ _ =>
          Raised (LLMServiceError
                    ("Could not connect to LLM service: " +++ str e) (Some 503%Z))
      | _ =>
          Raised (LLMServiceError
                    ("An unexpected error occurred while fetching models: " +++ str e)
                    (Some 500%Z))
      end
  | Returned models_data_response =>
      let parsed :=
        match models_data_response with
        | JObject members =>
            match dict_lookup "data" members with
            | Some (JArray model_list_to_parse) => parse_models model_list_to_parse
            | _ => Returned []
            end
        | _ => Returned []
        end in
      match parsed with
      | Returned available_llms => Returned available_llms
      | Raised e =>
          Raised (LLMServiceError
                    ("An unexpected error occurred while fetching models: " +++ str e)
                    (Some 500%Z))
      end
  end.

(** [list_available_llm_models] of [api_llm_operations.py]. *)
Definition list_available_llm_models (response : outcome json) : outcome (list LLMModel) :=
  match get_available_models response with
  | Returned models => Returned models
  | Raised (LLMServiceError m code) =>
      Raised (HTTPException (status_code_or 500 code) m)
  | Raised _ =>
      Raised (HTTPException 500 "An unexpected error occurred while fetching models.")
  end.

End Models.

(** An entry of the gateway's listing that carries all three fields of a
    model, and one that carries only its id. *)
Definition entry_of_model (m : LLMModel) : json :=
  JObject [("id"%string, JString (model_id m));
           ("name"%string, JString (model_name m));
           ("description"%string,
            match model_description m with
            | Some d => JString d
            | None => JNull
            end)].

Definition bare_entry (id : string) : json :=
  JObject [("id"%string, JString id); ("object"%string, JString "model")].

(** An entry that the loop passes over: not an object, or an object whose
    id is missing, null or empty. *)
Definition unusable_entry (item : json) : Prop :=
  (forall members, item <> JObject members) \/
  exists members, item = JObject members /\
    (dict_lookup "id" members = None \/
     dict_lookup "id" members = Some JNull \/
     dict_lookup "id" members = Some (JString EmptyString)).

(** An entry that [LLMModel] rejects: its id is truthy but not a string,
    or its id is a non-empty string and its name is not a string. *)
Definition malformed_entry (item : json) : Prop :=
  exists members id,
    item = JObject members /\ dict_lookup "id" members = Some id /\
    json_truthy id = true /\
    ((forall s, id <> JString s) \/
     exists name, dict_lookup "name" members = Some name /\
                  forall s, name <> JString s).

(** ** Concrete scenarios *)

Module Scenario.

(** The double quote character. *)
Definition quote : ascii := ascii_of_nat 34.

Definition chat_reply (text : string) : outcome response_json :=
  Returned (Envelope [{| message := Some {| rm_content := Some text |} |}]).

(** A gateway that answers [[1, 2]], a parser that accepts exactly
    that text, a checker that accepts everything, no database fault; the
    gateway takes two seconds and the interpretation a tenth of a second. *)
Definition env_ok : Env :=
  {| json_dumps := fun j => match j with
                            | JString s => String quote (s +++ String quote EmptyString)
                            | _ => "{}"%string
                            end;
     json_loads := fun s =>
       if String.eqb s "[1, 2]"
       then Returned (JArray [JInt 1; JInt 2])
       else Raised (JSONDecodeError "Expecting value: line 1 column 1 (char 0)");
     validate := fun _ _ => Returned tt;
     requests_post := fun _ _ _ _ _ => chat_reply "[1, 2]";
     db_fault := fun _ => None;
     latency := fun ph _ => match ph with
                            | PhLLMCall => 2%Q
                            | PhInterpret => (1 # 10)%Q
                            | _ => 0%Q
                            end |}.

(** As [env_ok], but the database operation number [k] fails. *)
Definition env_fault_at (k : nat) : Env :=
  {| json_dumps := json_dumps env_ok;
     json_loads := json_loads env_ok;
     validate := validate env_ok;
     requests_post := requests_post env_ok;
     db_fault := fun n => if n =? k then Some "database is locked"%string else None;
     latency := latency env_ok |}.

(** As [env_ok], but the checker rejects the schema itself. *)
Definition env_schema_error : Env :=
  {| json_dumps := json_dumps env_ok;
     json_loads := json_loads env_ok;
     validate := fun _ _ => Raised (SchemaError "'strng' is not valid under any of the given schemas");
     requests_post := requests_post env_ok;
     db_fault := db_fault env_ok;
     latency := latency env_ok |}.

Definition item_x : db_models.MockDataItem :=
  {| db_models.item_id := 1; db_models.prompt_id := 1;
     db_models.item_content := JString "x" |}.

Definition item_y : db_models.MockDataItem :=
  {| db_models.item_id := 2; db_models.prompt_id := 1;
     db_models.item_content := JString "y" |}.

Definition queued_run (models : list string) : db_models.TestRun :=
  {| db_models.id := 1; db_models.name := Some "demo"%string;
     db_models.master_prompt_id := 1; db_models.mock_data_prompt_id := 1;
     db_models.target_llm_model_ids := models; db_models.master_schema_id := 1;
     db_models.status := "queued"; db_models.started_at := None;
     db_models.completed_at := None; db_models.error_message := None |}.

Definition schema : json := JObject [("type"%string, JString "object")].

Definition master_prompt : string := "Answer for {{INPUT_DATA}} in JSON.".

(** A database with one prompt, one input set of two items and one
    schema, and with the given rows in the run and result tables. *)
Definition world (runs : list db_models.TestRun) (results : list db_models.TestResult)
  : World :=
  {| db_master_prompts :=
       [{| db_models.mp_id := 1; db_models.prompt_content := master_prompt |}];
     db_mock_data_prompts := [{| db_models.mdp_id := 1 |}];
     db_mock_data_items := [item_x; item_y];
     db_json_schemas :=
       [{| db_models.schema_id := 1; db_models.schema_status := "approved_master";
           db_models.schema_content := schema |}];
     db_test_runs := runs;
     db_test_results := results;
     db_ops := 0; clock := 0; llm_trace := [] |}.

Definition timed_result (m : string) (ms : Q) : db_models.TestResult :=
  {| db_models.test_run_id := 1; db_models.target_llm_model_id := m;
     db_models.mock_input_data_used := JString "x";
     db_models.llm_raw_output := Some "[1, 2]"%string;
     db_models.parse_status := Some true;
     db_models.schema_compliance_status := Some "Pass"%string;
     db_models.validation_errors := None;
     db_models.execution_time_ms := Some ms;
     db_models.tokens_used := None;
     db_models.result_error_message := None |}.

Definition request : pydantic_models.TestRunCreate :=
  {| pydantic_models.name := Some "demo"%string;
     pydantic_models.master_prompt_id := 1;
     pydantic_models.mock_data_prompt_id := 1;
     pydantic_models.target_llm_model_ids := ["a"%string];
     pydantic_models.master_schema_id := 1 |}.

End Scenario.

(** ** The per-model statistics in the words of the specification

    A second definition of the summary of one model, from the rows of that
    model, to be compared with what [get_test_run_summary_by_llm]
    accumulates.  The average is the mean rounded to two places, which is
    what the code returns. *)

Definition of_model (m : string) (rs : list db_models.TestResult)
  : list db_models.TestResult :=
  filter (fun r => String.eqb (db_models.target_llm_model_id r) m) rs.

Definition parsed (r : db_models.TestResult) : bool :=
  match db_models.parse_status r with
  | Some true => true
  | _ => false
  end.

Definition compliant (r : db_models.TestResult) : bool :=
  match db_models.schema_compliance_status r with
  | Some s => String.eqb s "Pass"
  | None => false
  end.

Definition recorded_times (rs : list db_models.TestResult) : list Q :=
  flat_map (fun r => match db_models.execution_time_ms r with
                     | Some t => [t]
                     | None => []
                     end) rs.

Definition recorded_tokens (rs : list db_models.TestResult) : list Z :=
  flat_map (fun r => match db_models.tokens_used r with
                     | Some t => [t]
                     | None => []
                     end) rs.

Definition mean (ts : list Q) : Q :=
  (Py.sum ts / inject_Z (Z.of_nat (length ts)))%Q.

Definition summary_of_model (m : string) (rs : list db_models.TestResult)
  : pydantic_models.LLMRunSummary :=
  {| pydantic_models.target_llm_model_id := m;
     pydantic_models.total_tests := length rs;
     pydantic_models.successful_parses := length (filter parsed rs);
     pydantic_models.schema_compliant_tests := length (filter compliant rs);
     pydantic_models.schema_compliance_percentage :=
       Py.round2 (if 0 <? length rs
                  then (ratio (length (filter compliant rs)) (length rs) * 100)%Q
                  else 0%Q);
     pydantic_models.average_execution_time_ms :=
       match recorded_times rs with
       | [] => None
       | ts => Some (Py.round2 (mean ts))
       end;
     pydantic_models.total_tokens_used :=
       match recorded_tokens rs with
       | [] => None
       | ts => Some (Py.sum_int ts)
       end |}.

(** [d.get(k)]. *)
Fixpoint dict_get (d : list (string * llm_stats)) (k : string) : option llm_stats :=
  match d with
  | [] => None
  | (k', v) :: d' => if String.eqb k' k then Some v else dict_get d' k
  end.

Definition stats_or_default (o : option llm_stats) : llm_stats :=
  match o with
  | Some v => v
  | None => default_stats
  end.

Definition stats_of (rs : list db_models.TestResult) (st : llm_stats) : llm_stats :=
  fold_left (fun st r => record_result r st) rs st.

(** [aggregate] from any accumulator. *)
Definition aggregate_from (d : list (string * llm_stats)) (rs : list db_models.TestResult) :=
  fold_left
    (fun llm_stats_temp result =>
       dict_update llm_stats_temp (db_models.target_llm_model_id result)
         (record_result result)) rs d.

(** The overall total that lines 359-361 accumulate: the sum of the
    per-model totals, from [n]. *)
Definition sum_totals (d : list (string * llm_stats)) (n : nat) : nat :=
  fold_left (fun acc entry => acc + st_total_tests (snd entry)) d n.

(** ** Further scenarios *)

Module Cases.

(** As [Scenario.env_ok], with the given answer of the gateway. *)
Definition env_gateway (reply : outcome response_json) : Env :=
  {| json_dumps := json_dumps Scenario.env_ok;
     json_loads := json_loads Scenario.env_ok;
     validate := validate Scenario.env_ok;
     requests_post := fun _ _ _ _ _ => reply;
     db_fault := db_fault Scenario.env_ok;
     latency := latency Scenario.env_ok |}.

(** As [Scenario.env_ok], with the given answer of the schema checker. *)
Definition env_checker (verdict : outcome unit) : Env :=
  {| json_dumps := json_dumps Scenario.env_ok;
     json_loads := json_loads Scenario.env_ok;
     validate := fun _ _ => verdict;
     requests_post := requests_post Scenario.env_ok;
     db_fault := db_fault Scenario.env_ok;
     latency := latency Scenario.env_ok |}.

Definition too_many_requests : exn :=
  RequestException "429 Client Error: Too Many Requests"
    (Some (429%Z, "slow down"%string)).

Definition not_an_integer : exn :=
  ValidationError "'x' is not of type 'integer'" ["0"%string] "type".

Definition pydantic_text (id name : json) (description : option json) : string :=
  "1 validation error for LLMModel".

Definition gpt : LLMModel :=
  {| model_id := "gpt-4o"; model_name := "GPT-4o";
     model_description := Some "general purpose"%string |}.

Definition llama : LLMModel :=
  {| model_id := "llama3"; model_name := "llama3"; model_description := None |}.

(** A listing in the gateway's format. *)
Definition listing (entries : list json) : list (string * json) :=
  [("object"%string, JString "list"); ("data"%string, JArray entries)].

End Cases.

(** * Properties *)

(** ** The Python primitives on examples *)

Example replace_twice :
  Py.replace "a{{X}}b{{X}}c" "{{X}}" "1" = "a1b1c"%string.
Proof. reflexivity. Qed.

Example replace_absent : Py.replace "abc" "{{X}}" "1" = "abc"%string.
Proof. reflexivity. Qed.

Example replace_empty_old : Py.replace "ab" EmptyString "-" = "-a-b-"%string.
Proof. reflexivity. Qed.

Example split_twice : Py.split "a{{X}}b{{X}}c" "{{X}}" = ["a"; "b"; "c"]%string.
Proof. reflexivity. Qed.

Example strip_example :
  Py.strip (String "010" "  x y " +++ String "010" EmptyString) = "x y"%string.
Proof. reflexivity. Qed.

Example slice_example : Py.slice 7 3 "```json{}```" = "{}"%string.
Proof. reflexivity. Qed.

Example slice_short : Py.slice 3 3 "````" = EmptyString.
Proof. reflexivity. Qed.

Example round2_third : (Py.round2 (100 # 3) == 3333 # 100)%Q.
Proof. reflexivity. Qed.

Example round2_half_even : (Py.round2 (1 # 8) == 12 # 100)%Q.
Proof. reflexivity. Qed.

(** ** Prompt templating *)

Section Replace.

Variables old new : string.

Lemma prefix_drop (a s : string) :
  String.prefix a s = true -> s = a +++ Py.drop (String.length a) s.
Proof.
  revert s. induction a as [|c a IH]; intros s H.
  - reflexivity.
  - destruct s as [|d s]; simpl in H; [discriminate|].
    destruct (ascii_dec c d) as [->|]; [|discriminate].
    simpl. f_equal. apply IH, H.
Qed.

Lemma split_from_nonempty (skip : nat) (s : string) :
  exists p ps, Py.split_from old skip s = p :: ps.
Proof.
  revert skip. induction s as [|c s IH]; intros skip; cbn [Py.split_from].
  - do 2 eexists; reflexivity.
  - destruct skip as [|k]; [|apply IH].
    destruct (String.prefix old (String c s)); [do 2 eexists; reflexivity|].
    destruct (IH 0) as (p & ps & ->). do 2 eexists; reflexivity.
Qed.

Lemma concat_cons_string (sep : string) (c : ascii) (p : string) (ps : list string) :
  String.concat sep (String c p :: ps) = String c (String.concat sep (p :: ps)).
Proof. destruct ps; reflexivity. Qed.

Lemma concat_empty_cons (sep p : string) (ps : list string) :
  String.concat sep (EmptyString :: p :: ps) = sep +++ String.concat sep (p :: ps).
Proof. reflexivity. Qed.

(** [s.replace(old, new) == new.join(s.split(old))], at every point of
    the scan. *)
Lemma replace_from_join (skip : nat) (s : string) :
  Py.replace_from old new skip s = String.concat new (Py.split_from old skip s).
Proof.
  revert skip. induction s as [|c s IH]; intros skip;
    cbn [Py.split_from Py.replace_from].
  - reflexivity.
  - destruct skip as [|k]; [|apply IH].
    destruct (String.prefix old (String c s)).
    + destruct (split_from_nonempty (String.length old - 1) s) as (p & ps & Hs).
      rewrite IH, Hs. reflexivity.
    + destruct (split_from_nonempty 0 s) as (p & ps & Hs).
      rewrite IH, Hs, concat_cons_string. reflexivity.
Qed.

(** [old.join(s.split(old))] gives back what the scan still had to read. *)
Lemma join_split_from (skip : nat) (s : string) :
  old <> EmptyString ->
  String.concat old (Py.split_from old skip s) = Py.drop skip s.
Proof.
  intros Hold. revert skip. induction s as [|c s IH]; intros skip;
    cbn [Py.split_from].
  - destruct skip; reflexivity.
  - destruct skip as [|k]; [|apply IH].
    destruct (String.prefix old (String c s)) eqn:Hp.
    + destruct (split_from_nonempty (String.length old - 1) s) as (p & ps & Hs).
      rewrite Hs, concat_empty_cons, <- Hs, IH.
      pose proof (prefix_drop _ _ Hp) as Hd.
      destruct old as [|o old']; [congruence|].
      cbn [String.length Py.drop String.append] in Hd |- *.
      rewrite Nat.sub_succ, Nat.sub_0_r. symmetry. exact Hd.
    + destruct (split_from_nonempty 0 s) as (p & ps & Hs).
      rewrite Hs, concat_cons_string, <- Hs, IH. reflexivity.
Qed.

End Replace.

(** ** The per-case executor *)

Section Properties.

Variable E : Env.

#[local] Arguments Qplus : simpl never.
#[local] Arguments Qmult : simpl never.
#[local] Arguments Qminus : simpl never.

Ltac splits := repeat match goal with |- _ /\ _ => split end.

Ltac run_monad :=
  unfold guarded_case, validate_output, check_compliance, probe_response,
    call_llm_chat_completions, elapse, monotonic, on_world, zoom, try_except,
    bind, modify, get, ret, raise, lift_outcome;
  cbn.

Ltac leaf :=
  eexists; split; [reflexivity|];
  cbn; unfold same_tables, locals_consistent; cbn;
  repeat split; try reflexivity; try discriminate; try (intros; discriminate);
  try ring.

(** The guarded block always returns: it makes one gateway call, leaves
    the tables alone, and leaves locals that are consistent. *)
Lemma guarded_case_returns mp it m sc w :
  exists f,
    guarded_case E mp it m sc (new_case_frame w) = (Returned tt, f) /\
    same_tables w (cf_world f) /\
    llm_trace (cf_world f) = llm_trace w ++ [case_call E mp it m w] /\
    (clock (cf_world f) ==
       call_finished (case_call E mp it m w) +
       post_call_time E (db_ops w)
         (requests_post E (length (llm_trace w)) m (prompt_messages E mp it) (1 # 2) 1024))%Q /\
    locals_consistent f /\
    tokens_used_val f = None.
Proof.
  unfold post_call_time, case_call. run_monad.
  destruct (requests_post E _ _ _ _ _) as [r|e].
  - destruct r as [[|c cs]|err]; run_monad.
    + leaf.
    + destruct (message c) as [[[[|ch raw]|]]|]; run_monad.
      * leaf.
      * destruct (json_loads E _) as [v|e]; run_monad.
        -- destruct (validate E v sc) as [[]|e]; run_monad.
           ++ leaf.
           ++ destruct e; run_monad; leaf.
        -- destruct e; run_monad; leaf.
      * leaf.
      * leaf.
    + leaf.
  - destruct e as [| ? [[]|] | | | | | | | ]; run_monad; leaf.
Qed.

(** The executor is its guarded block followed by the write of the row. *)
Lemma run_single_test_case_unfold id mp it m sc w :
  forall f, guarded_case E mp it m sc (new_case_frame w) = (Returned tt, f) ->
  run_single_test_case E id mp it m sc w =
  add_test_result E (case_row id it m (clock w) f) (cf_world f).
Proof.
  intros f Hf. unfold run_single_test_case, bind, on_world, zoom, monotonic, get, ret.
  cbn. change (cf_set_world w (new_case_frame w)) with (new_case_frame w).
  rewrite Hf. cbn.
  unfold add_test_result, bind, db_operation, modify. cbn.
  destruct (db_fault E (db_ops (cf_world f))); reflexivity.
Qed.

Lemma add_test_result_ok row w :
  db_fault E (db_ops w) = None ->
  add_test_result E row w =
  (Returned tt, set_test_results (db_test_results w ++ [row]) (set_db_ops (S (db_ops w)) w)).
Proof.
  intros H. unfold add_test_result, bind, db_operation, modify. rewrite H. reflexivity.
Qed.

Lemma add_test_result_fault row w msg :
  db_fault E (db_ops w) = Some msg ->
  add_test_result E row w = (Raised (OperationalError msg), set_db_ops (S (db_ops w)) w).
Proof.
  intros H. unfold add_test_result, bind, db_operation, modify. rewrite H. reflexivity.
Qed.

Lemma case_row_consistent id it m t f :
  locals_consistent f -> result_consistent (case_row id it m t f).
Proof.
  intros [H1 H2]. split; cbn; intros H.
  - destruct (H1 H) as [-> ->]. auto.
  - rewrite (H2 H). reflexivity.
Qed.

Lemma run_single_test_case_step id mp it m sc w :
  exists row call w1,
    row_of_case id (m, it) row /\ call_of_case E mp (m, it) call /\
    same_tables w w1 /\ llm_trace w1 = llm_trace w ++ [call] /\
    run_single_test_case E id mp it m sc w = add_test_result E row w1.
Proof.
  destruct (guarded_case_returns mp it m sc w) as (f & Hf & Ht & Hl & _ & Hc & Htok).
  exists (case_row id it m (clock w) f), (case_call E mp it m w), (cf_world f).
  split; [|split; [|split; [|split]]]; auto.
  - unfold row_of_case; cbn.
    repeat (split; [first [reflexivity | assumption | discriminate]|]).
    apply (case_row_consistent id it m (clock w) f Hc).
  - split; reflexivity.
  - apply run_single_test_case_unfold, Hf.
Qed.

(** ** The fan-out loop *)

Lemma for_each_app {S A} (l1 l2 : list A) (body : A -> M S unit) (s : S) :
  for_each (l1 ++ l2) body s = (for_each l1 body ;; for_each l2 body) s.
Proof.
  revert s. induction l1 as [|x l1 IH]; intros s; cbn [for_each app].
  - unfold bind, ret. destruct (for_each l2 body s) as [[[]|e] s']; reflexivity.
  - unfold bind in *. destruct (body x s) as [[[]|e] s']; [|reflexivity].
    apply IH.
Qed.

Lemma for_each_map {S A B} (g : A -> B) (l : list A) (body : B -> M S unit) (s : S) :
  for_each (map g l) body s = for_each l (fun x => body (g x)) s.
Proof.
  revert s. induction l as [|x l IH]; intros s; cbn; [reflexivity|].
  unfold bind. destruct (body (g x) s) as [[[]|e] s']; [apply IH|reflexivity].
Qed.

(** The nested loops of lines 159-169 visit the cross product, model by
    model. *)
Lemma for_each_nested {S A B} (xs : list A) (ys : list B) (body : A -> B -> M S unit) (s : S) :
  for_each xs (fun x => for_each ys (body x)) s =
  for_each (list_prod xs ys) (fun p => body (fst p) (snd p)) s.
Proof.
  revert s. induction xs as [|x xs IH]; intros s; cbn [for_each list_prod].
  - reflexivity.
  - rewrite for_each_app. unfold bind. rewrite for_each_map. cbn [fst snd].
    destruct (for_each ys _ s) as [[[]|e] s']; [apply IH|reflexivity].
Qed.

Lemma completed_cases_le d n : completed_cases E d n <= n.
Proof.
  revert d. induction n as [|n IH]; intros d; cbn; [lia|].
  destruct (db_fault E d); [lia|]. specialize (IH (S d)). lia.
Qed.

(** The loop over the pairings stops at the first write that fails. *)
Lemma cases_loop id mp sc l :
  forall f, exists o f',
    for_each l (case_step E id mp sc) f = (o, f') /\ loop_post E id mp l f o f'.
Proof.
  induction l as [|[m it] l IH]; intros f.
  - exists (Returned tt), f. split; [reflexivity|].
    unfold loop_post, config_unchanged; cbn.
    splits; try reflexivity; try lia.
    + exists []. rewrite app_nil_r. split; [reflexivity|constructor].
    + exists []. rewrite app_nil_r. split; [reflexivity|constructor].
    + intros _. split; [reflexivity|lia].
  - destruct (run_single_test_case_step id mp it m sc (rf_world f))
      as (row & call & w1 & Hrow & Hcall & Ht & Htr & Hrun).
    destruct Ht as (T1 & T2 & T3 & T4 & T5 & T6 & T7).
    cbn [for_each]. unfold bind at 1. unfold case_step at 1.
    unfold bind at 1. unfold in_session at 1. unfold zoom. cbn [fst snd].
    rewrite Hrun.
    destruct (db_fault E (db_ops (rf_world f))) as [msg|] eqn:Hfault.
    + rewrite (add_test_result_fault row w1 msg) by (rewrite T7; exact Hfault).
      do 2 eexists. split; [reflexivity|].
      unfold loop_post, config_unchanged; cbn. rewrite Hfault. cbn.
      splits; auto; try lia.
      * exists []. rewrite app_nil_r. split; [assumption|constructor].
      * exists [call]. split; [assumption|].
        rewrite Nat.min_0_r. constructor; [exact Hcall|constructor].
      * intros _. exists msg. rewrite Nat.add_0_r. auto.
    + rewrite (add_test_result_ok row w1) by (rewrite T7; exact Hfault).
      unfold modify at 1.
      match goal with
      | |- context [for_each l _ ?g] => destruct (IH g) as (o & f' & Hloop & Hpost)
      end.
      exists o, f'. split; [exact Hloop|].
      unfold loop_post, config_unchanged in *; cbn in *. rewrite Hfault. rewrite T7 in Hpost.
      destruct Hpost as (P1 & (C1 & C2 & C3 & C4 & C5) & P3 & (rows & R1 & R2)
                         & (calls & L1 & L2) & P6 & P7).
      splits; try congruence; try lia.
      * exists (row :: rows). rewrite R1, T6, <- app_assoc. split; [reflexivity|].
        constructor; assumption.
      * exists (call :: calls). rewrite L1, Htr, <- app_assoc. split; [reflexivity|].
        constructor; assumption.
      * intros H. destruct P6 as [P6 P6']; [lia|]. split; [exact P6|]. rewrite P6'. lia.
      * intros H. destruct P7 as (msg & M1 & M2); [lia|]. exists msg. split; [|exact M2].
        rewrite <- M1. f_equal. lia.
Qed.

(** ** The background driver *)

Ltac run_driver :=
  unfold execute_test_run_background, try_finally, try_except, run_body,
    run_handler, run_finally, commit, update_test_run_obj,
    select_mock_data_items, get_test_run_row, utcnow, db_operation,
    in_session, zoom, bind, modify, get, ret, raise;
  cbn [fst snd rf_world test_run_obj test_cases_count new_run_frame
       rf_set_world set_test_run_obj set_test_cases_count option_map
       db_ops set_db_ops db_test_runs db_mock_data_items].

(** Nothing is recorded when the inputs or the run cannot be loaded. *)
Lemma driver_unloaded id mp ids ms sc w :
  db_fault E (db_ops w) <> None \/ loaded_items ids w = [] \/
  db_fault E (S (db_ops w)) <> None \/ found_run id w = None ->
  let w' := snd (execute_test_run_background E id mp ids ms sc w) in
  config_unchanged w w' /\ db_test_results w' = db_test_results w /\
  llm_trace w' = llm_trace w.
Proof.
  unfold loaded_items, found_run. intros H. run_driver.
  destruct (db_fault E (db_ops w)) eqn:F0; cbn.
  { unfold config_unchanged; cbn; auto 10. }
  destruct (filter _ (db_mock_data_items w)) as [|it0 its] eqn:Hitems; cbn.
  { unfold config_unchanged; cbn; auto 10. }
  destruct (db_fault E (S (db_ops w))) eqn:F1; cbn.
  { unfold config_unchanged; cbn; auto 10. }
  destruct (find _ (db_test_runs w)) eqn:Hfind; cbn.
  { exfalso. destruct H as [H|[H|[H|H]]]; congruence. }
  unfold config_unchanged; cbn; auto 10.
Qed.

(** When the commit of the running status raises, no pairing is run. *)
Lemma driver_start_commit_fault id mp ids ms sc w obj msg :
  db_fault E (db_ops w) = None -> loaded_items ids w <> [] ->
  db_fault E (S (db_ops w)) = None -> found_run id w = Some obj ->
  db_fault E (S (S (db_ops w))) = Some msg ->
  let w' := snd (execute_test_run_background E id mp ids ms sc w) in
  db_test_results w' = db_test_results w /\ llm_trace w' = llm_trace w /\
  db_mock_data_items w' = db_mock_data_items w /\
  (db_fault E (S (S (S (db_ops w)))) = None ->
   db_test_runs w' =
   store_test_run (db_models.with_completed_at (clock w) (failed_obj msg (running_obj w obj)))
     (db_test_runs w)) /\
  (db_fault E (S (S (S (db_ops w)))) <> None -> db_test_runs w' = db_test_runs w).
Proof.
  unfold loaded_items, found_run. intros F0 Hitems F1 Hfind F2. run_driver.
  rewrite F0; cbn.
  destruct (filter _ (db_mock_data_items w)) as [|it0 its]; [congruence|]. cbn.
  rewrite F1; cbn. rewrite Hfind; cbn. rewrite F2; cbn.
  destruct (db_fault E (S (S (S (db_ops w))))); cbn; splits; auto;
    intros H; congruence.
Qed.

(** The driver once the inputs and the run are loaded and the running
    status is committed: the loop, then the terminal status and the last
    commit. *)
Lemma driver_loaded id mp ids ms sc w obj :
  db_fault E (db_ops w) = None -> loaded_items ids w <> [] ->
  db_fault E (S (db_ops w)) = None -> found_run id w = Some obj ->
  db_fault E (S (S (db_ops w))) = None ->
  let w' := snd (execute_test_run_background E id mp ids ms sc w) in
  let pairs := list_prod ms (loaded_items ids w) in
  let c := completed_cases E (3 + db_ops w) (length pairs) in
  let a := Nat.min (length pairs) (S c) in
  exists rows calls t final,
    db_test_results w' = db_test_results w ++ rows /\
    Forall2 (row_of_case id) (firstn c pairs) rows /\
    llm_trace w' = llm_trace w ++ calls /\
    Forall2 (call_of_case E mp) (firstn a pairs) calls /\
    db_mock_data_items w' = db_mock_data_items w /\
    (c = length pairs -> final = db_models.with_status "completed" (running_obj w obj)) /\
    (c < length pairs ->
     exists msg, db_fault E (3 + db_ops w + c) = Some msg /\
                 final = failed_obj msg (running_obj w obj)) /\
    (db_fault E (3 + db_ops w + a) = None ->
     db_test_runs w' =
     store_test_run (db_models.with_completed_at t final)
       (store_test_run (running_obj w obj) (db_test_runs w))) /\
    (db_fault E (3 + db_ops w + a) <> None ->
     db_test_runs w' = store_test_run (running_obj w obj) (db_test_runs w)).
Proof.
  unfold loaded_items, found_run. intros F0 Hitems F1 Hfind F2. run_driver.
  rewrite F0; cbn.
  destruct (filter _ (db_mock_data_items w)) as [|it0 its] eqn:Hf; [congruence|]. cbn.
  rewrite F1; cbn. rewrite Hfind; cbn. rewrite F2; cbn.
  rewrite (for_each_nested ms (it0 :: its)
             (fun m it => case_step E id mp sc (m, it))).
  match goal with
  | |- context [for_each ?l ?b ?g] =>
      change (for_each l b g) with (for_each l (case_step E id mp sc) g)
  end.
  match goal with
  | |- context [for_each ?l _ ?g] =>
      destruct (cases_loop id mp sc l g) as (o & f' & Hloop & Hpost); rewrite Hloop
  end.
  unfold loop_post, config_unchanged in Hpost; cbn in Hpost.
  destruct Hpost as (P1 & (C1 & C2 & C3 & C4 & C5) & P3 & (rows & R1 & R2)
                     & (calls & L1 & L2) & P6 & P7).
  set (pairs := list_prod ms (it0 :: its)) in *.
  set (c := completed_cases E (S (S (S (db_ops w)))) (length pairs)) in *.
  destruct (Nat.eq_dec c (length pairs)) as [Hc|Hc].
  - destruct (P6 Hc) as [-> Hcount]. cbn. rewrite P1; cbn.
    exists rows, calls, (clock (rf_world f')),
      (db_models.with_status "completed" (running_obj w obj)).
    destruct (db_fault E (db_ops (rf_world f'))) eqn:FF; cbn;
      rewrite P3 in FF; cbn in FF;
      (splits; auto; try (intros; lia); intros H; cbn in H; try congruence).
    rewrite C5. reflexivity.
  - assert (Hlt : c < length pairs).
    { pose proof (completed_cases_le (S (S (S (db_ops w)))) (length pairs)).
      unfold c in *. lia. }
    destruct (P7 Hlt) as (msg & M1 & ->). cbn. repeat (rewrite P1; cbn).
    exists rows, calls, (clock (rf_world f')), (failed_obj msg (running_obj w obj)).
    destruct (db_fault E (db_ops (rf_world f'))) eqn:FF; cbn;
      rewrite P3 in FF; cbn in FF;
      (splits; auto; try (intros; lia); intros H; cbn in H; try congruence);
      try (exists msg; auto).
    rewrite C5. reflexivity.
Qed.

(** ** Rows of the run table *)

Lemma list_eq_dec_nil {A} (l : list A) : {l = []} + {l <> []}.
Proof. destruct l; [left; reflexivity|right; discriminate]. Qed.

Lemma found_run_id id w obj : found_run id w = Some obj -> db_models.id obj = id.
Proof.
  unfold found_run. intros H. apply find_some in H. destruct H as [_ H].
  apply Z.eqb_eq, H.
Qed.

Lemma find_store_test_run id obj obj' rows :
  find (fun r => (db_models.id r =? id)%Z) rows = Some obj ->
  db_models.id obj' = id ->
  find (fun r => (db_models.id r =? id)%Z) (store_test_run obj' rows) = Some obj'.
Proof.
  intros Hfind Hid. induction rows as [|r rows IH]; cbn in *; [discriminate|].
  rewrite Hid. destruct (db_models.id r =? id)%Z eqn:Hr; cbn.
  - rewrite Hid, Z.eqb_refl. reflexivity.
  - rewrite Hr. apply IH, Hfind.
Qed.

Lemma found_run_stored id obj' w' rows :
  db_test_runs w' = store_test_run obj' rows ->
  db_models.id obj' = id ->
  find (fun r => (db_models.id r =? id)%Z) rows <> None ->
  found_run id w' = Some obj'.
Proof.
  intros Hw' Hid Hrows. unfold found_run. rewrite Hw'.
  destruct (find _ rows) as [o|] eqn:Hf; [|congruence].
  eapply find_store_test_run; eauto.
Qed.

Lemma found_run_not_none id w obj :
  found_run id w = Some obj ->
  find (fun r => (db_models.id r =? id)%Z) (db_test_runs w) <> None.
Proof. unfold found_run. intros ->. discriminate. Qed.

Lemma found_running_not_none id w obj :
  found_run id w = Some obj ->
  find (fun r => (db_models.id r =? id)%Z)
    (store_test_run (running_obj w obj) (db_test_runs w)) <> None.
Proof.
  intros Hfound. pose proof (found_run_id _ _ _ Hfound) as Hid.
  unfold found_run in Hfound.
  rewrite (find_store_test_run id obj (running_obj w obj) _ Hfound Hid). discriminate.
Qed.

(** In every case the driver only appends rows: one per pairing of a
    prefix of the cross product, in order. *)
Lemma driver_results id mp ids ms sc w :
  let w' := snd (execute_test_run_background E id mp ids ms sc w) in
  let pairs := list_prod ms (loaded_items ids w) in
  exists rows calls,
    db_test_results w' = db_test_results w ++ rows /\
    Forall2 (row_of_case id) (firstn (length rows) pairs) rows /\
    llm_trace w' = llm_trace w ++ calls /\
    Forall2 (call_of_case E mp) (firstn (length calls) pairs) calls /\
    length rows <= length calls <= S (length rows) /\
    length calls <= length pairs /\
    db_mock_data_items w' = db_mock_data_items w.
Proof.
  intros w' pairs.
  assert (Hnone :
    config_unchanged w w' /\ db_test_results w' = db_test_results w /\
    llm_trace w' = llm_trace w ->
    exists rows calls,
      db_test_results w' = db_test_results w ++ rows /\
      Forall2 (row_of_case id) (firstn (length rows) pairs) rows /\
      llm_trace w' = llm_trace w ++ calls /\
      Forall2 (call_of_case E mp) (firstn (length calls) pairs) calls /\
      length rows <= length calls <= S (length rows) /\
      length calls <= length pairs /\
      db_mock_data_items w' = db_mock_data_items w).
  { intros ((_ & _ & Hi & _) & Hr & Ht). exists [], [].
    rewrite !app_nil_r. cbn. splits; auto; try constructor; lia. }
  destruct (db_fault E (db_ops w)) eqn:F0.
  { apply Hnone, driver_unloaded. left. congruence. }
  destruct (loaded_items ids w) as [|it0 its] eqn:Hitems.
  { apply Hnone, driver_unloaded. right; left. exact Hitems. }
  destruct (db_fault E (S (db_ops w))) eqn:F1.
  { apply Hnone, driver_unloaded. right; right; left. congruence. }
  destruct (found_run id w) as [obj|] eqn:Hfound.
  2:{ apply Hnone, driver_unloaded. right; right; right. exact Hfound. }
  destruct (db_fault E (S (S (db_ops w)))) as [msg|] eqn:F2.
  { destruct (driver_start_commit_fault id mp ids ms sc w obj msg)
      as (Hr & Ht & Hi & _); auto; [congruence|].
    exists [], []. rewrite !app_nil_r. cbn. splits; auto; try constructor; lia. }
  destruct (driver_loaded id mp ids ms sc w obj)
    as (rows & calls & t & final & Hr & Hrows & Ht & Hcalls & Hi & _); auto;
    [congruence|].
  rewrite Hitems in Hrows, Hcalls. fold pairs in Hrows, Hcalls.
  pose proof (completed_cases_le (3 + db_ops w) (length pairs)) as Hle.
  set (c := completed_cases E (3 + db_ops w) (length pairs)) in *.
  pose proof (Forall2_length Hrows) as Lr.
  pose proof (Forall2_length Hcalls) as Lc.
  rewrite length_firstn in Lr, Lc.
  exists rows, calls.
  replace (length rows) with c by lia.
  replace (length calls) with (Nat.min (length pairs) (S c)) by lia.
  splits; auto; lia.
Qed.

Lemma completed_cases_all d n :
  (forall j, j < n -> db_fault E (d + j) = None) -> completed_cases E d n = n.
Proof.
  revert d. induction n as [|n IH]; intros d H; cbn; [reflexivity|].
  rewrite <- (Nat.add_0_r d) at 1. rewrite H by lia. f_equal.
  apply IH. intros j Hj. replace (S d + j) with (d + S j) by lia. apply H. lia.
Qed.

Lemma completed_cases_first_fault d n k msg :
  k < n -> (forall j, j < k -> db_fault E (d + j) = None) ->
  db_fault E (d + k) = Some msg -> completed_cases E d n = k.
Proof.
  revert d k. induction n as [|n IH]; intros d k Hk Hok Hbad; [lia|].
  cbn. destruct k as [|k].
  - rewrite Nat.add_0_r in Hbad. rewrite Hbad. reflexivity.
  - rewrite <- (Nat.add_0_r d) at 1. rewrite Hok by lia. f_equal.
    apply IH; [lia| |].
    + intros j Hj. replace (S d + j) with (d + S j) by lia. apply Hok. lia.
    + replace (S d + k) with (d + S k) by lia. exact Hbad.
Qed.

(** Once the inputs and the run are loaded and the run is committed as
    running, the driver ends with a terminal row if its last commit goes
    through. *)
Lemma driver_terminal id mp ids ms sc w obj :
  db_fault E (db_ops w) = None -> loaded_items ids w <> [] ->
  db_fault E (S (db_ops w)) = None -> found_run id w = Some obj ->
  db_fault E (S (S (db_ops w))) = None ->
  let w' := snd (execute_test_run_background E id mp ids ms sc w) in
  let pairs := list_prod ms (loaded_items ids w) in
  let c := completed_cases E (3 + db_ops w) (length pairs) in
  db_fault E (3 + db_ops w + Nat.min (length pairs) (S c)) = None ->
  exists rows calls obj',
    db_test_results w' = db_test_results w ++ rows /\ length rows = c /\
    llm_trace w' = llm_trace w ++ calls /\
    length calls = Nat.min (length pairs) (S c) /\
    found_run id w' = Some obj' /\
    db_models.started_at obj' = Some (clock w) /\
    db_models.completed_at obj' <> None /\
    (c = length pairs -> db_models.status obj' = "completed"%string) /\
    (c < length pairs -> db_models.status obj' = "failed"%string).
Proof.
  intros F0 Hitems F1 Hfound F2 w' pairs c FF.
  destruct (driver_loaded id mp ids ms sc w obj F0 Hitems F1 Hfound F2)
    as (rows & calls & t & final & Hr & Hrows & Ht & Hcalls & _ & Hdone & Hfail & Hruns & _).
  fold w' pairs c in Hr, Hrows, Ht, Hcalls, Hdone, Hfail, Hruns.
  pose proof (completed_cases_le (3 + db_ops w) (length pairs)) as Hle. fold c in Hle.
  pose proof (Forall2_length Hrows) as Lr.
  pose proof (Forall2_length Hcalls) as Lc.
  rewrite length_firstn in Lr, Lc.
  pose proof (found_run_id _ _ _ Hfound) as Hid.
  assert (Hfinal_id : db_models.id final = id /\
                      db_models.started_at final = Some (clock w)).
  { destruct (Nat.eq_dec c (length pairs)) as [Hc|Hc].
    - rewrite (Hdone Hc). cbn. auto.
    - destruct Hfail as (msg & _ & ->); [lia|]. cbn. auto. }
  exists rows, calls, (db_models.with_completed_at t final).
  splits; auto; try lia.
  - apply (found_run_stored id _ w' _ (Hruns FF)); [apply Hfinal_id|].
    apply found_running_not_none, Hfound.
  - cbn. apply Hfinal_id.
  - cbn. discriminate.
  - intros Hc. rewrite (Hdone Hc). reflexivity.
  - intros Hc. destruct (Hfail Hc) as (msg & _ & ->). reflexivity.
Qed.

(** ** C7: consistency of the stored fields *)

Lemma rows_consistent id pairs rows :
  Forall2 (row_of_case id) pairs rows -> Forall result_consistent rows.
Proof.
  induction 1 as [|p row pairs rows Hrow _ IH]; constructor; [|exact IH].
  apply Hrow.
Qed.

(** C7. Every row that the executor stores, alone or under the driver,
    satisfies: a parse status of false comes with the compliance marker
    "N/A (not valid JSON)" and no stored violations, and a compliance
    status "Pass" comes with no stored violations.  Stated as an invariant
    of the result table. *)
Theorem stored_results_consistent id mp ids ms sc it m w :
  Forall result_consistent (db_test_results w) ->
  Forall result_consistent
    (db_test_results (snd (run_single_test_case E id mp it m sc w))) /\
  Forall result_consistent
    (db_test_results (snd (execute_test_run_background E id mp ids ms sc w))).
Proof.
  intros Hw. split.
  - destruct (run_single_test_case_step id mp it m sc w)
      as (row & call & w1 & Hrow & _ & Ht & _ & ->).
    destruct Ht as (_ & _ & _ & _ & _ & T6 & _).
    destruct (db_fault E (db_ops w1)) as [msg|] eqn:F.
    + rewrite (add_test_result_fault row w1 msg F). cbn. rewrite T6. exact Hw.
    + rewrite (add_test_result_ok row w1 F). cbn. rewrite T6.
      apply Forall_app. split; [exact Hw|]. constructor; [apply Hrow|constructor].
  - destruct (driver_results id mp ids ms sc w) as (rows & calls & -> & Hrows & _).
    apply Forall_app. split; [exact Hw|]. eapply rows_consistent, Hrows.
Qed.

(** ** C5: how many rows a run leaves *)

Lemma found_run_unchanged id w w' :
  db_test_runs w' = db_test_runs w -> found_run id w' = found_run id w.
Proof. unfold found_run. intros ->. reflexivity. Qed.

(** A run that was queued and ends completed went through every pairing. *)
Lemma completed_run_is_exhaustive id mp ids ms sc w obj obj' :
  found_run id w = Some obj -> db_models.status obj = "queued"%string ->
  let w' := snd (execute_test_run_background E id mp ids ms sc w) in
  let pairs := list_prod ms (loaded_items ids w) in
  found_run id w' = Some obj' -> db_models.status obj' = "completed"%string ->
  length (db_test_results w') = length (db_test_results w) + length pairs /\
  length (llm_trace w') = length (llm_trace w) + length pairs.
Proof.
  intros Hfound Hq w' pairs Hfound' Hdone.
  assert (Hsame : db_test_runs w' = db_test_runs w -> False).
  { intros H. rewrite (found_run_unchanged id w w' H), Hfound in Hfound'.
    injection Hfound' as <-. rewrite Hq in Hdone. discriminate. }
  assert (Hother : forall o, found_run id w' = Some o ->
                             db_models.status o <> "completed"%string -> False).
  { intros o Ho Hs. rewrite Ho in Hfound'. injection Hfound' as <-. auto. }
  pose proof (found_run_id _ _ _ Hfound) as Hid.
  destruct (db_fault E (db_ops w)) eqn:F0.
  { exfalso. apply Hsame. apply (driver_unloaded id mp ids ms sc w). left. congruence. }
  destruct (list_eq_dec_nil (loaded_items ids w)) as [Hitems|Hne].
  { exfalso. apply Hsame. apply (driver_unloaded id mp ids ms sc w). right; left. exact Hitems. }
  destruct (db_fault E (S (db_ops w))) eqn:F1.
  { exfalso. apply Hsame. apply (driver_unloaded id mp ids ms sc w).
    right; right; left. congruence. }
  destruct (db_fault E (S (S (db_ops w)))) as [msg|] eqn:F2.
  { exfalso.
    destruct (driver_start_commit_fault id mp ids ms sc w obj msg F0 Hne F1 Hfound F2)
      as (_ & _ & _ & Hok & Hbad). fold w' in Hok, Hbad.
    destruct (db_fault E (S (S (S (db_ops w))))) eqn:F3.
    - apply Hsame, Hbad. discriminate.
    - eapply Hother.
      + apply (found_run_stored id _ w' _ (Hok eq_refl)); [exact Hid|].
        eapply found_run_not_none, Hfound.
      + cbn. discriminate. }
  destruct (driver_loaded id mp ids ms sc w obj F0 Hne F1 Hfound F2)
    as (rows & calls & t & final & Hr & Hrows & Ht & Hcalls & _ & Hcomp & Hfail & Hok & Hbad).
  fold w' pairs in Hr, Hrows, Ht, Hcalls, Hcomp, Hfail, Hok, Hbad.
  set (c := completed_cases E (3 + db_ops w) (length pairs)) in *.
  pose proof (completed_cases_le (3 + db_ops w) (length pairs)) as Hle. fold c in Hle.
  assert (Hc : c = length pairs).
  { destruct (Nat.eq_dec c (length pairs)) as [Hc|Hc]; [exact Hc|exfalso].
    destruct Hfail as (msg & _ & Hfinal); [lia|].
    destruct (db_fault E (3 + db_ops w + Nat.min (length pairs) (S c))) eqn:F3.
    - eapply Hother.
      + apply (found_run_stored id _ w' _ (Hbad ltac:(discriminate))); [exact Hid|].
        eapply found_run_not_none, Hfound.
      + cbn. discriminate.
    - eapply Hother.
      + apply (found_run_stored id _ w' _ (Hok eq_refl)).
        * rewrite Hfinal. exact Hid.
        * apply found_running_not_none, Hfound.
      + rewrite Hfinal. cbn. discriminate. }
  pose proof (Forall2_length Hrows) as Lr.
  pose proof (Forall2_length Hcalls) as Lc.
  rewrite length_firstn in Lr, Lc.
  rewrite Hr, Ht, !length_app. lia.
Qed.

(** C5 (amended). The rows that a run leaves are one per pairing of a
    prefix of the cross product of the models with the loaded inputs, in
    order, so at most N x M; the pairings that reached the gateway are the
    same prefix, or one pairing longer when the last executor call raised
    in its write; and a run that goes from queued to completed leaves
    exactly N x M rows. *)
Theorem result_count_bounds id mp ids ms sc w :
  let w' := snd (execute_test_run_background E id mp ids ms sc w) in
  let items := loaded_items ids w in
  let pairs := list_prod ms items in
  exists rows calls,
    db_test_results w' = db_test_results w ++ rows /\
    llm_trace w' = llm_trace w ++ calls /\
    length rows <= length ms * length items /\
    Forall2 (row_of_case id) (firstn (length rows) pairs) rows /\
    Forall2 (call_of_case E mp) (firstn (length calls) pairs) calls /\
    length rows <= length calls <= S (length rows) /\
    (forall obj obj',
        found_run id w = Some obj -> db_models.status obj = "queued"%string ->
        found_run id w' = Some obj' -> db_models.status obj' = "completed"%string ->
        length rows = length ms * length items /\ length calls = length rows).
Proof.
  intros w' items pairs.
  destruct (driver_results id mp ids ms sc w)
    as (rows & calls & Hr & Hrows & Ht & Hcalls & Hlen & Hmax & _).
  fold w' items pairs in Hr, Hrows, Ht, Hcalls, Hmax.
  assert (Hp : length pairs = length ms * length items)
    by (unfold pairs; apply length_prod).
  exists rows, calls. splits; auto; try lia.
  intros obj obj' Hfound Hq Hfound' Hdone.
  destruct (completed_run_is_exhaustive id mp ids ms sc w obj obj' Hfound Hq Hfound' Hdone)
    as [H1 H2].
  fold w' in H1, H2. rewrite Hr, length_app in H1. rewrite Ht, length_app in H2.
  rewrite length_prod in H1, H2. subst items. lia.
Qed.

(** ** C1: an exception of the executor *)

(** The executor raises exactly when its final write fails: every other
    failure is absorbed by its handlers. *)
Lemma run_single_test_case_raises id mp it m sc w :
  (exists e, fst (run_single_test_case E id mp it m sc w) = Raised e) <->
  db_fault E (db_ops w) <> None.
Proof.
  destruct (run_single_test_case_step id mp it m sc w)
    as (row & call & w1 & _ & _ & Ht & _ & ->).
  destruct Ht as (_ & _ & _ & _ & _ & _ & T7). rewrite <- T7.
  destruct (db_fault E (db_ops w1)) as [msg|] eqn:F.
  - rewrite (add_test_result_fault row w1 msg F). cbn. split; [discriminate|eauto].
  - rewrite (add_test_result_ok row w1 F). cbn. split; [|congruence].
    intros [e He]. discriminate.
Qed.

(** C1 (amended). The executor raises exactly when its write of the row
    fails.  When that happens for pairing [k] of a run whose inputs and
    record were loaded, the driver's own handler takes over: pairing [k]
    is the last one that reaches the gateway, the rows of the [k] earlier
    pairings are all there is, and the run is marked failed with a
    completion time.  When no write fails, every pairing is attempted and
    the run is completed, whatever the gateway, the parser and the checker
    answer. *)
Theorem executor_exception_ends_run id mp ids ms sc w obj :
  db_fault E (db_ops w) = None -> loaded_items ids w <> [] ->
  db_fault E (S (db_ops w)) = None -> found_run id w = Some obj ->
  db_fault E (S (S (db_ops w))) = None ->
  let w' := snd (execute_test_run_background E id mp ids ms sc w) in
  let pairs := list_prod ms (loaded_items ids w) in
  (forall it m w0,
      (exists e, fst (run_single_test_case E id mp it m sc w0) = Raised e) <->
      db_fault E (db_ops w0) <> None) /\
  (forall k msg,
      k < length pairs ->
      (forall j, j < k -> db_fault E (3 + db_ops w + j) = None) ->
      db_fault E (3 + db_ops w + k) = Some msg ->
      db_fault E (3 + db_ops w + S k) = None ->
      exists obj',
        length (llm_trace w') = length (llm_trace w) + S k /\
        length (db_test_results w') = length (db_test_results w) + k /\
        found_run id w' = Some obj' /\
        db_models.status obj' = "failed"%string /\
        db_models.completed_at obj' <> None) /\
  ((forall j, j <= length pairs -> db_fault E (3 + db_ops w + j) = None) ->
   exists obj',
     length (llm_trace w') = length (llm_trace w) + length pairs /\
     length (db_test_results w') = length (db_test_results w) + length pairs /\
     found_run id w' = Some obj' /\
     db_models.status obj' = "completed"%string /\
     db_models.completed_at obj' <> None).
Proof.
  intros F0 Hne F1 Hfound F2 w' pairs.
  pose proof (driver_terminal id mp ids ms sc w obj F0 Hne F1 Hfound F2) as HT.
  cbv zeta in HT. fold w' pairs in HT.
  split; [intros; apply run_single_test_case_raises|]. split.
  - intros k msg Hk Hok Hbad Hfinal.
    rewrite (completed_cases_first_fault (3 + db_ops w) (length pairs) k msg Hk Hok Hbad) in HT.
    replace (Nat.min (length pairs) (S k)) with (S k) in HT by lia.
    destruct (HT Hfinal) as (rows & calls & obj' & Hr & Lr & Ht & Lc & Hf' & _ & Hc & _ & Hfail).
    exists obj'. rewrite Hr, Ht, !length_app, Lr, Lc. splits; auto.
  - intros Hok.
    rewrite (completed_cases_all (3 + db_ops w) (length pairs)) in HT
      by (intros j Hj; apply Hok; lia).
    replace (Nat.min (length pairs) (S (length pairs))) with (length pairs) in HT by lia.
    destruct (HT (Hok _ (le_n _))) as (rows & calls & obj' & Hr & Lr & Ht & Lc & Hf' & _ & Hc & Hdone & _).
    exists obj'. rewrite Hr, Ht, !length_app, Lr, Lc. splits; auto.
Qed.

(** ** C4: the status of a run after the driver *)

(** The row of the run after the driver is the row before it, the row
    committed as running, or a terminal row with its completion time. *)
Lemma driver_run_row id mp ids ms sc w obj :
  found_run id w = Some obj ->
  let w' := snd (execute_test_run_background E id mp ids ms sc w) in
  exists obj',
    found_run id w' = Some obj' /\
    (obj' = obj \/ obj' = running_obj w obj \/
     (exists t, obj' = db_models.with_completed_at t
                         (db_models.with_status "completed" (running_obj w obj))) \/
     (exists t msg, obj' = db_models.with_completed_at t
                             (failed_obj msg (running_obj w obj)))).
Proof.
  intros Hfound w'.
  pose proof (found_run_id _ _ _ Hfound) as Hid.
  assert (Hsame : db_test_runs w' = db_test_runs w ->
    exists obj', found_run id w' = Some obj' /\
    (obj' = obj \/ obj' = running_obj w obj \/
     (exists t, obj' = db_models.with_completed_at t
                         (db_models.with_status "completed" (running_obj w obj))) \/
     (exists t msg, obj' = db_models.with_completed_at t
                             (failed_obj msg (running_obj w obj))))).
  { intros H. exists obj. rewrite (found_run_unchanged id w w' H). auto. }
  destruct (db_fault E (db_ops w)) eqn:F0.
  { apply Hsame. apply (driver_unloaded id mp ids ms sc w). left. congruence. }
  destruct (list_eq_dec_nil (loaded_items ids w)) as [Hitems|Hne].
  { apply Hsame. apply (driver_unloaded id mp ids ms sc w). right; left. exact Hitems. }
  destruct (db_fault E (S (db_ops w))) eqn:F1.
  { apply Hsame. apply (driver_unloaded id mp ids ms sc w). right; right; left. congruence. }
  destruct (db_fault E (S (S (db_ops w)))) as [msg|] eqn:F2.
  { destruct (driver_start_commit_fault id mp ids ms sc w obj msg F0 Hne F1 Hfound F2)
      as (_ & _ & _ & Hok & Hbad). fold w' in Hok, Hbad.
    destruct (db_fault E (S (S (S (db_ops w))))) eqn:F3.
    - apply Hsame, Hbad. discriminate.
    - eexists. split.
      + apply (found_run_stored id _ w' _ (Hok eq_refl)); [exact Hid|].
        eapply found_run_not_none, Hfound.
      + right; right; right. eauto. }
  destruct (driver_loaded id mp ids ms sc w obj F0 Hne F1 Hfound F2)
    as (rows & calls & t & final & _ & _ & _ & _ & _ & Hcomp & Hfail & Hok & Hbad).
  fold w' in Hok, Hbad.
  set (pairs := list_prod ms (loaded_items ids w)) in *.
  set (c := completed_cases E (3 + db_ops w) (length pairs)) in *.
  pose proof (completed_cases_le (3 + db_ops w) (length pairs)) as Hle. fold c in Hle.
  destruct (db_fault E (3 + db_ops w + Nat.min (length pairs) (S c))) eqn:F3.
  - exists (running_obj w obj). split; [|auto].
    apply (found_run_stored id _ w' _ (Hbad ltac:(discriminate))); [exact Hid|].
    eapply found_run_not_none, Hfound.
  - destruct (Nat.eq_dec c (length pairs)) as [Hc|Hc].
    + exists (db_models.with_completed_at t final). split.
      * apply (found_run_stored id _ w' _ (Hok eq_refl)).
        -- rewrite (Hcomp Hc). exact Hid.
        -- apply found_running_not_none, Hfound.
      * rewrite (Hcomp Hc). right; right; left. eauto.
    + destruct Hfail as (msg & _ & Hfinal); [lia|].
      exists (db_models.with_completed_at t final). split.
      * apply (found_run_stored id _ w' _ (Hok eq_refl)).
        -- rewrite Hfinal. exact Hid.
        -- apply found_running_not_none, Hfound.
      * rewrite Hfinal. right; right; right. eauto.
Qed.

(** C4 (amended). For a run whose inputs and record the driver has
    loaded and whose running status is committed, provided the last commit
    goes through: when an executor call raises in the loop the run is
    marked failed, and when none does it is marked completed, in both
    cases with its completion time set.  And a run that was queued and is
    completed or failed after the driver has its completion time set. *)
Theorem run_status_after_driver id mp ids ms sc w obj :
  found_run id w = Some obj ->
  let w' := snd (execute_test_run_background E id mp ids ms sc w) in
  let pairs := list_prod ms (loaded_items ids w) in
  let c := completed_cases E (3 + db_ops w) (length pairs) in
  (db_fault E (db_ops w) = None -> loaded_items ids w <> [] ->
   db_fault E (S (db_ops w)) = None -> db_fault E (S (S (db_ops w))) = None ->
   db_fault E (3 + db_ops w + Nat.min (length pairs) (S c)) = None ->
   exists obj', found_run id w' = Some obj' /\
                db_models.completed_at obj' <> None /\
                (c < length pairs -> db_models.status obj' = "failed"%string) /\
                (c = length pairs -> db_models.status obj' = "completed"%string)) /\
  (db_models.status obj = "queued"%string ->
   forall obj', found_run id w' = Some obj' ->
                db_models.status obj' = "completed"%string \/
                db_models.status obj' = "failed"%string ->
                db_models.completed_at obj' <> None).
Proof.
  intros Hfound w' pairs c.
  pose proof (found_run_id _ _ _ Hfound) as Hid.
  splits.
  - intros F0 Hne F1 F2 F3.
    destruct (driver_terminal id mp ids ms sc w obj F0 Hne F1 Hfound F2 F3)
      as (rows & calls & obj' & _ & _ & _ & _ & Hf' & _ & Hc & Hdone & Hfail).
    exists obj'. splits; auto.
  - intros Hq obj' Hf' Hst.
    destruct (driver_run_row id mp ids ms sc w obj Hfound) as (o & Ho & Hcases).
    fold w' in Ho. rewrite Ho in Hf'. injection Hf' as <-.
    destruct Hcases as [->|[->|[(t & ->)|(t & msg & ->)]]]; cbn in *.
    + rewrite Hq in Hst. destruct Hst; discriminate.
    + destruct Hst; discriminate.
    + discriminate.
    + discriminate.
Qed.

(** ** C3: the inputs that the rows record *)

Lemma Forall2_In_right {A B} (P : A -> B -> Prop) l rows :
  Forall2 P l rows -> forall row, In row rows -> exists p, In p l /\ P p row.
Proof.
  induction 1 as [|p r l rows Hp _ IH]; intros row Hin; [destruct Hin|].
  destruct Hin as [<-|Hin].
  - exists p. split; [left; reflexivity|exact Hp].
  - destruct (IH row Hin) as (q & Hq & HP). exists q. split; [right; exact Hq|exact HP].
Qed.

Lemma In_firstn {A} (x : A) n l : In x (firstn n l) -> In x l.
Proof.
  revert l. induction n as [|n IH]; intros [|y l] H; cbn in H; try contradiction.
  destruct H as [->|H]; [left; reflexivity|right; apply IH, H].
Qed.

Lemma create_and_initiate_test_run_task test_run_create w run task w1 :
  create_and_initiate_test_run E test_run_create w = (Returned (run, task), w1) ->
  task_test_run_id task = db_models.id run /\
  task_mock_data_item_ids task =
  map db_models.item_id
    (filter (fun it => (db_models.prompt_id it
                        =? pydantic_models.mock_data_prompt_id test_run_create)%Z)
            (db_mock_data_items w)).
Proof.
  unfold create_and_initiate_test_run, db_operation, bind, get, modify, ret, raise.
  cbn.
  destruct (db_fault E (db_ops w)); [discriminate|]. cbn.
  destruct (find _ (db_master_prompts w)) as [master_prompt|]; [|discriminate].
  cbn. destruct (db_fault E (S (db_ops w))); [discriminate|]. cbn.
  destruct (find _ (db_mock_data_prompts w)) as [mock_data_prompt|] eqn:Hp; [|discriminate].
  apply find_some in Hp. destruct Hp as [_ Hp]. apply Z.eqb_eq in Hp. rewrite Hp.
  destruct (filter _ (db_mock_data_items w)) as [|it0 its] eqn:Hitems; [discriminate|].
  cbn. destruct (db_fault E (S (S (db_ops w)))); [discriminate|]. cbn.
  destruct (find _ (db_json_schemas w)) as [master_schema|]; [|discriminate].
  cbn. destruct (db_fault E (S (S (S (db_ops w))))); [discriminate|]. cbn.
  destruct (db_fault E (S (S (S (S (db_ops w)))))); [discriminate|]. cbn.
  destruct (db_fault E (S (S (S (S (S (db_ops w))))))); [discriminate|]. cbn.
  intros H. injection H as <- <- <-. cbn. auto.
Qed.

(** C3 (amended). Every row that a run stores records the content that
    the corresponding mock input has when the background driver loads the
    inputs, the inputs being those of the identifiers fixed when the run
    was created; updating or deleting a mock input afterwards leaves the
    result table as it is. *)
Theorem results_record_loaded_inputs id mp ids ms sc w :
  let w' := snd (execute_test_run_background E id mp ids ms sc w) in
  (exists rows,
      db_test_results w' = db_test_results w ++ rows /\
      forall row, In row rows ->
        exists it, In it (db_mock_data_items w) /\ In (db_models.item_id it) ids /\
                   db_models.mock_input_data_used row = db_models.item_content it) /\
  (forall test_run_create w0 run task w1,
      create_and_initiate_test_run E test_run_create w0 = (Returned (run, task), w1) ->
      task_mock_data_item_ids task =
      map db_models.item_id
        (filter (fun it => (db_models.prompt_id it
                            =? pydantic_models.mock_data_prompt_id test_run_create)%Z)
                (db_mock_data_items w0))) /\
  (forall i c w0,
      db_test_results (snd (update_specific_mock_data_item E i c w0)) = db_test_results w0) /\
  (forall i w0,
      db_test_results (snd (delete_specific_mock_data_item E i w0)) = db_test_results w0).
Proof.
  intros w'. splits.
  - destruct (driver_results id mp ids ms sc w) as (rows & calls & Hr & Hrows & _).
    exists rows. split; [exact Hr|]. intros row Hin.
    destruct (Forall2_In_right _ _ _ Hrows row Hin) as ([m it] & Hp & Hrow).
    apply In_firstn, in_prod_iff in Hp. destruct Hp as [_ Hit].
    unfold loaded_items in Hit. apply filter_In in Hit. destruct Hit as [Hit Hid].
    apply existsb_exists in Hid. destruct Hid as (i & Hi & Heq). apply Z.eqb_eq in Heq.
    exists it. splits; [exact Hit|rewrite Heq; exact Hi|apply Hrow].
  - intros c w0 run task w1 H.
    apply (create_and_initiate_test_run_task c w0 run task w1 H).
  - intros i c w0.
    unfold update_specific_mock_data_item, db_operation, bind, get, modify, ret, raise. cbn.
    destruct (db_fault E (db_ops w0)); [reflexivity|]. cbn.
    destruct (find _ (db_mock_data_items w0)); [|reflexivity].
    cbn. destruct (db_fault E (S (db_ops w0))); [reflexivity|]. cbn.
    destruct (db_fault E (S (S (db_ops w0)))); reflexivity.
  - intros i w0.
    unfold delete_specific_mock_data_item, db_operation, bind, get, modify, ret, raise. cbn.
    destruct (db_fault E (db_ops w0)); [reflexivity|]. cbn.
    destruct (find _ (db_mock_data_items w0)); [|reflexivity].
    cbn. destruct (db_fault E (S (db_ops w0))); reflexivity.
Qed.

(** ** C2: a schema that the checker rejects *)

(** C2 (amended). When the response parses and the checker raises an
    exception that is not an instance-validation failure (a malformed
    schema raises [SchemaError]), the executor records a compliance
    failure: the parse status is true, the compliance status is "Fail",
    the stored violations are one record with the text of the exception,
    an empty path and the validator "schema_error", and the error message
    of the result is left unset. *)
Theorem schema_error_recorded_as_fail id mp it m sc w c cs raw v e :
  requests_post E (length (llm_trace w)) m (prompt_messages E mp it) (1 # 2) 1024
  = Returned (Envelope (c :: cs)) ->
  message c = Some {| rm_content := Some raw |} ->
  raw <> EmptyString ->
  json_loads E (clean_markdown raw) = Returned v ->
  validate E v sc = Raised e ->
  (forall msg path validator, e <> ValidationError msg path validator) ->
  db_fault E (db_ops w) = None ->
  exists row,
    db_test_results (snd (run_single_test_case E id mp it m sc w))
    = db_test_results w ++ [row] /\
    db_models.parse_status row = Some true /\
    db_models.schema_compliance_status row = Some "Fail"%string /\
    db_models.validation_errors row =
      Some [{| v_message := str e; v_path := []; v_validator := "schema_error" |}] /\
    db_models.result_error_message row = None.
Proof.
  intros Hpost Hmsg Hraw Hloads Hval Hnot F.
  destruct raw as [|ch raw]; [congruence|].
  unfold run_single_test_case, add_test_result, db_operation. run_monad.
  rewrite Hpost. run_monad. rewrite Hmsg. run_monad. rewrite Hloads. run_monad.
  rewrite Hval. run_monad.
  destruct e; run_monad; rewrite F; cbn;
    try (eexists; splits; reflexivity).
  exfalso. eapply Hnot. reflexivity.
Qed.

(** ** C8: the recorded time *)

(** C8 (amended). The recorded time is set whatever the outcome of the
    case, and it measures, in milliseconds, the interval from the entry of
    the executor to the end of its guarded block: the building of the
    prompt, the gateway call, and the interpretation and compliance check
    that follow the call. *)
Theorem execution_time_spans_guarded_block id mp it m sc w :
  exists row w1 call t,
    run_single_test_case E id mp it m sc w = add_test_result E row w1 /\
    llm_trace w1 = llm_trace w ++ [call] /\
    db_models.execution_time_ms row = Some t /\
    (t == (latency E PhBuildPrompt (db_ops w)
           + (call_finished call - call_started call)
           + post_call_time E (db_ops w)
               (requests_post E (length (llm_trace w)) m (prompt_messages E mp it)
                  (1 # 2) 1024)) * 1000)%Q.
Proof.
  destruct (guarded_case_returns mp it m sc w) as (f & Hf & _ & Hl & Hclk & _).
  exists (case_row id it m (clock w) f), (cf_world f), (case_call E mp it m w),
    ((clock (cf_world f) - clock w) * 1000)%Q.
  splits.
  - apply run_single_test_case_unfold, Hf.
  - exact Hl.
  - reflexivity.
  - rewrite Hclk. cbn. ring.
Qed.

(** ** C10: the placeholder *)

(** No two occurrences of the placeholder overlap, so the scan of
    [str.replace] meets every one of them: it cuts the text in one more
    piece than there are occurrences. *)
Lemma placeholder_pieces (n : nat) :
  forall s, String.length s <= n ->
    length (Py.split s "{{INPUT_DATA}}") = S (Py.occurrences "{{INPUT_DATA}}" s).
Proof.
  unfold Py.split. induction n as [|n IH]; intros s Hn.
  - destruct s; [reflexivity|cbn in Hn; lia].
  - destruct s as [|ch s]; [reflexivity|].
    cbn [Py.split_from Py.occurrences].
    destruct (String.prefix "{{INPUT_DATA}}" (String ch s)) eqn:Hp.
    + apply prefix_drop in Hp.
      remember (Py.drop (String.length "{{INPUT_DATA}}") (String ch s)) as rest eqn:Hrest.
      assert (Hlen : String.length rest <= n).
      { apply (f_equal String.length) in Hp. cbn in Hp, Hn. lia. }
      clear Hrest. cbn in Hp. injection Hp as -> ->.
      cbn. f_equal. rewrite (IH rest Hlen). reflexivity.
    + destruct (split_from_nonempty "{{INPUT_DATA}}" 0 s) as (p & ps & Hs).
      cbn in Hn. pose proof (IH s ltac:(lia)) as IHs. rewrite Hs in IHs |- *.
      cbn [length Nat.add] in IHs |- *. exact IHs.
Qed.

(** C10. The prompt sent to the model is the master prompt with every
    occurrence of the placeholder replaced by the serialized mock input:
    the master prompt is cut at the placeholder in one more piece than
    there are occurrences, and the prompt sent is these pieces joined by
    the serialized input.  A master prompt without the placeholder is sent
    as it is, and in every case the gateway receives the prompt as one
    user message. *)
Theorem placeholder_replaced_everywhere mp (it : db_models.MockDataItem) :
  let pieces := Py.split mp "{{INPUT_DATA}}" in
  String.concat "{{INPUT_DATA}}" pieces = mp /\
  length pieces = S (Py.occurrences "{{INPUT_DATA}}" mp) /\
  final_prompt_content E mp it
  = String.concat (json_dumps E (db_models.item_content it)) pieces /\
  (Py.occurrences "{{INPUT_DATA}}" mp = 0 -> final_prompt_content E mp it = mp) /\
  (forall id m sc w,
      exists call,
        llm_trace (snd (run_single_test_case E id mp it m sc w)) = llm_trace w ++ [call] /\
        call_messages call =
        [{| role := "user"; content := final_prompt_content E mp it |}]).
Proof.
  intros pieces.
  assert (Hjoin : String.concat "{{INPUT_DATA}}" pieces = mp).
  { unfold pieces, Py.split. rewrite join_split_from by discriminate. reflexivity. }
  assert (Hlen : length pieces = S (Py.occurrences "{{INPUT_DATA}}" mp)).
  { apply (placeholder_pieces (String.length mp)). lia. }
  assert (Hrep : final_prompt_content E mp it
                 = String.concat (json_dumps E (db_models.item_content it)) pieces).
  { unfold final_prompt_content, Py.replace. apply replace_from_join. }
  splits; auto.
  - intros H0. rewrite H0 in Hlen. rewrite Hrep.
    destruct pieces as [|p [|q ps]]; cbn in Hlen; try discriminate.
    cbn in Hjoin |- *. exact Hjoin.
  - intros id m sc w.
    destruct (run_single_test_case_step id mp it m sc w)
      as (row & call & w1 & _ & Hcall & _ & Ht & ->).
    exists call. split; [|apply Hcall].
    destruct (db_fault E (db_ops w1)) as [msg|] eqn:F.
    + rewrite (add_test_result_fault row w1 msg F). exact Ht.
    + rewrite (add_test_result_ok row w1 F). exact Ht.
Qed.

(** ** The aggregation *)

Lemma dict_get_update d k g k' :
  dict_get (dict_update d k g) k' =
  if String.eqb k k' then Some (g (stats_or_default (dict_get d k)))
  else dict_get d k'.
Proof.
  induction d as [|[k0 v] d IH]; cbn.
  - destruct (String.eqb k k'); reflexivity.
  - destruct (String.eqb_spec k0 k) as [->|Hk]; cbn.
    + destruct (String.eqb k k'); reflexivity.
    + rewrite IH. destruct (String.eqb_spec k k') as [->|Hk'].
      * destruct (String.eqb_spec k0 k'); [congruence|reflexivity].
      * reflexivity.
Qed.

Lemma dict_update_keys d k g x :
  In x (map fst (dict_update d k g)) <-> x = k \/ In x (map fst d).
Proof.
  induction d as [|[k0 v] d IH]; cbn [dict_update map fst In].
  - intuition congruence.
  - destruct (String.eqb_spec k0 k) as [->|Hk]; cbn [map fst In].
    + intuition congruence.
    + rewrite IH. intuition congruence.
Qed.

Lemma dict_update_NoDup d k g :
  NoDup (map fst d) -> NoDup (map fst (dict_update d k g)).
Proof.
  induction d as [|[k0 v] d IH]; cbn [dict_update map fst]; intros H.
  - repeat constructor. intros [].
  - inversion H as [|? ? Hnotin Hnd]; subst.
    destruct (String.eqb_spec k0 k) as [->|Hk]; cbn [map fst].
    + constructor; assumption.
    + constructor; [|apply IH, Hnd].
      rewrite dict_update_keys. intros [->|Hin]; [congruence|contradiction].
Qed.

Lemma aggregate_from_NoDup rs : forall d,
  NoDup (map fst d) -> NoDup (map fst (aggregate_from d rs)).
Proof.
  induction rs as [|r rs IH]; intros d H; cbn; [exact H|].
  apply IH, dict_update_NoDup, H.
Qed.

Lemma aggregate_from_get rs : forall d m,
  dict_get (aggregate_from d rs) m =
  match of_model m rs with
  | [] => dict_get d m
  | l => Some (stats_of l (stats_or_default (dict_get d m)))
  end.
Proof.
  induction rs as [|r rs IH]; intros d m; [reflexivity|].
  change (aggregate_from d (r :: rs))
    with (aggregate_from
            (dict_update d (db_models.target_llm_model_id r) (record_result r)) rs).
  rewrite IH, dict_get_update.
  unfold of_model. cbn [filter]. fold (of_model m rs).
  destruct (String.eqb_spec (db_models.target_llm_model_id r) m) as [->|Hm].
  - destruct (of_model _ rs); reflexivity.
  - reflexivity.
Qed.

Lemma dict_get_In d k v : dict_get d k = Some v -> In (k, v) d.
Proof.
  induction d as [|[k0 v0] d IH]; cbn; [discriminate|].
  destruct (String.eqb_spec k0 k) as [->|Hk].
  - intros H. injection H as ->. left. reflexivity.
  - intros H. right. apply IH, H.
Qed.

Lemma In_dict_get d k v : NoDup (map fst d) -> In (k, v) d -> dict_get d k = Some v.
Proof.
  induction d as [|[k0 v0] d IH]; cbn; intros Hnd Hin; [contradiction|].
  inversion Hnd as [|? ? Hnotin Hnd']; subst.
  destruct Hin as [H|Hin].
  - injection H as -> ->. rewrite String.eqb_refl. reflexivity.
  - destruct (String.eqb_spec k0 k) as [->|Hk]; [|apply IH; assumption].
    exfalso. apply Hnotin. apply (in_map fst) in Hin. exact Hin.
Qed.

(** The accumulator of a model, field by field. *)
Lemma stats_of_fields rs : forall st,
  st_total_tests (stats_of rs st) = st_total_tests st + length rs /\
  st_successful_parses (stats_of rs st)
  = st_successful_parses st + length (filter parsed rs) /\
  st_schema_compliant_tests (stats_of rs st)
  = st_schema_compliant_tests st + length (filter compliant rs) /\
  st_execution_times (stats_of rs st) = st_execution_times st ++ recorded_times rs /\
  st_tokens (stats_of rs st) = st_tokens st ++ recorded_tokens rs.
Proof.
  induction rs as [|r rs IH]; intros st; cbn.
  - rewrite !app_nil_r. splits; auto.
  - destruct (IH (record_result r st)) as (H1 & H2 & H3 & H4 & H5).
    unfold stats_of in *. rewrite H1, H2, H3, H4, H5. cbn.
    unfold parsed, compliant.
    destruct (db_models.parse_status r) as [[|]|];
      destruct (db_models.schema_compliance_status r) as [scs|];
      try destruct (String.eqb scs "Pass");
      destruct (db_models.execution_time_ms r);
      destruct (db_models.tokens_used r);
      cbn; rewrite <- ?app_assoc; cbn; splits; try reflexivity; lia.
Qed.

(** The code's summary of an accumulator is the specification's summary of
    the rows it accumulated. *)
Lemma summarize_stats_of m rs :
  summarize (m, stats_of rs default_stats) = summary_of_model m rs.
Proof.
  destruct (stats_of_fields rs default_stats) as (H1 & H2 & H3 & H4 & H5).
  unfold summarize, summary_of_model. rewrite H1, H2, H3, H4, H5. cbn.
  destruct (recorded_times rs), (recorded_tokens rs); reflexivity.
Qed.

Lemma aggregate_entries rs m st :
  In (m, st) (aggregate rs) ->
  of_model m rs <> [] /\ st = stats_of (of_model m rs) default_stats.
Proof.
  intros Hin.
  assert (Hnd : NoDup (map fst (aggregate rs)))
    by (apply (aggregate_from_NoDup rs []); constructor).
  pose proof (In_dict_get _ _ _ Hnd Hin) as Hget.
  unfold aggregate in Hget. change (fold_left _ rs []) with (aggregate_from [] rs) in Hget.
  rewrite aggregate_from_get in Hget. cbn in Hget.
  destruct (of_model m rs) as [|r l]; [discriminate|].
  split; [discriminate|]. injection Hget as <-. reflexivity.
Qed.

Lemma aggregate_covers rs r :
  In r rs -> exists st, In (db_models.target_llm_model_id r, st) (aggregate rs).
Proof.
  intros Hin.
  assert (Hof : In r (of_model (db_models.target_llm_model_id r) rs)).
  { unfold of_model. apply filter_In. split; [exact Hin|apply String.eqb_refl]. }
  pose proof (aggregate_from_get rs [] (db_models.target_llm_model_id r)) as Hget.
  destruct (of_model _ rs) as [|r0 l]; [destruct Hof|].
  eexists. apply dict_get_In. exact Hget.
Qed.

Lemma summarize_id entry :
  pydantic_models.target_llm_model_id (summarize entry) = fst entry.
Proof. destruct entry. reflexivity. Qed.

(** What the summary endpoint answers for a run that exists, when its two
    reads go through. *)
Lemma summary_by_llm_spec run_id w db_test_run :
  db_fault E (db_ops w) = None -> db_fault E (S (db_ops w)) = None ->
  found_run run_id w = Some db_test_run ->
  let rs := filter (fun r => (db_models.test_run_id r =? run_id)%Z) (db_test_results w) in
  exists resp,
    fst (get_test_run_summary_by_llm E run_id w) = Returned resp /\
    (rs = [] -> pydantic_models.llm_summaries resp = [] /\
                pydantic_models.overall_total_tests resp = 0) /\
    NoDup (map pydantic_models.target_llm_model_id (pydantic_models.llm_summaries resp)) /\
    (forall r, In r rs ->
       exists s, In s (pydantic_models.llm_summaries resp) /\
                 pydantic_models.target_llm_model_id s = db_models.target_llm_model_id r) /\
    (forall s, In s (pydantic_models.llm_summaries resp) ->
       of_model (pydantic_models.target_llm_model_id s) rs <> [] /\
       s = summary_of_model (pydantic_models.target_llm_model_id s)
             (of_model (pydantic_models.target_llm_model_id s) rs)).
Proof.
  intros F0 F1 Hfound rs.
  assert (Hrun :
    fst (get_test_run_summary_by_llm E run_id w) =
    Returned
      match rs with
      | [] =>
          {| pydantic_models.test_run_id := run_id;
             pydantic_models.test_run_name := db_models.name db_test_run;
             pydantic_models.overall_total_tests := 0;
             pydantic_models.llm_summaries := [] |}
      | _ :: _ =>
          {| pydantic_models.test_run_id := run_id;
             pydantic_models.test_run_name := db_models.name db_test_run;
             pydantic_models.overall_total_tests :=
               fold_left (fun acc entry => acc + st_total_tests (snd entry))
                 (aggregate rs) 0;
             pydantic_models.llm_summaries := map summarize (aggregate rs) |}
      end).
  { unfold found_run in Hfound.
    unfold get_test_run_summary_by_llm, get_test_run_row, select_test_results,
      db_operation, bind, get, ret, raise.
    cbn -[aggregate]. rewrite F0. cbn -[aggregate]. rewrite Hfound.
    cbn -[aggregate]. rewrite F1. cbn -[aggregate]. fold rs.
    destruct rs; reflexivity. }
  clearbody rs. eexists. split; [exact Hrun|].
  destruct rs as [|r0 rs'].
  - cbn. splits; auto.
    + constructor.
    + intros r [].
    + intros s [].
  - remember (r0 :: rs') as rs eqn:Hrs.
    cbn [pydantic_models.llm_summaries pydantic_models.overall_total_tests].
    splits.
    + intros H. rewrite H in Hrs. discriminate.
    + rewrite map_map.
      rewrite (map_ext _ fst) by (intros; apply summarize_id).
      apply (aggregate_from_NoDup rs []). constructor.
    + intros r Hin. destruct (aggregate_covers rs r Hin) as (st & Hst).
      exists (summarize (db_models.target_llm_model_id r, st)). split; [|reflexivity].
      apply in_map, Hst.
    + intros s Hin. apply in_map_iff in Hin. destruct Hin as ([m st] & <- & Hin).
      destruct (aggregate_entries rs m st Hin) as [Hne ->].
      cbn [pydantic_models.target_llm_model_id summarize].
      split; [exact Hne|apply summarize_stats_of].
Qed.

(** ** C6: the summary of a run *)

(** C6 (amended). For a run that exists, the summary endpoint answers
    with one entry per model that has rows, and each entry is computed
    from the rows of its model as specified: the counts, the compliance
    percentage [compliant / total * 100] rounded to two places (0 for no
    rows), the mean of the recorded times rounded to two places (absent
    when no row recorded a time), and the sum of the recorded tokens
    (absent when no row recorded any).  A run without rows gets the empty
    list and an overall total of zero. *)
Theorem summary_matches_specification run_id w db_test_run :
  db_fault E (db_ops w) = None -> db_fault E (S (db_ops w)) = None ->
  found_run run_id w = Some db_test_run ->
  let rs := filter (fun r => (db_models.test_run_id r =? run_id)%Z) (db_test_results w) in
  exists resp,
    fst (get_test_run_summary_by_llm E run_id w) = Returned resp /\
    (rs = [] -> pydantic_models.llm_summaries resp = [] /\
                pydantic_models.overall_total_tests resp = 0) /\
    (forall r, In r rs ->
       exists s, In s (pydantic_models.llm_summaries resp) /\
                 pydantic_models.target_llm_model_id s = db_models.target_llm_model_id r) /\
    (forall s, In s (pydantic_models.llm_summaries resp) ->
       let mine := of_model (pydantic_models.target_llm_model_id s) rs in
       mine <> [] /\
       s = summary_of_model (pydantic_models.target_llm_model_id s) mine /\
       pydantic_models.total_tests s = length mine /\
       pydantic_models.schema_compliant_tests s = length (filter compliant mine) /\
       pydantic_models.schema_compliance_percentage s
       = Py.round2 (ratio (length (filter compliant mine)) (length mine) * 100)%Q /\
       pydantic_models.average_execution_time_ms s
       = match recorded_times mine with
         | [] => None
         | ts => Some (Py.round2 (mean ts))
         end /\
       pydantic_models.total_tokens_used s
       = match recorded_tokens mine with
         | [] => None
         | ts => Some (Py.sum_int ts)
         end).
Proof.
  intros F0 F1 Hfound rs.
  destruct (summary_by_llm_spec run_id w db_test_run F0 F1 Hfound)
    as (resp & Hresp & Hempty & _ & Hcover & Hentries).
  fold rs in Hempty, Hcover, Hentries.
  exists resp. splits; auto.
  intros s Hin mine. destruct (Hentries s Hin) as [Hne Hs]. fold mine in Hne, Hs.
  splits; auto; try (rewrite Hs at 1; reflexivity).
  rewrite Hs at 1. cbn.
  destruct mine as [|r l]; [congruence|]. reflexivity.
Qed.

(** ** C9: a model listed more than once *)

Lemma count_pairs_of_model {B} (m : string) (ms : list string) (items : list B) :
  length (filter (fun p => String.eqb (fst p) m) (list_prod ms items))
  = count_occ string_dec ms m * length items.
Proof.
  induction ms as [|m0 ms IH]; cbn [list_prod count_occ]; [reflexivity|].
  rewrite filter_app, length_app, IH.
  assert (Hmap : forall l : list B,
    length (filter (fun p => String.eqb (fst p) m) (map (fun y => (m0, y)) l))
    = if string_dec m0 m then length l else 0).
  { induction l as [|y l IHl]; cbn [map filter fst].
    - destruct (string_dec m0 m); reflexivity.
    - destruct (String.eqb_spec m0 m) as [->|Hm]; destruct (string_dec _ m); cbn;
        try congruence; rewrite IHl;
        match goal with |- context [string_dec ?a ?b] => destruct (string_dec a b) end;
        congruence. }
  rewrite Hmap. destruct (string_dec m0 m); cbn; lia.
Qed.

Lemma Forall2_filter_length {A B} (P : A -> B -> Prop) (f : A -> bool) (g : B -> bool) l rows :
  Forall2 P l rows -> (forall p r, P p r -> f p = g r) ->
  length (filter f l) = length (filter g rows).
Proof.
  intros H Hfg. induction H as [|p r l rows Hp _ IH]; cbn; [reflexivity|].
  rewrite (Hfg p r Hp). destruct (g r); cbn; congruence.
Qed.

Lemma filter_none {A} (f : A -> bool) l :
  (forall x, In x l -> f x = true) -> filter f l = l.
Proof.
  induction l as [|x l IH]; intros H; cbn; [reflexivity|].
  rewrite (H x) by (left; reflexivity). f_equal. apply IH. intros y Hy. apply H. right. exact Hy.
Qed.

Lemma filter_key_absent {A} (key : A -> string) (l : list A) (k : string) :
  ~ In k (map key l) -> filter (fun x => String.eqb (key x) k) l = [].
Proof.
  induction l as [|x l IH]; cbn; intros H; [reflexivity|].
  destruct (String.eqb_spec (key x) k) as [Hx|Hx].
  - exfalso. apply H. left. exact Hx.
  - apply IH. intros Hin. apply H. right. exact Hin.
Qed.

Lemma NoDup_filter_singleton {A} (key : A -> string) (l : list A) (s : A) :
  NoDup (map key l) -> In s l ->
  filter (fun x => String.eqb (key x) (key s)) l = [s].
Proof.
  induction l as [|x l IH]; cbn; intros Hnd Hin; [contradiction|].
  inversion Hnd as [|? ? Hnotin Hnd']; subst.
  destruct Hin as [->|Hin].
  - rewrite String.eqb_refl. f_equal. apply filter_key_absent, Hnotin.
  - destruct (String.eqb_spec (key x) (key s)) as [Hx|Hx].
    + exfalso. apply Hnotin. rewrite Hx. apply in_map, Hin.
    + apply IH; assumption.
Qed.

(** C9. When no database operation fails and the run starts without rows,
    a model identifier listed several times is run once per occurrence and
    per input: the gateway is called, and a row is stored, as many times
    as the identifier occurs times the number of inputs; and the summary
    has exactly one entry for the identifier, whose total counts the rows
    of all its occurrences. *)
Theorem duplicate_models_one_summary id mp ids ms sc w obj m :
  (forall n, db_fault E n = None) ->
  found_run id w = Some obj -> loaded_items ids w <> [] ->
  filter (fun r => (db_models.test_run_id r =? id)%Z) (db_test_results w) = [] ->
  In m ms ->
  let w' := snd (execute_test_run_background E id mp ids ms sc w) in
  let per_occurrence := length (loaded_items ids w) in
  exists calls rows resp s,
    llm_trace w' = llm_trace w ++ calls /\
    length (filter (fun c => String.eqb (call_model c) m) calls)
    = count_occ string_dec ms m * per_occurrence /\
    db_test_results w' = db_test_results w ++ rows /\
    length (of_model m rows) = count_occ string_dec ms m * per_occurrence /\
    fst (get_test_run_summary_by_llm E id w') = Returned resp /\
    filter (fun s => String.eqb (pydantic_models.target_llm_model_id s) m)
      (pydantic_models.llm_summaries resp) = [s] /\
    pydantic_models.total_tests s = count_occ string_dec ms m * per_occurrence.
Proof.
  intros Hok Hfound Hne Hfresh Hm w' per.
  set (pairs := list_prod ms (loaded_items ids w)).
  destruct (driver_loaded id mp ids ms sc w obj (Hok _) Hne (Hok _) Hfound (Hok _))
    as (rows & calls & t & final & Hr & Hrows & Ht & Hcalls & _).
  fold w' pairs in Hr, Hrows, Ht, Hcalls.
  rewrite (completed_cases_all (3 + db_ops w) (length pairs)) in Hrows, Hcalls
    by (intros; apply Hok).
  replace (Nat.min (length pairs) (S (length pairs))) with (length pairs) in Hcalls by lia.
  rewrite firstn_all in Hrows, Hcalls.
  destruct (driver_terminal id mp ids ms sc w obj (Hok _) Hne (Hok _) Hfound (Hok _) (Hok _))
    as (_ & _ & obj' & _ & _ & _ & _ & Hfound' & _).
  fold w' in Hfound'.
  assert (Hcount_calls :
    length (filter (fun c => String.eqb (call_model c) m) calls)
    = count_occ string_dec ms m * per).
  { rewrite <- (Forall2_filter_length _ (fun p => String.eqb (fst p) m) _ _ _ Hcalls).
    - apply count_pairs_of_model.
    - intros p c [Hc _]. rewrite Hc. reflexivity. }
  assert (Hcount_rows : length (of_model m rows) = count_occ string_dec ms m * per).
  { unfold of_model.
    rewrite <- (Forall2_filter_length _ (fun p => String.eqb (fst p) m) _ _ _ Hrows).
    - apply count_pairs_of_model.
    - intros p r (_ & Hmodel & _). rewrite Hmodel. reflexivity. }
  assert (Hmine :
    filter (fun r => (db_models.test_run_id r =? id)%Z) (db_test_results w') = rows).
  { rewrite Hr, filter_app, Hfresh. cbn. apply filter_none.
    intros r Hin. destruct (Forall2_In_right _ _ _ Hrows r Hin) as (p & _ & Hid & _).
    rewrite Hid. apply Z.eqb_refl. }
  destruct (summary_by_llm_spec id w' obj' (Hok _) (Hok _) Hfound')
    as (resp & Hresp & _ & Hnd & Hcover & Hentries).
  rewrite Hmine in Hcover, Hentries.
  assert (Hpos : 0 < count_occ string_dec ms m * per).
  { apply (count_occ_In string_dec) in Hm. unfold per.
    destruct (loaded_items ids w); [congruence|]. cbn. nia. }
  destruct (of_model m rows) as [|r l] eqn:Hof; [cbn in Hcount_rows; lia|].
  assert (Hr_in : In r rows /\ db_models.target_llm_model_id r = m).
  { assert (H : In r (of_model m rows)) by (rewrite Hof; left; reflexivity).
    unfold of_model in H. apply filter_In in H. destruct H as [H1 H2].
    split; [exact H1|]. apply String.eqb_eq, H2. }
  destruct Hr_in as [Hr_in Hr_m].
  destruct (Hcover r Hr_in) as (s & Hs_in & Hs_m). rewrite Hr_m in Hs_m.
  exists calls, rows, resp, s.
  splits; auto.
  - rewrite Hof. exact Hcount_rows.
  - rewrite <- Hs_m. apply NoDup_filter_singleton; assumption.
  - destruct (Hentries s Hs_in) as [_ Hs]. rewrite Hs_m in Hs. rewrite Hs. cbn.
    rewrite Hof. exact Hcount_rows.
Qed.

End Properties.

(** * The theorems at concrete inputs *)

Import Scenario.

(** C1 witness: the third database operation after the start, the first
    write of a row, fails. *)
Lemma executor_exception_ends_run_witness :
  let w := world [queued_run ["a"%string]] [] in
  let w' := snd (execute_test_run_background (env_fault_at 3) 1 master_prompt
                   [1%Z; 2%Z] ["a"%string] schema w) in
  (db_fault (env_fault_at 3) (db_ops w) = None /\
   loaded_items [1%Z; 2%Z] w <> [] /\
   db_fault (env_fault_at 3) (S (db_ops w)) = None /\
   found_run 1 w = Some (queued_run ["a"%string]) /\
   db_fault (env_fault_at 3) (S (S (db_ops w))) = None) /\
  exists obj',
    length (llm_trace w') = length (llm_trace w) + 1 /\
    length (db_test_results w') = length (db_test_results w) + 0 /\
    found_run 1 w' = Some obj' /\
    db_models.status obj' = "failed"%string /\
    db_models.completed_at obj' <> None.
Proof.
  intros w w'.
  assert (H0 : db_fault (env_fault_at 3) (db_ops w) = None) by reflexivity.
  assert (H1 : loaded_items [1%Z; 2%Z] w <> []) by (vm_compute; discriminate).
  assert (H2 : db_fault (env_fault_at 3) (S (db_ops w)) = None) by reflexivity.
  assert (H3 : found_run 1 w = Some (queued_run ["a"%string])) by reflexivity.
  assert (H4 : db_fault (env_fault_at 3) (S (S (db_ops w))) = None) by reflexivity.
  split; [repeat split; assumption|].
  destruct (executor_exception_ends_run (env_fault_at 3) 1 master_prompt
              [1%Z; 2%Z] ["a"%string] schema w (queued_run ["a"%string])
              H0 H1 H2 H3 H4) as (_ & Hfail & _).
  apply (Hfail 0 "database is locked"%string).
  - vm_compute. lia.
  - intros j Hj. lia.
  - reflexivity.
  - reflexivity.
Defined.

(** C1 counterexample: one model and two inputs; the executor raises for
    the first pairing, and the second pairing never reaches the gateway:
    the run is marked failed with one gateway call and no row. *)
Lemma remaining_pairings_not_attempted :
  let w := world [queued_run ["a"%string]] [] in
  let w' := snd (execute_test_run_background (env_fault_at 3) 1 master_prompt
                   [1%Z; 2%Z] ["a"%string] schema w) in
  list_prod ["a"%string] (loaded_items [1%Z; 2%Z] w) = [("a"%string, item_x); ("a"%string, item_y)] /\
  (forall w0, db_ops w0 = 3 ->
     exists e, fst (run_single_test_case (env_fault_at 3) 1 master_prompt item_x "a"
                      schema w0) = Raised e) /\
  map call_messages (llm_trace w') = [prompt_messages (env_fault_at 3) master_prompt item_x] /\
  ~ (exists c, In c (llm_trace w') /\
               call_messages c = prompt_messages (env_fault_at 3) master_prompt item_y) /\
  db_test_results w' = [] /\
  map db_models.status (db_test_runs w') = ["failed"%string].
Proof.
  intros w w'. repeat split; try reflexivity.
  - intros w0 H0. apply run_single_test_case_raises. rewrite H0. discriminate.
  - intros (c & Hin & Hc). vm_compute in Hin. destruct Hin as [<-|[]].
    vm_compute in Hc. discriminate.
Qed.

(** C2 witness: the checker raises [SchemaError] on a response that
    parses. *)
Lemma schema_error_recorded_as_fail_witness :
  let E := env_schema_error in
  let w := world [queued_run ["a"%string]] [] in
  exists row,
    db_test_results (snd (run_single_test_case E 1 master_prompt item_x "a" schema w))
    = db_test_results w ++ [row] /\
    db_models.parse_status row = Some true /\
    db_models.schema_compliance_status row = Some "Fail"%string /\
    db_models.validation_errors row =
      Some [{| v_message := "'strng' is not valid under any of the given schemas";
               v_path := []; v_validator := "schema_error" |}] /\
    db_models.result_error_message row = None.
Proof.
  intros E w.
  apply (schema_error_recorded_as_fail E 1 master_prompt item_x "a" schema w
           {| message := Some {| rm_content := Some "[1, 2]"%string |} |} []
           "[1, 2]" (JArray [JInt 1; JInt 2])
           (SchemaError "'strng' is not valid under any of the given schemas")).
  - reflexivity.
  - reflexivity.
  - discriminate.
  - reflexivity.
  - reflexivity.
  - intros msg path validator. discriminate.
  - reflexivity.
Defined.

(** C2 counterexample: with a schema that the checker rejects, the stored
    row has no error message, a compliance status and a violation record:
    none of the three things the claim says. *)
Lemma malformed_schema_not_an_execution_error :
  let w' := snd (run_single_test_case env_schema_error 1 master_prompt item_x "a" schema
                   (world [queued_run ["a"%string]] [])) in
  validate env_schema_error (JArray [JInt 1; JInt 2]) schema
  = Raised (SchemaError "'strng' is not valid under any of the given schemas") /\
  exists row,
    db_test_results w' = [row] /\
    ~ (db_models.result_error_message row <> None /\
       db_models.schema_compliance_status row = None /\
       db_models.validation_errors row = None) /\
    db_models.result_error_message row = None /\
    db_models.schema_compliance_status row = Some "Fail"%string /\
    db_models.validation_errors row <> None.
Proof.
  intros w'. split; [reflexivity|].
  eexists. split; [vm_compute; reflexivity|]. cbn.
  repeat split; try discriminate. intros (H & _). apply H. reflexivity.
Qed.

(** C3 witness: a run is created, then driven. *)
Lemma results_record_loaded_inputs_witness :
  let w0 := world [] [] in
  exists run task w1,
    create_and_initiate_test_run env_ok request w0 = (Returned (run, task), w1) /\
    task_mock_data_item_ids task = [1%Z; 2%Z] /\
    exists rows,
      db_test_results (snd (run_background_task env_ok task w1))
      = db_test_results w1 ++ rows /\
      forall row, In row rows ->
        exists it, In it (db_mock_data_items w1) /\
                   In (db_models.item_id it) (task_mock_data_item_ids task) /\
                   db_models.mock_input_data_used row = db_models.item_content it.
Proof.
  intros w0.
  destruct (create_and_initiate_test_run env_ok request w0) as [[[run task]|e] w1] eqn:Hc;
    [|vm_compute in Hc; discriminate].
  exists run, task, w1. split; [reflexivity|].
  destruct (results_record_loaded_inputs env_ok (task_test_run_id task)
              (task_master_prompt_content task) (task_mock_data_item_ids task)
              (task_target_llm_ids task) (task_master_schema_content task) w1)
    as (Hrows & Hids & _).
  split; [|exact Hrows].
  rewrite (Hids request w0 run task w1 Hc). reflexivity.
Defined.

(** C3 counterexample: the first mock input is edited after the run is
    created and before the background driver starts; the row records the
    edited content, not the content at creation. *)
Lemma edit_before_start_changes_result :
  let w0 := world [] [] in
  exists run task w1,
    create_and_initiate_test_run env_ok request w0 = (Returned (run, task), w1) /\
    map db_models.item_content (db_mock_data_items w1) = [JString "x"; JString "y"] /\
    let w2 := snd (update_specific_mock_data_item env_ok 1 (JString "edited") w1) in
    let w3 := snd (run_background_task env_ok task w2) in
    map db_models.mock_input_data_used (db_test_results w3)
    = [JString "edited"; JString "y"] /\
    map db_models.mock_input_data_used (db_test_results w3)
    <> map db_models.item_content (db_mock_data_items w1) /\
    let w2' := snd (delete_specific_mock_data_item env_ok 1 w1) in
    let w3' := snd (run_background_task env_ok task w2') in
    map db_models.mock_input_data_used (db_test_results w3') = [JString "y"].
Proof.
  intros w0. do 3 eexists. split; [vm_compute; reflexivity|].
  split; [reflexivity|]. vm_compute. repeat split. discriminate.
Qed.

(** C4 witness: the first write of a row fails; the run ends failed with
    its completion time. *)
Lemma run_status_after_driver_witness :
  let E := env_fault_at 3 in
  let w := world [queued_run ["a"%string]] [] in
  let w' := snd (execute_test_run_background E 1 master_prompt
                   [1%Z; 2%Z] ["a"%string] schema w) in
  found_run 1 w = Some (queued_run ["a"%string]) /\
  exists obj', found_run 1 w' = Some obj' /\
               db_models.completed_at obj' <> None /\
               db_models.status obj' = "failed"%string.
Proof.
  intros E w w'. split; [reflexivity|].
  destruct (run_status_after_driver E 1 master_prompt [1%Z; 2%Z] ["a"%string] schema w
              (queued_run ["a"%string]) eq_refl) as (Hloop & _).
  destruct Hloop as (obj' & Hfound & Hat & Hfail & _).
  - reflexivity.
  - vm_compute. discriminate.
  - reflexivity.
  - reflexivity.
  - reflexivity.
  - exists obj'. repeat split; try assumption. apply Hfail. vm_compute. lia.
Defined.

(** C4 counterexample: the query that loads the mock inputs fails; the
    driver raises before the run record is bound, and the run stays queued
    with no completion time.  The same happens when the identifiers match
    no row of the mock input table. *)
Lemma unloaded_inputs_leave_run_queued :
  let w := world [queued_run ["a"%string]] [] in
  let w' := snd (execute_test_run_background (env_fault_at 0) 1 master_prompt
                   [1%Z; 2%Z] ["a"%string] schema w) in
  let w'' := snd (execute_test_run_background env_ok 1 master_prompt [7%Z] ["a"%string]
                    schema w) in
  fst (run_body (env_fault_at 0) 1 master_prompt [1%Z; 2%Z] ["a"%string] schema
         (new_run_frame w))
  = Raised (OperationalError "database is locked") /\
  fst (run_body env_ok 1 master_prompt [7%Z] ["a"%string] schema (new_run_frame w))
  = Raised (ValueError "No mock data items found for the provided IDs in background task.") /\
  (exists obj',
      found_run 1 w' = Some obj' /\
      db_models.status obj' <> "failed"%string /\
      db_models.status obj' = "queued"%string /\
      db_models.completed_at obj' = None) /\
  (exists obj',
      found_run 1 w'' = Some obj' /\
      db_models.status obj' <> "failed"%string /\
      db_models.status obj' = "queued"%string /\
      db_models.completed_at obj' = None).
Proof.
  intros w w' w''. split; [reflexivity|]. split; [reflexivity|].
  split; (eexists; split; [vm_compute; reflexivity|]; cbn; repeat split; discriminate).
Qed.

(** C5 witness: two models, two inputs, nothing fails. *)
Lemma result_count_bounds_witness :
  let w := world [queued_run ["a"; "b"]%string] [] in
  let w' := snd (execute_test_run_background env_ok 1 master_prompt
                   [1%Z; 2%Z] ["a"; "b"]%string schema w) in
  exists rows calls,
    db_test_results w' = db_test_results w ++ rows /\
    llm_trace w' = llm_trace w ++ calls /\
    length rows = 2 * 2 /\ length calls = length rows.
Proof.
  intros w w'.
  destruct (result_count_bounds env_ok 1 master_prompt [1%Z; 2%Z] ["a"; "b"]%string schema w)
    as (rows & calls & Hr & Ht & _ & _ & _ & _ & Hdone).
  exists rows, calls. split; [exact Hr|]. split; [exact Ht|].
  eapply (Hdone (queued_run ["a"; "b"]%string)).
  - reflexivity.
  - reflexivity.
  - vm_compute. reflexivity.
  - reflexivity.
Defined.

(** C5 counterexample: two models and one input; the write of the second
    pairing fails.  Both pairings were attempted, one row exists. *)
Lemma attempted_pairing_without_result :
  let w := world [queued_run ["a"; "b"]%string] [] in
  let w' := snd (execute_test_run_background (env_fault_at 4) 1 master_prompt
                   [1%Z] ["a"; "b"]%string schema w) in
  map call_model (llm_trace w') = ["a"; "b"]%string /\
  map db_models.target_llm_model_id (db_test_results w') = ["a"%string] /\
  length (db_test_results w') <> length (llm_trace w').
Proof.
  intros w w'. vm_compute. repeat split. discriminate.
Qed.

(** C6 witness: three rows of one model, recorded in 1, 1 and 2 ms. *)
Lemma summary_matches_specification_witness :
  let w := world [queued_run ["a"%string]]
             [timed_result "a" 1; timed_result "a" 1; timed_result "a" 2] in
  (db_fault env_ok (db_ops w) = None /\ db_fault env_ok (S (db_ops w)) = None /\
   found_run 1 w = Some (queued_run ["a"%string])) /\
  exists resp,
    fst (get_test_run_summary_by_llm env_ok 1 w) = Returned resp /\
    forall s, In s (pydantic_models.llm_summaries resp) ->
      pydantic_models.total_tests s
      = length (of_model (pydantic_models.target_llm_model_id s) (db_test_results w)).
Proof.
  intros w. split; [repeat split|].
  destruct (summary_matches_specification env_ok 1 w (queued_run ["a"%string])
              eq_refl eq_refl eq_refl) as (resp & Hresp & _ & _ & Hentries).
  exists resp. split; [exact Hresp|].
  intros s Hin. destruct (Hentries s Hin) as (_ & _ & Htotal & _). exact Htotal.
Defined.

(** C6 counterexample: for times of 1, 1 and 2 ms the endpoint answers
    1.33, which is not the arithmetic mean 4/3. *)
Lemma average_is_rounded :
  let w := world [queued_run ["a"%string]]
             [timed_result "a" 1; timed_result "a" 1; timed_result "a" 2] in
  exists resp s avg,
    fst (get_test_run_summary_by_llm env_ok 1 w) = Returned resp /\
    pydantic_models.llm_summaries resp = [s] /\
    recorded_times (of_model "a" (db_test_results w)) = [1; 1; 2]%Q /\
    pydantic_models.average_execution_time_ms s = Some avg /\
    (avg == 133 # 100)%Q /\
    ~ (avg == mean [1; 1; 2])%Q.
Proof.
  intros w. do 3 eexists. split; [vm_compute; reflexivity|].
  split; [reflexivity|]. split; [reflexivity|]. split; [reflexivity|].
  split; [reflexivity|]. vm_compute. discriminate.
Qed.

(** C7 witness: a run from an empty result table. *)
Lemma stored_results_consistent_witness :
  let w := world [queued_run ["a"; "b"]%string] [] in
  Forall result_consistent (db_test_results w) /\
  Forall result_consistent
    (db_test_results (snd (execute_test_run_background env_ok 1 master_prompt
                             [1%Z; 2%Z] ["a"; "b"]%string schema w))).
Proof.
  intros w.
  assert (H : Forall result_consistent (db_test_results w)) by constructor.
  split; [exact H|].
  apply (stored_results_consistent env_ok 1 master_prompt [1%Z; 2%Z] ["a"; "b"]%string
           schema item_x "a" w H).
Defined.

(** C8 counterexample: the gateway call takes two seconds and the
    interpretation of the answer a tenth of a second; the row records 2100
    ms, the call took 2000 ms. *)
Lemma recorded_time_exceeds_call :
  let w' := snd (run_single_test_case env_ok 1 master_prompt item_x "a" schema
                   (world [queued_run ["a"%string]] [])) in
  exists row call t,
    db_test_results w' = [row] /\ llm_trace w' = [call] /\
    db_models.execution_time_ms row = Some t /\
    (t == 2100)%Q /\
    ((call_finished call - call_started call) * 1000 == 2000)%Q /\
    ~ (t == (call_finished call - call_started call) * 1000)%Q.
Proof.
  intros w'. do 3 eexists. split; [vm_compute; reflexivity|].
  split; [reflexivity|]. split; [reflexivity|].
  split; [reflexivity|]. split; [reflexivity|]. vm_compute. discriminate.
Qed.

(** C9 witness: the model "a" is listed twice, next to "b", for two
    inputs. *)
Lemma duplicate_models_one_summary_witness :
  let w := world [queued_run ["a"; "b"; "a"]%string] [] in
  let w' := snd (execute_test_run_background env_ok 1 master_prompt
                   [1%Z; 2%Z] ["a"; "b"; "a"]%string schema w) in
  ((forall n, db_fault env_ok n = None) /\
   found_run 1 w = Some (queued_run ["a"; "b"; "a"]%string) /\
   loaded_items [1%Z; 2%Z] w <> [] /\
   filter (fun r => (db_models.test_run_id r =? 1)%Z) (db_test_results w) = [] /\
   In "a"%string ["a"; "b"; "a"]%string) /\
  exists resp s,
    fst (get_test_run_summary_by_llm env_ok 1 w') = Returned resp /\
    filter (fun s => String.eqb (pydantic_models.target_llm_model_id s) "a")
      (pydantic_models.llm_summaries resp) = [s] /\
    pydantic_models.total_tests s = 2 * 2.
Proof.
  intros w w'.
  assert (H0 : forall n, db_fault env_ok n = None) by (intros n; reflexivity).
  assert (H1 : found_run 1 w = Some (queued_run ["a"; "b"; "a"]%string)) by reflexivity.
  assert (H2 : loaded_items [1%Z; 2%Z] w <> []) by (vm_compute; discriminate).
  assert (H3 : filter (fun r => (db_models.test_run_id r =? 1)%Z) (db_test_results w) = [])
    by reflexivity.
  assert (H4 : In "a"%string ["a"; "b"; "a"]%string) by (left; reflexivity).
  split; [repeat split; assumption|].
  destruct (duplicate_models_one_summary env_ok 1 master_prompt [1%Z; 2%Z]
              ["a"; "b"; "a"]%string schema w _ "a" H0 H1 H2 H3 H4)
    as (calls & rows & resp & s & _ & _ & _ & _ & Hresp & Hone & Htotal).
  exists resp, s. repeat split; assumption.
Defined.

(** C10 witness: a master prompt without the placeholder. *)
Lemma placeholder_replaced_everywhere_witness :
  Py.occurrences "{{INPUT_DATA}}" "Answer in JSON." = 0 /\
  final_prompt_content env_ok "Answer in JSON." item_x = "Answer in JSON."%string.
Proof.
  assert (H : Py.occurrences "{{INPUT_DATA}}" "Answer in JSON." = 0) by reflexivity.
  split; [exact H|].
  destruct (placeholder_replaced_everywhere env_ok "Answer in JSON." item_x)
    as (_ & _ & _ & Hsame & _).
  exact (Hsame H).
Defined.

Example placeholder_twice :
  final_prompt_content Scenario.env_ok "{{INPUT_DATA}} and {{INPUT_DATA}}" Scenario.item_x
  = String Scenario.quote ("x" +++ String Scenario.quote
      (" and " +++ String Scenario.quote ("x" +++ String Scenario.quote EmptyString))).
Proof. reflexivity. Qed.

(** * Further properties

    Properties of the routes and helpers around the executor, the driver
    and the summary: the gateway client and the model listing, the
    creation, listing and retrieval of runs, the mock item routes, the
    validation route, and the executor seen from its three oracles. *)

Ltac splits := repeat match goal with |- _ /\ _ => split end.

Section Further.

Variable E : Env.

#[local] Arguments Qplus : simpl never.
#[local] Arguments Qmult : simpl never.
#[local] Arguments Qminus : simpl never.

Ltac run_call :=
  unfold test_chat_completions_with_llm_service, call_llm_chat_completions,
    elapse, monotonic, try_except, bind, modify, get, ret, raise, lift_outcome;
  cbn.

(** The gateway client wraps every failure in [LLMServiceError]. *)
Lemma call_llm_outcome model_id messages temperature max_tokens w :
  fst (call_llm_chat_completions E model_id messages temperature max_tokens w) =
  match requests_post E (length (llm_trace w)) model_id messages temperature max_tokens with
  | Returned body => Returned body
  | Raised (RequestException m (Some (code, text))) =>
      Raised (LLMServiceError
                ("LLM service error: " +++ string_of_Z code +++ " - " +++ text) (Some code))
  | Raised (RequestException m None) =>
      Raised (LLMServiceError ("Could not connect to LLM service: " +++ m) (Some 503%Z))
  | Raised e =>
      Raised (LLMServiceError
                ("An unexpected error occurred during chat completion: " +++ str e)
                (Some 500%Z))
  end.
Proof.
  run_call.
  destruct (requests_post E _ _ _ _ _) as [r|e]; [reflexivity|].
  destruct e as [| ? [[]|] | | | | | | | ]; reflexivity.
Qed.

Lemma call_llm_world model_id messages temperature max_tokens w :
  let w' := snd (call_llm_chat_completions E model_id messages temperature max_tokens w) in
  same_tables w w' /\
  llm_trace w' = llm_trace w ++
    [{| call_model := model_id; call_messages := messages;
        call_temperature := temperature; call_started := clock w;
        call_finished := (clock w + latency E PhLLMCall (db_ops w))%Q |}].
Proof.
  run_call.
  destruct (requests_post E _ _ _ _ _) as [r|e].
  - cbn. unfold same_tables; cbn; auto 10.
  - destruct e as [| ? [[]|] | | | | | | | ]; cbn; unfold same_tables; cbn; auto 10.
Qed.

(** X1. The gateway client [call_llm_chat_completions] raises nothing but
    [LLMServiceError]: with the status of the gateway when the gateway
    answered with an error status, and with 503 when it could not be
    reached.  It returns a body exactly when the request returned that
    body, and in every case it makes one call and leaves the tables alone. *)
Theorem call_llm_raises_only_service_errors model_id messages temperature max_tokens w :
  let r := call_llm_chat_completions E model_id messages temperature max_tokens w in
  let reply :=
    requests_post E (length (llm_trace w)) model_id messages temperature max_tokens in
  (forall e, fst r = Raised e ->
     exists msg code, e = LLMServiceError msg (Some code) /\
       (forall m status text, reply = Raised (RequestException m (Some (status, text))) ->
          code = status) /\
       (forall m, reply = Raised (RequestException m None) -> code = 503%Z)) /\
  (forall body, reply = Returned body <-> fst r = Returned body) /\
  (exists c, llm_trace (snd r) = llm_trace w ++ [c] /\
             call_model c = model_id /\ call_messages c = messages) /\
  same_tables w (snd r).
Proof.
  intros r reply.
  pose proof (call_llm_outcome model_id messages temperature max_tokens w) as Ho.
  destruct (call_llm_world model_id messages temperature max_tokens w) as [Ht Hl].
  fold r in Ho, Ht, Hl. fold reply in Ho.
  splits.
  - intros e He. rewrite He in Ho.
    destruct reply as [body|e0]; [discriminate|].
    destruct e0 as [| ? [[]|] | | | | | | | ]; inversion Ho; subst;
      do 2 eexists; (split; [reflexivity|]); split; intros; congruence.
  - intros body. split; intros H.
    + rewrite H in Ho. exact Ho.
    + rewrite H in Ho. destruct reply as [b|e0].
      * congruence.
      * destruct e0 as [| ? [[]|] | | | | | | | ]; discriminate.
  - eexists. split; [exact Hl|]. split; reflexivity.
  - exact Ht.
Qed.

Lemma chat_route_outcome model_id messages temperature max_tokens w :
  fst (test_chat_completions_with_llm_service E model_id messages temperature max_tokens w) =
  match fst (call_llm_chat_completions E model_id messages temperature max_tokens w) with
  | Returned body => Returned body
  | Raised (LLMServiceError m code) => Raised (HTTPException (status_code_or 500 code) m)
  | Raised e => Raised (HTTPException 500 ("An unexpected error occurred: " +++ str e))
  end.
Proof.
  unfold test_chat_completions_with_llm_service, try_except.
  destruct (call_llm_chat_completions E _ _ _ _ w) as [[body|e] w']; cbn; [reflexivity|].
  destruct e; reflexivity.
Qed.

(** X2. The chat test route raises nothing but [HTTPException].  An error
    status of the gateway becomes the status of the route (500 when the
    status is 0), an unreachable gateway gives 503, any other failure of
    the request gives 500, and a body is passed on unchanged. *)
Theorem chat_route_status_follows_gateway model_id messages temperature max_tokens w :
  let r := test_chat_completions_with_llm_service E model_id messages temperature max_tokens w in
  let reply :=
    requests_post E (length (llm_trace w)) model_id messages temperature max_tokens in
  (forall e, fst r = Raised e -> exists code detail, e = HTTPException code detail) /\
  (forall body, reply = Returned body -> fst r = Returned body) /\
  (forall m status text,
     reply = Raised (RequestException m (Some (status, text))) ->
     fst r = Raised (HTTPException (if (status =? 0)%Z then 500%Z else status)
                       ("LLM service error: " +++ string_of_Z status +++ " - " +++ text))) /\
  (forall m, reply = Raised (RequestException m None) ->
     fst r = Raised (HTTPException 503 ("Could not connect to LLM service: " +++ m))) /\
  (forall e, reply = Raised e -> (forall m resp, e <> RequestException m resp) ->
     fst r = Raised (HTTPException 500
                       ("An unexpected error occurred during chat completion: " +++ str e))).
Proof.
  intros r reply.
  pose proof (chat_route_outcome model_id messages temperature max_tokens w) as Hr.
  rewrite call_llm_outcome in Hr. fold r in Hr. fold reply in Hr.
  splits.
  - intros e He. rewrite He in Hr.
    destruct reply as [body|e0]; [discriminate|].
    destruct e0 as [| ? [[]|] | | | | | | | ]; inversion Hr; eauto.
  - intros body H. rewrite H in Hr. exact Hr.
  - intros m status text H. rewrite H in Hr. exact Hr.
  - intros m H. rewrite H in Hr. exact Hr.
  - intros e H Hne. rewrite H in Hr.
    destruct e as [| m resp | | | | | | | ]; try exact Hr.
    exfalso. exact (Hne m resp eq_refl).
Qed.

End Further.

Section FurtherModels.

Variable err : json -> json -> option json -> string.

Lemma parse_models_entries (ms : list LLMModel) :
  Forall (fun m => model_id m <> EmptyString) ms ->
  parse_models err (map entry_of_model ms) = Returned ms.
Proof.
  induction 1 as [|m ms Hm _ IH]; [reflexivity|].
  cbn [map parse_models entry_of_model dict_lookup String.eqb Ascii.eqb Bool.eqb json_truthy].
  cbn.
  destruct m as [i n d]; cbn in *.
  destruct i as [|c i]; [congruence|]. cbn.
  destruct d; cbn; rewrite IH; reflexivity.
Qed.

Lemma parse_models_bare (ids : list string) :
  Forall (fun i => i <> EmptyString) ids ->
  parse_models err (map bare_entry ids) =
  Returned (map (fun i => {| model_id := i; model_name := i;
                             model_description := None |}) ids).
Proof.
  induction 1 as [|i ids Hi _ IH]; [reflexivity|].
  cbn. destruct i as [|c i]; [congruence|]. cbn. rewrite IH. reflexivity.
Qed.

(** X3. A listing in the gateway's format whose entries carry non-empty
    string ids is read back entry by entry and in order: an entry with id,
    name and description gives the model with these fields, and an entry
    with only an id gives a model named after its id, without description. *)
Theorem models_listing_round_trip (members : list (string * json)) :
  (forall ms,
     Forall (fun m => model_id m <> EmptyString) ms ->
     dict_lookup "data" members = Some (JArray (map entry_of_model ms)) ->
     get_available_models err (Returned (JObject members)) = Returned ms) /\
  (forall ids,
     Forall (fun i => i <> EmptyString) ids ->
     dict_lookup "data" members = Some (JArray (map bare_entry ids)) ->
     get_available_models err (Returned (JObject members)) =
     Returned (map (fun i => {| model_id := i; model_name := i;
                                model_description := None |}) ids)).
Proof.
  split.
  - intros ms Hms Hdata. unfold get_available_models. rewrite Hdata.
    rewrite parse_models_entries by exact Hms. reflexivity.
  - intros ids Hids Hdata. unfold get_available_models. rewrite Hdata.
    rewrite parse_models_bare by exact Hids. reflexivity.
Qed.

(** X4. [get_available_models] raises nothing but [LLMServiceError], with
    status 503 exactly when the request itself failed and 500 otherwise;
    the route [list_available_llm_models] turns it into an [HTTPException]
    of the same status and message, and returns exactly what the service
    returns. *)
Theorem models_listing_errors (response : outcome json) :
  (forall e, get_available_models err response = Raised e ->
     exists msg code, e = LLMServiceError msg (Some code) /\
       (code = 503%Z <-> exists m resp, response = Raised (RequestException m resp)) /\
       (code = 500%Z \/ code = 503%Z)) /\
  (forall e, list_available_llm_models err response = Raised e ->
     exists msg code,
       get_available_models err response = Raised (LLMServiceError msg (Some code)) /\
       e = HTTPException code msg) /\
  (forall ms, list_available_llm_models err response = Returned ms <->
              get_available_models err response = Returned ms).
Proof.
  assert (H1 : forall e, get_available_models err response = Raised e ->
     exists msg code, e = LLMServiceError msg (Some code) /\
       (code = 503%Z <-> exists m resp, response = Raised (RequestException m resp)) /\
       (code = 500%Z \/ code = 503%Z)).
  { intros e He. unfold get_available_models in He.
    destruct response as [body|e0].
    - match type of He with
      | match ?p with _ => _ end = _ => destruct p as [l|e1]; [discriminate|]
      end.
      inversion He; subst. do 2 eexists. split; [reflexivity|]. split; [|auto].
      split; [discriminate|]. intros (m & resp & H). discriminate.
    - destruct e0; inversion He; subst; do 2 eexists; (split; [reflexivity|]);
        (split; [|auto]);
        try (split; [discriminate|intros (m & resp & H); discriminate]).
      split; [eauto|reflexivity]. }
  splits.
  - exact H1.
  - intros e He. unfold list_available_llm_models in He.
    destruct (get_available_models err response) as [ms|e0] eqn:Hg; [discriminate|].
    destruct (H1 e0 eq_refl) as (msg & code & -> & Hc & Hc').
    exists msg, code. split; [reflexivity|].
    inversion He; subst. cbn.
    destruct Hc' as [-> | ->]; reflexivity.
  - intros ms. unfold list_available_llm_models.
    destruct (get_available_models err response) as [ms'|e0] eqn:Hg.
    + split; intros H; exact H.
    + destruct (H1 e0 eq_refl) as (msg & code & -> & _). split; discriminate.
Qed.

Lemma parse_models_ids (items : list json) : forall ms,
  parse_models err items = Returned ms ->
  Forall (fun m => model_id m <> EmptyString) ms /\ length ms <= length items.
Proof.
  induction items as [|item items IH]; intros ms H; cbn in H.
  - inversion H; subst. split; [constructor|cbn; lia].
  - assert (Hskip : forall ms, parse_models err items = Returned ms ->
              Forall (fun m => model_id m <> EmptyString) ms /\
              length ms <= length (item :: items)).
    { intros ms' H'. destruct (IH ms' H'). split; [assumption|cbn; lia]. }
    destruct item as [| | | | |l|members]; try (apply Hskip; exact H).
    destruct (dict_lookup "id" members) as [id|]; [|apply Hskip; exact H].
    destruct (json_truthy id) eqn:Htruthy; [|apply Hskip; exact H].
    destruct (make_LLMModel err id _ _) as [m|e] eqn:Hm; [|discriminate].
    destruct (parse_models err items) as [ms'|e]; [|discriminate].
    inversion H; subst. destruct (IH ms' eq_refl) as [IH1 IH2].
    split; [|cbn; lia]. constructor; [|exact IH1].
    unfold make_LLMModel in Hm.
    destruct id; try discriminate.
    destruct (match dict_lookup "name" members with Some n => n | None => JString s end);
      try discriminate.
    assert (Hid : model_id m = s).
    { destruct (dict_lookup "description" members) as [[]|]; inversion Hm; reflexivity. }
    rewrite Hid. cbn in Htruthy. destruct s; [discriminate|discriminate].
Qed.

Lemma parse_models_skip (pre post : list json) (bad : json) :
  unusable_entry bad ->
  parse_models err (pre ++ bad :: post) = parse_models err (pre ++ post).
Proof.
  intros Hbad. induction pre as [|item pre IH].
  - cbn. destruct Hbad as [H|(members & -> & [H|[H|H]])].
    + destruct bad; try reflexivity. exfalso. exact (H _ eq_refl).
    + rewrite H. reflexivity.
    + rewrite H. reflexivity.
    + rewrite H. reflexivity.
  - cbn [app parse_models]. rewrite IH. reflexivity.
Qed.

(** X5. An answer that is not an object, or whose [data] member is not a
    list, gives the empty list of models.  An entry that is not an object,
    or whose id is missing, null or empty, is passed over without effect
    on the other entries, and no model that is returned has an empty id. *)
Theorem models_listing_skips_unusable_entries :
  (forall body,
     (forall members, body <> JObject members) ->
     get_available_models err (Returned body) = Returned []) /\
  (forall members,
     (forall items, dict_lookup "data" members <> Some (JArray items)) ->
     get_available_models err (Returned (JObject members)) = Returned []) /\
  (forall members pre bad post,
     unusable_entry bad ->
     dict_lookup "data" members = Some (JArray (pre ++ bad :: post)) ->
     get_available_models err (Returned (JObject members)) =
     get_available_models err (Returned (JObject [("data"%string, JArray (pre ++ post))]))) /\
  (forall response ms,
     get_available_models err response = Returned ms ->
     Forall (fun m => model_id m <> EmptyString) ms).
Proof.
  splits.
  - intros body H. unfold get_available_models.
    destruct body; try reflexivity. exfalso. exact (H _ eq_refl).
  - intros members H. unfold get_available_models.
    destruct (dict_lookup "data" members) as [[]|]; try reflexivity.
    exfalso. exact (H _ eq_refl).
  - intros members pre bad post Hbad Hdata. unfold get_available_models.
    rewrite Hdata. cbn [dict_lookup]. cbn. rewrite parse_models_skip by exact Hbad.
    reflexivity.
  - intros response ms H. unfold get_available_models in H.
    destruct response as [body|e]; [|destruct e; discriminate].
    destruct body as [| | | | | |members]; try (inversion H; constructor).
    destruct (dict_lookup "data" members) as [[| | | | |l|]|];
      try (inversion H; constructor).
    destruct (parse_models err l) as [ms'|e] eqn:Hp; [|discriminate].
    inversion H; subst. apply (parse_models_ids l ms Hp).
Qed.

Lemma parse_models_poisoned (items : list json) (bad : json) :
  In bad items -> malformed_entry bad ->
  exists e, parse_models err items = Raised e.
Proof.
  intros Hin (members & id & -> & Hid & Htruthy & Hbad).
  induction items as [|item items IH]; [contradiction|].
  destruct Hin as [->|Hin].
  - cbn. rewrite Hid, Htruthy.
    destruct Hbad as [Hstr|(name & Hname & Hstr)].
    + destruct id; try (eexists; reflexivity). exfalso. exact (Hstr _ eq_refl).
    + rewrite Hname. unfold make_LLMModel.
      destruct id; try (eexists; reflexivity).
      destruct name; try (eexists; reflexivity). exfalso. exact (Hstr _ eq_refl).
  - destruct (IH Hin) as (e & He). cbn. rewrite He.
    destruct item as [| | | | | |mem]; try (eexists; reflexivity).
    destruct (dict_lookup "id" mem) as [id'|]; [|eexists; reflexivity].
    destruct (json_truthy id'); [|eexists; reflexivity].
    destruct (make_LLMModel err id' _ _); eexists; reflexivity.
Qed.

(** X6. One entry that [LLMModel] rejects (an id that is truthy but not a
    string, or a name that is not a string) makes the whole listing fail:
    the service raises [LLMServiceError] with status 500 and the route
    answers 500, whatever the other entries are. *)
Theorem models_listing_is_all_or_nothing (members : list (string * json)) items bad :
  dict_lookup "data" members = Some (JArray items) ->
  In bad items -> malformed_entry bad ->
  exists msg,
    get_available_models err (Returned (JObject members))
    = Raised (LLMServiceError msg (Some 500%Z)) /\
    list_available_llm_models err (Returned (JObject members))
    = Raised (HTTPException 500 msg).
Proof.
  intros Hdata Hin Hbad.
  destruct (parse_models_poisoned items bad Hin Hbad) as (e & He).
  unfold list_available_llm_models, get_available_models.
  rewrite Hdata, He. eexists. split; reflexivity.
Qed.

End FurtherModels.

Section FurtherRuns.

Variable E : Env.

Ltac run_create :=
  unfold create_and_initiate_test_run, db_operation, bind, get, modify, ret, raise;
  cbn.

Lemma next_id_fresh (ids : list Z) : forall x, In x ids -> (x < next_id ids)%Z.
Proof.
  unfold next_id. induction ids as [|y ids IH]; intros x Hin; [contradiction|].
  cbn [fold_right]. destruct Hin as [->|Hin]; [lia|]. specialize (IH x Hin). lia.
Qed.

Lemma find_app_last {A} (f : A -> bool) (l : list A) (x : A) :
  (forall y, In y l -> f y = false) -> f x = true -> find f (l ++ [x]) = Some x.
Proof.
  intros Hl Hx. induction l as [|y l IH]; cbn.
  - rewrite Hx. reflexivity.
  - rewrite (Hl y (or_introl eq_refl)). apply IH. intros z Hz. apply Hl. right. exact Hz.
Qed.

(** What a successful creation has read and written. *)
Lemma create_returns test_run_create w run task w1 :
  create_and_initiate_test_run E test_run_create w = (Returned (run, task), w1) ->
  exists master_prompt master_schema,
    find (fun p => (db_models.mp_id p =? pydantic_models.master_prompt_id test_run_create)%Z)
      (db_master_prompts w) = Some master_prompt /\
    find (fun sc => (db_models.schema_id sc
                     =? pydantic_models.master_schema_id test_run_create)%Z)
      (db_json_schemas w) = Some master_schema /\
    run = {| db_models.id := next_id (map db_models.id (db_test_runs w));
             db_models.name := pydantic_models.name test_run_create;
             db_models.master_prompt_id := pydantic_models.master_prompt_id test_run_create;
             db_models.mock_data_prompt_id :=
               pydantic_models.mock_data_prompt_id test_run_create;
             db_models.target_llm_model_ids :=
               pydantic_models.target_llm_model_ids test_run_create;
             db_models.master_schema_id := pydantic_models.master_schema_id test_run_create;
             db_models.status := "queued";
             db_models.started_at := None;
             db_models.completed_at := None;
             db_models.error_message := None |} /\
    task = {| task_test_run_id := db_models.id run;
              task_master_prompt_content := db_models.prompt_content master_prompt;
              task_mock_data_item_ids :=
                map db_models.item_id
                  (filter (fun it => (db_models.prompt_id it
                                      =? pydantic_models.mock_data_prompt_id test_run_create)%Z)
                          (db_mock_data_items w));
              task_target_llm_ids := pydantic_models.target_llm_model_ids test_run_create;
              task_master_schema_content := db_models.schema_content master_schema |} /\
    w1 = set_db_ops (6 + db_ops w) (set_test_runs (db_test_runs w ++ [run]) w) /\
    filter (fun it => (db_models.prompt_id it
                       =? pydantic_models.mock_data_prompt_id test_run_create)%Z)
           (db_mock_data_items w) <> [].
Proof.
  run_create.
  destruct (db_fault E (db_ops w)); [discriminate|]. cbn.
  destruct (find _ (db_master_prompts w)) as [master_prompt|]; [|discriminate].
  cbn. destruct (db_fault E (S (db_ops w))); [discriminate|]. cbn.
  destruct (find _ (db_mock_data_prompts w)) as [mock_data_prompt|] eqn:Hp; [|discriminate].
  apply find_some in Hp. destruct Hp as [_ Hp]. apply Z.eqb_eq in Hp. rewrite Hp.
  destruct (filter _ (db_mock_data_items w)) as [|it0 its] eqn:Hitems; [discriminate|].
  cbn. destruct (db_fault E (S (S (db_ops w)))); [discriminate|]. cbn.
  destruct (find _ (db_json_schemas w)) as [master_schema|]; [|discriminate].
  cbn. destruct (db_fault E (S (S (S (db_ops w))))); [discriminate|]. cbn.
  destruct (db_fault E (S (S (S (S (db_ops w)))))); [discriminate|]. cbn.
  destruct (db_fault E (S (S (S (S (S (db_ops w))))))); [discriminate|]. cbn.
  intros H. injection H as <- <- <-.
  exists master_prompt, master_schema. splits; try reflexivity. discriminate.
Qed.

(** X7. When [create_and_initiate_test_run] answers with an
    [HTTPException], the status is 404 or 400 and no table has changed.
    With a working database this happens exactly when the master prompt,
    the input set or the schema is missing or the input set has no items
    (400 in that last case); the status of the schema plays no part. *)
Theorem create_rejection_changes_nothing test_run_create w :
  let r := create_and_initiate_test_run E test_run_create w in
  let items :=
    filter (fun it => (db_models.prompt_id it
                       =? pydantic_models.mock_data_prompt_id test_run_create)%Z)
           (db_mock_data_items w) in
  (forall code detail, fst r = Raised (HTTPException code detail) ->
     (code = 404%Z \/ code = 400%Z) /\
     config_unchanged w (snd r) /\ db_test_results (snd r) = db_test_results w) /\
  ((forall n, n < 3 -> db_fault E (db_ops w + n) = None) ->
   ((exists code detail, fst r = Raised (HTTPException code detail)) <->
    (find (fun p => (db_models.mp_id p
                     =? pydantic_models.master_prompt_id test_run_create)%Z)
       (db_master_prompts w) = None \/
     find (fun p => (db_models.mdp_id p
                     =? pydantic_models.mock_data_prompt_id test_run_create)%Z)
       (db_mock_data_prompts w) = None \/
     items = [] \/
     find (fun sc => (db_models.schema_id sc
                      =? pydantic_models.master_schema_id test_run_create)%Z)
       (db_json_schemas w) = None)) /\
   (items = [] ->
    find (fun p => (db_models.mp_id p
                    =? pydantic_models.master_prompt_id test_run_create)%Z)
      (db_master_prompts w) <> None ->
    find (fun p => (db_models.mdp_id p
                    =? pydantic_models.mock_data_prompt_id test_run_create)%Z)
      (db_mock_data_prompts w) <> None ->
    exists detail, fst r = Raised (HTTPException 400 detail))).
Proof.
  intros r items. subst r items. run_create. split.
  - intros code detail.
    destruct (db_fault E (db_ops w)); [discriminate|]. cbn.
    destruct (find _ (db_master_prompts w)) as [master_prompt|]; cbn;
      [|intros H; inversion H; subst; unfold config_unchanged; cbn; auto 10].
    destruct (db_fault E (S (db_ops w))); [discriminate|]. cbn.
    destruct (find _ (db_mock_data_prompts w)) as [mock_data_prompt|] eqn:Hp; cbn;
      [|intros H; inversion H; subst; unfold config_unchanged; cbn; auto 10].
    destruct (filter _ (db_mock_data_items w)) as [|it0 its] eqn:Hitems; cbn;
      [intros H; inversion H; subst; unfold config_unchanged; cbn; auto 10|].
    destruct (db_fault E (S (S (db_ops w)))); [discriminate|]. cbn.
    destruct (find _ (db_json_schemas w)) as [master_schema|]; cbn;
      [|intros H; inversion H; subst; unfold config_unchanged; cbn; auto 10].
    destruct (db_fault E (S (S (S (db_ops w))))); [discriminate|]. cbn.
    destruct (db_fault E (S (S (S (S (db_ops w)))))); [discriminate|]. cbn.
    destruct (db_fault E (S (S (S (S (S (db_ops w))))))); discriminate.
  - intros Hok.
    pose proof (Hok 0 ltac:(lia)) as F0. pose proof (Hok 1 ltac:(lia)) as F1.
    pose proof (Hok 2 ltac:(lia)) as F2.
    rewrite Nat.add_0_r in F0. rewrite Nat.add_1_r in F1.
    replace (db_ops w + 2) with (S (S (db_ops w))) in F2 by lia.
    rewrite F0. cbn.
    destruct (find _ (db_master_prompts w)) as [master_prompt|]; cbn;
      [|split; [split; [eauto|eauto]|intros _ H; congruence]].
    rewrite F1. cbn.
    destruct (find _ (db_mock_data_prompts w)) as [mock_data_prompt|] eqn:Hp; cbn;
      [|split; [split; [eauto|eauto]|intros _ _ H; congruence]].
    apply find_some in Hp. destruct Hp as [_ Hp]. apply Z.eqb_eq in Hp. rewrite Hp.
    destruct (filter _ (db_mock_data_items w)) as [|it0 its] eqn:Hitems; cbn;
      [split; [split; [eauto|eauto]|eauto]|].
    rewrite F2. cbn.
    destruct (find _ (db_json_schemas w)) as [master_schema|]; cbn;
      [|split; [split; [eauto|eauto 6]|discriminate]].
    split; [|discriminate]. split.
    + intros (code & detail & H).
      destruct (db_fault E (S (S (S (db_ops w))))); [discriminate|]. cbn in H.
      destruct (db_fault E (S (S (S (S (db_ops w)))))); [discriminate|]. cbn in H.
      destruct (db_fault E (S (S (S (S (S (db_ops w))))))); discriminate.
    + intros [H|[H|[H|H]]]; discriminate.
Qed.

(** X8. A successful creation appends one run to the run table and changes
    nothing else: the run is queued, has no start or completion time,
    carries the models of the request and an id that no earlier run has,
    so that unique ids stay unique and the run is found under its id. *)
Theorem create_queues_fresh_run test_run_create w run task w1 :
  create_and_initiate_test_run E test_run_create w = (Returned (run, task), w1) ->
  ~ In (db_models.id run) (map db_models.id (db_test_runs w)) /\
  db_test_runs w1 = db_test_runs w ++ [run] /\
  found_run (db_models.id run) w1 = Some run /\
  db_models.status run = "queued"%string /\
  db_models.started_at run = None /\ db_models.completed_at run = None /\
  db_models.target_llm_model_ids run = pydantic_models.target_llm_model_ids test_run_create /\
  db_master_prompts w1 = db_master_prompts w /\
  db_mock_data_prompts w1 = db_mock_data_prompts w /\
  db_mock_data_items w1 = db_mock_data_items w /\
  db_json_schemas w1 = db_json_schemas w /\
  db_test_results w1 = db_test_results w /\
  llm_trace w1 = llm_trace w /\
  (NoDup (map db_models.id (db_test_runs w)) ->
   NoDup (map db_models.id (db_test_runs w1))).
Proof.
  intros H. destruct (create_returns _ _ _ _ _ H)
    as (mp & sch & Hmp & Hsch & Hrun & Htask & Hw1 & Hitems).
  assert (Hfresh : ~ In (db_models.id run) (map db_models.id (db_test_runs w))).
  { intros Hin. apply next_id_fresh in Hin. rewrite Hrun in Hin. cbn in Hin. lia. }
  rewrite Hw1. cbn. splits; try reflexivity; try (rewrite Hrun; reflexivity).
  - exact Hfresh.
  - unfold found_run. cbn. apply find_app_last.
    + intros y Hy. apply Z.eqb_neq. intros Heq. apply Hfresh. rewrite <- Heq.
      apply in_map. exact Hy.
    + apply Z.eqb_refl.
  - intros Hnd. rewrite map_app. cbn.
    apply NoDup_app; [exact Hnd|constructor; [intros []|constructor]|].
    intros x Hx [<-|[]]. exact (Hfresh Hx).
Qed.

End FurtherRuns.

Section FurtherRunsFacts.

Variable E : Env.

Lemma fresh_run_facts test_run_create w run task w1 :
  create_and_initiate_test_run E test_run_create w = (Returned (run, task), w1) ->
  (forall x, In x (map db_models.id (db_test_runs w)) -> (x < db_models.id run)%Z) /\
  db_test_runs w1 = db_test_runs w ++ [run] /\
  found_run (db_models.id run) w1 = Some run /\
  db_test_results w1 = db_test_results w.
Proof.
  intros H. destruct (create_returns E _ _ _ _ _ H)
    as (mp & sch & Hmp & Hsch & Hrun & Htask & Hw1 & Hitems).
  assert (Hfresh : forall x, In x (map db_models.id (db_test_runs w)) ->
                             (x < db_models.id run)%Z).
  { intros x Hin. apply next_id_fresh in Hin. rewrite Hrun. exact Hin. }
  rewrite Hw1. cbn. splits; try reflexivity.
  - exact Hfresh.
  - unfold found_run. cbn. apply find_app_last.
    + intros y Hy. apply Z.eqb_neq. intros Heq.
      specialize (Hfresh (db_models.id y) (in_map _ _ _ Hy)). lia.
    + apply Z.eqb_refl.
Qed.

End FurtherRunsFacts.

Section Ordering.

Context {A : Type} (leb : A -> A -> bool).

Hypothesis leb_total : forall a b, leb a b = true \/ leb b a = true.

Lemma insert_by_perm x l : Permutation (insert_by leb x l) (x :: l).
Proof.
  induction l as [|y l IH]; cbn; [reflexivity|].
  destruct (leb x y); [reflexivity|].
  rewrite IH. apply perm_swap.
Qed.

Lemma order_by_perm l : Permutation (order_by leb l) l.
Proof.
  induction l as [|x l IH]; cbn; [constructor|].
  rewrite insert_by_perm. constructor. exact IH.
Qed.

Lemma insert_by_hd x l a :
  HdRel (fun a b => leb a b = true) a l -> leb a x = true ->
  HdRel (fun a b => leb a b = true) a (insert_by leb x l).
Proof.
  intros Hl Hx. destruct l as [|y l]; cbn; [constructor; exact Hx|].
  destruct (leb x y); constructor; [exact Hx|].
  inversion Hl; assumption.
Qed.

Lemma insert_by_sorted x l :
  Sorted (fun a b => leb a b = true) l ->
  Sorted (fun a b => leb a b = true) (insert_by leb x l).
Proof.
  induction 1 as [|y l Hs IH Hhd]; cbn; [repeat constructor|].
  destruct (leb x y) eqn:Hxy.
  - constructor; [constructor; assumption|constructor; exact Hxy].
  - constructor; [exact IH|]. apply insert_by_hd; [exact Hhd|].
    destruct (leb_total x y) as [H|H]; [congruence|exact H].
Qed.

Lemma order_by_sorted l : Sorted (fun a b => leb a b = true) (order_by leb l).
Proof.
  induction l as [|x l IH]; cbn; [constructor|]. apply insert_by_sorted, IH.
Qed.

(** Rows that sort after everything already there come out first. *)
Lemma order_by_app_last x l :
  (forall y, In y l -> leb y x = false) ->
  order_by leb (l ++ [x]) = x :: order_by leb l.
Proof.
  induction l as [|y l IH]; intros H; cbn; [reflexivity|].
  change (fold_right (insert_by leb) [] (l ++ [x])) with (order_by leb (l ++ [x])).
  rewrite IH by (intros z Hz; apply H; right; exact Hz).
  cbn. rewrite (H y (or_introl eq_refl)). reflexivity.
Qed.

End Ordering.

Lemma Sorted_skipn {A} (R : A -> A -> Prop) n : forall l,
  Sorted R l -> Sorted R (skipn n l).
Proof.
  induction n as [|n IH]; intros l H; cbn; [exact H|].
  destruct l as [|x l]; [constructor|]. apply IH. inversion H; assumption.
Qed.

Lemma Sorted_firstn {A} (R : A -> A -> Prop) n : forall l,
  Sorted R l -> Sorted R (firstn n l).
Proof.
  induction n as [|n IH]; intros l H; cbn; [constructor|].
  destruct l as [|x l]; [constructor|]. inversion H; subst.
  constructor; [apply IH; assumption|].
  destruct n; cbn; [constructor|].
  destruct l; [constructor|]. constructor. inversion H3; assumption.
Qed.

Lemma offset_limit_sorted {A} (R : A -> A -> Prop) skip limit (l : list A) :
  Sorted R l -> Sorted R (offset_limit skip limit l).
Proof.
  intros H. unfold offset_limit. destruct (limit <? 0)%Z.
  - apply Sorted_skipn, H.
  - apply Sorted_firstn, Sorted_skipn, H.
Qed.

Lemma In_skipn {A} (x : A) n : forall l, In x (skipn n l) -> In x l.
Proof.
  induction n as [|n IH]; intros l H; cbn in H; [exact H|].
  destruct l; [contradiction|]. right. apply IH, H.
Qed.

Lemma offset_limit_In {A} skip limit (l : list A) x :
  In x (offset_limit skip limit l) -> In x l.
Proof.
  unfold offset_limit. destruct (limit <? 0)%Z; intros H.
  - eapply In_skipn, H.
  - eapply In_skipn, In_firstn, H.
Qed.

Lemma offset_limit_length {A} skip limit (l : list A) :
  (0 <= limit)%Z -> length (offset_limit skip limit l) <= Z.to_nat limit.
Proof.
  intros H. unfold offset_limit.
  destruct (limit <? 0)%Z eqn:Hl; [apply Z.ltb_lt in Hl; lia|].
  rewrite length_firstn. lia.
Qed.

Lemma offset_limit_all {A} skip limit (l : list A) :
  (skip <= 0)%Z -> (limit < 0)%Z -> offset_limit skip limit l = l.
Proof.
  intros Hs Hl. unfold offset_limit. apply Z.ltb_lt in Hl. rewrite Hl.
  replace (Z.to_nat skip) with 0 by lia. reflexivity.
Qed.

(** A page and the rest of the listing make up the listing. *)
Lemma offset_limit_pages {A} (k : Z) (l : list A) :
  (0 <= k)%Z ->
  offset_limit 0 k l ++ offset_limit k (-1) l = l.
Proof.
  intros Hk. unfold offset_limit.
  destruct (k <? 0)%Z eqn:H; [apply Z.ltb_lt in H; lia|].
  cbn. apply firstn_skipn.
Qed.

Section FurtherListing.

Variable E : Env.

Ltac run_list :=
  unfold list_test_runs, get_test_run, list_items_for_prompt,
    get_specific_mock_data_item, db_operation, bind, get, modify, ret, raise;
  cbn.

Lemma id_desc_total (a b : db_models.TestRun) :
  (db_models.id b <=? db_models.id a)%Z = true \/
  (db_models.id a <=? db_models.id b)%Z = true.
Proof. destruct (Z.le_ge_cases (db_models.id a) (db_models.id b)); [right|left]; apply Z.leb_le; lia. Qed.

Lemma map_tr_run w l : map tr_run (map (with_results w) l) = l.
Proof. rewrite map_map. cbn. apply map_id. Qed.

(** X9. With a working database [list_test_runs] returns a page of the
    stored runs in descending order of id: the unpaginated listing is a
    permutation of the run table, every page is the [offset]/[limit] cut
    of it and is no longer than a non-negative limit, and the first [k]
    runs followed by the rest make up the whole listing. *)
Theorem list_test_runs_newest_first skip limit w :
  db_fault E (db_ops w) = None ->
  exists page all,
    fst (list_test_runs E skip limit w) = Returned page /\
    fst (list_test_runs E 0 (-1) w) = Returned all /\
    Permutation (map tr_run all) (db_test_runs w) /\
    Sorted (fun a b => (db_models.id b <= db_models.id a)%Z) (map tr_run all) /\
    page = offset_limit skip limit all /\
    ((0 <= limit)%Z -> length page <= Z.to_nat limit) /\
    (forall k first rest,
       (0 <= k)%Z ->
       fst (list_test_runs E 0 k w) = Returned first ->
       fst (list_test_runs E k (-1) w) = Returned rest ->
       first ++ rest = all).
Proof.
  intros F0. run_list. rewrite F0. cbn.
  do 2 eexists. split; [reflexivity|]. split; [reflexivity|].
  splits.
  - rewrite map_tr_run. apply order_by_perm.
  - rewrite map_tr_run.
    eapply Sorted_ind with (P := fun l => Sorted _ l); [constructor| |apply order_by_sorted, id_desc_total].
    intros a l _ IH Hhd. constructor; [exact IH|].
    destruct Hhd; constructor. apply Z.leb_le. assumption.
  - unfold offset_limit. destruct (limit <? 0)%Z.
    + rewrite skipn_map. reflexivity.
    + rewrite skipn_map, firstn_map. reflexivity.
  - intros H. rewrite length_map. apply offset_limit_length, H.
  - intros k first rest Hk H1 H2. inversion H1; inversion H2; subst.
    rewrite <- map_app. f_equal. apply offset_limit_pages, Hk.
Qed.

End FurtherListing.

Section FurtherFetch.

Variable E : Env.

Ltac run_list :=
  unfold list_test_runs, get_test_run, list_items_for_prompt,
    get_specific_mock_data_item, db_operation, bind, get, modify, ret, raise;
  cbn -[order_by offset_limit].

Lemma get_test_run_found run_id w obj :
  db_fault E (db_ops w) = None -> found_run run_id w = Some obj ->
  get_test_run E run_id w = (Returned (with_results w obj), set_db_ops (S (db_ops w)) w).
Proof.
  unfold found_run. intros F0 Hf. run_list. rewrite F0. cbn -[order_by offset_limit]. rewrite Hf. reflexivity.
Qed.

(** X10. With a working database [get_test_run] changes no table; it
    answers 404 exactly when no run has the id, and otherwise returns the
    stored run of that id together with results that all belong to that
    run. *)
Theorem get_test_run_finds_stored_run run_id w :
  db_fault E (db_ops w) = None ->
  let r := get_test_run E run_id w in
  same_tables (set_db_ops (S (db_ops w)) w) (snd r) /\
  (forall resp, fst r = Returned resp ->
     found_run run_id w = Some (tr_run resp) /\ db_models.id (tr_run resp) = run_id /\
     In (tr_run resp) (db_test_runs w) /\
     Forall (fun x => db_models.test_run_id x = run_id) (tr_results resp)) /\
  (found_run run_id w = None <->
   fst r = Raised (HTTPException 404
                     ("TestRun with ID " +++ string_of_Z run_id +++ " not found."))) /\
  (forall obj, found_run run_id w = Some obj -> fst r = Returned (with_results w obj)).
Proof.
  intros F0 r. subst r. unfold found_run. run_list. rewrite F0. cbn -[order_by offset_limit].
  destruct (find _ (db_test_runs w)) as [obj|] eqn:Hf; cbn.
  - apply find_some in Hf. destruct Hf as [Hin Hid]. apply Z.eqb_eq in Hid.
    splits; try (unfold same_tables; cbn; auto 10; fail).
    + intros resp H. inversion H; subst. cbn. splits; auto.
      apply Forall_forall. intros x Hx. apply filter_In in Hx.
      destruct Hx as [_ Hx]. apply Z.eqb_eq in Hx. exact Hx.
    + split; discriminate.
    + intros obj' H. inversion H. reflexivity.
  - splits; try (unfold same_tables; cbn; auto 10; fail).
    + discriminate.
    + split; reflexivity.
    + discriminate.
Qed.

(** X11. A run that has just been created is returned by [get_test_run]
    under its id and is the first entry of [list_test_runs], for every
    positive limit; it has no results when no stored result carries its
    id. *)
Theorem created_run_is_listed_first test_run_create w run task w1 :
  create_and_initiate_test_run E test_run_create w = (Returned (run, task), w1) ->
  db_fault E (db_ops w1) = None ->
  fst (get_test_run E (db_models.id run) w1) = Returned (with_results w1 run) /\
  fst (list_test_runs E 0 1 w1) = Returned [with_results w1 run] /\
  (forall limit, exists older,
     fst (list_test_runs E 0 (Z.pos limit) w1) = Returned (with_results w1 run :: older)) /\
  tr_run (with_results w1 run) = run /\
  (Forall (fun x => db_models.test_run_id x <> db_models.id run) (db_test_results w) ->
   tr_results (with_results w1 run) = []).
Proof.
  intros H F.
  destruct (fresh_run_facts E _ _ _ _ _ H) as (Hfresh & Hruns & Hfound & Hres).
  assert (Hsorted :
    order_by (fun a b => (db_models.id b <=? db_models.id a)%Z) (db_test_runs w1)
    = run :: order_by (fun a b => (db_models.id b <=? db_models.id a)%Z) (db_test_runs w)).
  { rewrite Hruns. apply order_by_app_last. intros y Hy. apply Z.leb_gt.
    apply Hfresh. apply in_map. exact Hy. }
  splits.
  - rewrite (get_test_run_found _ _ run F Hfound). reflexivity.
  - run_list. rewrite F. cbn -[order_by offset_limit]. rewrite Hsorted. reflexivity.
  - intros limit. run_list. rewrite F. cbn -[order_by offset_limit]. rewrite Hsorted.
    unfold offset_limit. cbn [Z.to_nat skipn Z.ltb Z.compare].
    destruct (Pos2Nat.is_succ limit) as (n & ->). cbn. eexists. reflexivity.
  - reflexivity.
  - intros Hno. cbn. rewrite Hres. clear Hres.
    induction Hno as [|x l Hx _ IH]; [reflexivity|]. cbn.
    destruct (Z.eqb_spec (db_models.test_run_id x) (db_models.id run)); [contradiction|].
    exact IH.
Qed.

End FurtherFetch.

Section FurtherItems.

Variable E : Env.

Hypothesis db_ok : forall n, db_fault E n = None.

Ltac run_items :=
  unfold update_specific_mock_data_item, delete_specific_mock_data_item,
    manually_add_item_to_prompt_set, list_items_for_prompt,
    get_specific_mock_data_item, db_operation, bind, get, modify, ret, raise;
  cbn -[order_by offset_limit]; repeat (rewrite db_ok; cbn -[order_by offset_limit]).

Lemma find_item_updated i updated l :
  db_models.item_id updated = i ->
  find (fun it => (db_models.item_id it =? i)%Z)
    (map (fun it => if (db_models.item_id it =? i)%Z then updated else it) l)
  = match find (fun it => (db_models.item_id it =? i)%Z) l with
    | Some _ => Some updated
    | None => None
    end.
Proof.
  intros Hid. induction l as [|x l IH]; cbn; [reflexivity|].
  destruct (Z.eqb_spec (db_models.item_id x) i) as [Hx|Hx].
  - rewrite Hid, Z.eqb_refl. reflexivity.
  - apply Z.eqb_neq in Hx. rewrite Hx. exact IH.
Qed.

Lemma find_item_other i j updated l :
  db_models.item_id updated = i -> j <> i ->
  find (fun it => (db_models.item_id it =? j)%Z)
    (map (fun it => if (db_models.item_id it =? i)%Z then updated else it) l)
  = find (fun it => (db_models.item_id it =? j)%Z) l.
Proof.
  intros Hid Hj. induction l as [|x l IH]; cbn; [reflexivity|].
  destruct (Z.eqb_spec (db_models.item_id x) i) as [Hx|Hx].
  - rewrite Hid, Hx. destruct (Z.eqb_spec i j); [congruence|]. exact IH.
  - destruct (db_models.item_id x =? j)%Z; [reflexivity|exact IH].
Qed.

Lemma find_item_deleted i l :
  find (fun it => (db_models.item_id it =? i)%Z)
    (filter (fun it => negb (db_models.item_id it =? i)%Z) l) = None.
Proof.
  induction l as [|x l IH]; cbn; [reflexivity|].
  destruct (db_models.item_id x =? i)%Z eqn:Hx; cbn; [exact IH|].
  rewrite Hx. exact IH.
Qed.

Lemma find_item_kept i j l :
  j <> i ->
  find (fun it => (db_models.item_id it =? j)%Z)
    (filter (fun it => negb (db_models.item_id it =? i)%Z) l)
  = find (fun it => (db_models.item_id it =? j)%Z) l.
Proof.
  intros Hj. induction l as [|x l IH]; cbn; [reflexivity|].
  destruct (Z.eqb_spec (db_models.item_id x) i) as [Hx|Hx]; cbn.
  - rewrite Hx. destruct (Z.eqb_spec i j); [congruence|]. exact IH.
  - destruct (db_models.item_id x =? j)%Z; [reflexivity|exact IH].
Qed.

Lemma get_item_outcome i w :
  fst (get_specific_mock_data_item E i w) =
  match find (fun it => (db_models.item_id it =? i)%Z) (db_mock_data_items w) with
  | Some item => Returned item
  | None => Raised (HTTPException 404
                      ("MockDataItem with ID " +++ string_of_Z i +++ " not found."))
  end.
Proof.
  run_items. destruct (find _ (db_mock_data_items w)); reflexivity.
Qed.

Lemma update_item_outcome i c w :
  update_specific_mock_data_item E i c w =
  match find (fun it => (db_models.item_id it =? i)%Z) (db_mock_data_items w) with
  | Some item =>
      (Returned (db_models.with_item_content c item),
       set_db_ops (3 + db_ops w)
         (set_mock_data_items
            (map (fun it => if (db_models.item_id it =? i)%Z
                            then db_models.with_item_content c item else it)
                 (db_mock_data_items w)) w))
  | None =>
      (Raised (HTTPException 404
                 ("MockDataItem with ID " +++ string_of_Z i +++ " not found.")),
       set_db_ops (1 + db_ops w) w)
  end.
Proof.
  run_items. destruct (find _ (db_mock_data_items w)); run_items; reflexivity.
Qed.

Lemma delete_item_outcome i w :
  delete_specific_mock_data_item E i w =
  match find (fun it => (db_models.item_id it =? i)%Z) (db_mock_data_items w) with
  | Some item =>
      (Returned tt,
       set_mock_data_items
         (filter (fun it => negb (db_models.item_id it =? i)%Z) (db_mock_data_items w))
         (set_db_ops (2 + db_ops w) w))
  | None =>
      (Raised (HTTPException 404
                 ("MockDataItem with ID " +++ string_of_Z i +++ " not found.")),
       set_db_ops (1 + db_ops w) w)
  end.
Proof.
  run_items. destruct (find _ (db_mock_data_items w)); run_items; reflexivity.
Qed.

(** X12. With a working database, updating a mock item that exists returns
    the item with the new content and the same id and input set, and
    reading the item afterwards returns just that; every other item reads
    as before, the ids of the table are unchanged, and updating an item
    that does not exist raises the 404 of the read and changes no item. *)
Theorem updated_item_is_read_back item_id new_content w :
  let r := update_specific_mock_data_item E item_id new_content w in
  (forall item, fst (get_specific_mock_data_item E item_id w) = Returned item ->
     exists updated,
       fst r = Returned updated /\
       fst (get_specific_mock_data_item E item_id (snd r)) = Returned updated /\
       db_models.item_content updated = new_content /\
       db_models.item_id updated = item_id /\
       db_models.prompt_id updated = db_models.prompt_id item) /\
  (forall e, fst (get_specific_mock_data_item E item_id w) = Raised e ->
     fst r = Raised e /\ db_mock_data_items (snd r) = db_mock_data_items w) /\
  (forall other, other <> item_id ->
     fst (get_specific_mock_data_item E other (snd r))
     = fst (get_specific_mock_data_item E other w)) /\
  map db_models.item_id (db_mock_data_items (snd r))
  = map db_models.item_id (db_mock_data_items w).
Proof.
  intros r. subst r. rewrite update_item_outcome.
  setoid_rewrite get_item_outcome.
  destruct (find _ (db_mock_data_items w)) as [item|] eqn:Hf; cbn [fst snd].
  - pose proof Hf as Hf'. apply find_some in Hf'. destruct Hf' as [_ Hid].
    apply Z.eqb_eq in Hid. cbn [db_mock_data_items set_db_ops set_mock_data_items].
    splits.
    + intros item' H. inversion H; subst item'.
      eexists. split; [reflexivity|].
      rewrite find_item_updated by exact Hid. rewrite Hf.
      splits; try reflexivity. exact Hid.
    + discriminate.
    + intros other Ho. rewrite find_item_other; [reflexivity|exact Hid|exact Ho].
    + rewrite map_map. apply map_ext_in. intros x Hx.
      destruct (Z.eqb_spec (db_models.item_id x) item_id); [|reflexivity].
      cbn. congruence.
  - cbn [db_mock_data_items set_db_ops]. splits.
    + discriminate.
    + intros e H. inversion H. split; reflexivity.
    + reflexivity.
    + reflexivity.
Qed.

(** X13. With a working database, deleting a mock item that exists makes a
    later read of it answer 404 and removes its id from the table, while
    every other item stays and reads as before; deleting an item that does
    not exist raises the 404 of the read and changes no item. *)
Theorem deleted_item_is_gone item_id w :
  let r := delete_specific_mock_data_item E item_id w in
  (forall item, fst (get_specific_mock_data_item E item_id w) = Returned item ->
     fst r = Returned tt /\
     fst (get_specific_mock_data_item E item_id (snd r))
     = Raised (HTTPException 404
                 ("MockDataItem with ID " +++ string_of_Z item_id +++ " not found.")) /\
     ~ In item_id (map db_models.item_id (db_mock_data_items (snd r)))) /\
  (forall e, fst (get_specific_mock_data_item E item_id w) = Raised e ->
     fst r = Raised e /\ db_mock_data_items (snd r) = db_mock_data_items w) /\
  (forall other, other <> item_id ->
     fst (get_specific_mock_data_item E other (snd r))
     = fst (get_specific_mock_data_item E other w)) /\
  (forall it, In it (db_mock_data_items (snd r)) <->
              In it (db_mock_data_items w) /\ db_models.item_id it <> item_id).
Proof.
  intros r. subst r. rewrite delete_item_outcome.
  setoid_rewrite get_item_outcome.
  destruct (find _ (db_mock_data_items w)) as [item|] eqn:Hf; cbn [fst snd];
    cbn [db_mock_data_items set_db_ops set_mock_data_items].
  - splits.
    + intros item' _. split; [reflexivity|].
      rewrite find_item_deleted. split; [reflexivity|].
      intros Hin. apply in_map_iff in Hin. destruct Hin as (x & Hx & Hin).
      apply filter_In in Hin. destruct Hin as [_ Hin].
      apply Z.eqb_eq in Hx. rewrite Hx in Hin. discriminate.
    + discriminate.
    + intros other Ho. rewrite find_item_kept by exact Ho. reflexivity.
    + intros it. rewrite filter_In. rewrite negb_true_iff, Z.eqb_neq. reflexivity.
  - splits.
    + discriminate.
    + intros e H. inversion H. split; reflexivity.
    + reflexivity.
    + intros it. split; [|tauto]. intros Hin. split; [exact Hin|].
      intros Hid. apply (find_none _ _ Hf) in Hin. apply Z.eqb_neq in Hin. contradiction.
Qed.

End FurtherItems.

Lemma insert_by_app_last {A} (leb : A -> A -> bool) y x l :
  leb y x = true -> insert_by leb y (l ++ [x]) = insert_by leb y l ++ [x].
Proof.
  intros H. induction l as [|z l IH]; cbn.
  - rewrite H. reflexivity.
  - destruct (leb y z); [reflexivity|]. rewrite IH. reflexivity.
Qed.

(** Rows that sort before a new row stay in front of it. *)
Lemma order_by_app_greatest {A} (leb : A -> A -> bool) x l :
  (forall y, In y l -> leb y x = true) ->
  order_by leb (l ++ [x]) = order_by leb l ++ [x].
Proof.
  induction l as [|y l IH]; intros H; cbn; [reflexivity|].
  change (fold_right (insert_by leb) [] (l ++ [x])) with (order_by leb (l ++ [x])).
  change (fold_right (insert_by leb) [] l) with (order_by leb l).
  rewrite IH by (intros z Hz; apply H; right; exact Hz).
  apply insert_by_app_last, H. left. reflexivity.
Qed.

Section FurtherItemSets.

Variable E : Env.

Hypothesis db_ok : forall n, db_fault E n = None.

Ltac run_items :=
  unfold update_specific_mock_data_item, delete_specific_mock_data_item,
    manually_add_item_to_prompt_set, list_items_for_prompt,
    get_specific_mock_data_item, db_operation, bind, get, modify, ret, raise;
  cbn -[order_by offset_limit]; repeat (rewrite db_ok; cbn -[order_by offset_limit]).

Lemma list_items_outcome prompt_id skip limit w :
  fst (list_items_for_prompt E prompt_id skip limit w) =
  match find (fun p => (db_models.mdp_id p =? prompt_id)%Z) (db_mock_data_prompts w) with
  | Some _ =>
      Returned
        (offset_limit skip limit
           (order_by (fun a b => (db_models.item_id a <=? db_models.item_id b)%Z)
              (filter (fun it => (db_models.prompt_id it =? prompt_id)%Z)
                      (db_mock_data_items w))))
  | None =>
      Raised (HTTPException 404
                ("MockDataPrompt with ID " +++ string_of_Z prompt_id +++ " not found."))
  end.
Proof.
  run_items. destruct (find _ (db_mock_data_prompts w)); run_items; reflexivity.
Qed.

Lemma add_item_outcome prompt_id content w :
  manually_add_item_to_prompt_set E prompt_id content w =
  match find (fun p => (db_models.mdp_id p =? prompt_id)%Z) (db_mock_data_prompts w) with
  | Some _ =>
      let db_item :=
        {| db_models.item_id := next_id (map db_models.item_id (db_mock_data_items w));
           db_models.prompt_id := prompt_id;
           db_models.item_content := content |} in
      (Returned db_item,
       set_db_ops (3 + db_ops w)
         (set_mock_data_items (db_mock_data_items w ++ [db_item]) w))
  | None =>
      (Raised (HTTPException 404
                 ("MockDataPrompt with ID " +++ string_of_Z prompt_id +++ " not found.")),
       set_db_ops (1 + db_ops w) w)
  end.
Proof.
  run_items. destruct (find _ (db_mock_data_prompts w)); run_items; reflexivity.
Qed.

Lemma item_id_asc_total (a b : db_models.MockDataItem) :
  (db_models.item_id a <=? db_models.item_id b)%Z = true \/
  (db_models.item_id b <=? db_models.item_id a)%Z = true.
Proof.
  destruct (Z.le_ge_cases (db_models.item_id a) (db_models.item_id b));
    [left|right]; apply Z.leb_le; lia.
Qed.

(** X14. With a working database, adding an item to an input set that
    exists appends one item with the given content, that input set and an
    id that no item had; the item is read back under its id and comes last
    in the listing of the input set, after the items listed before.  For a
    missing input set the route raises the 404 of the listing and changes
    no item. *)
Theorem added_item_is_stored prompt_id content w :
  let r := manually_add_item_to_prompt_set E prompt_id content w in
  (forall earlier,
     fst (list_items_for_prompt E prompt_id 0 (-1) w) = Returned earlier ->
     exists item,
       fst r = Returned item /\
       ~ In (db_models.item_id item) (map db_models.item_id (db_mock_data_items w)) /\
       db_models.item_content item = content /\
       db_models.prompt_id item = prompt_id /\
       db_mock_data_items (snd r) = db_mock_data_items w ++ [item] /\
       fst (get_specific_mock_data_item E (db_models.item_id item) (snd r))
       = Returned item /\
       fst (list_items_for_prompt E prompt_id 0 (-1) (snd r)) = Returned (earlier ++ [item])) /\
  (forall e,
     fst (list_items_for_prompt E prompt_id 0 (-1) w) = Raised e ->
     fst r = Raised e /\ db_mock_data_items (snd r) = db_mock_data_items w).
Proof.
  intros r. subst r. rewrite add_item_outcome.
  setoid_rewrite list_items_outcome. setoid_rewrite (get_item_outcome E db_ok).
  destruct (find _ (db_mock_data_prompts w)) as [p|] eqn:Hp; cbn [fst snd].
  - split; [|discriminate]. intros earlier H. inversion H as [He]. clear H.
    eexists. split; [reflexivity|].
    cbn [db_models.item_id db_models.item_content db_models.prompt_id
         db_mock_data_items db_mock_data_prompts set_db_ops set_mock_data_items].
    assert (Hfresh : forall y, In y (db_mock_data_items w) ->
              (db_models.item_id y < next_id (map db_models.item_id (db_mock_data_items w)))%Z).
    { intros y Hy. apply next_id_fresh, in_map, Hy. }
    splits; try reflexivity.
    + intros Hin. apply next_id_fresh in Hin. lia.
    + rewrite find_app_last; [reflexivity| |apply Z.eqb_refl].
      intros y Hy. apply Z.eqb_neq. specialize (Hfresh y Hy). lia.
    + rewrite Hp. f_equal. rewrite !offset_limit_all by lia.
      rewrite filter_app. cbn [filter db_models.prompt_id]. rewrite Z.eqb_refl.
      apply order_by_app_greatest. intros y Hy. apply filter_In in Hy.
      destruct Hy as [Hy _]. specialize (Hfresh y Hy). apply Z.leb_le.
      cbn [db_models.item_id]. lia.
  - split; [discriminate|]. intros e H. inversion H. split; reflexivity.
Qed.

(** X15. With a working database [list_items_for_prompt] returns items of
    the given input set only, in ascending order of id, at most [limit] of
    them for a non-negative limit and all of them without pagination; it
    raises exactly when the input set does not exist, and the first [k]
    items followed by the rest make up the whole listing. *)
Theorem list_items_sorted_by_id prompt_id skip limit w :
  let r := fst (list_items_for_prompt E prompt_id skip limit w) in
  (forall page, r = Returned page ->
     Sorted (fun a b => (db_models.item_id a <= db_models.item_id b)%Z) page /\
     (forall it, In it page ->
        In it (db_mock_data_items w) /\ db_models.prompt_id it = prompt_id) /\
     ((0 <= limit)%Z -> length page <= Z.to_nat limit) /\
     ((skip <= 0)%Z -> (limit < 0)%Z ->
      Permutation page
        (filter (fun it => (db_models.prompt_id it =? prompt_id)%Z)
                (db_mock_data_items w)))) /\
  ((exists e, r = Raised e) <->
   ~ In prompt_id (map db_models.mdp_id (db_mock_data_prompts w))) /\
  (forall k first rest all,
     (0 <= k)%Z ->
     fst (list_items_for_prompt E prompt_id 0 k w) = Returned first ->
     fst (list_items_for_prompt E prompt_id k (-1) w) = Returned rest ->
     fst (list_items_for_prompt E prompt_id 0 (-1) w) = Returned all ->
     first ++ rest = all).
Proof.
  intros r. subst r. setoid_rewrite list_items_outcome.
  destruct (find _ (db_mock_data_prompts w)) as [p|] eqn:Hp.
  - splits.
    + intros page H. inversion H. clear H. splits.
      * apply offset_limit_sorted.
        eapply Sorted_ind with (P := fun l => Sorted _ l);
          [constructor| |apply order_by_sorted, item_id_asc_total].
        intros a l _ IH Hhd. constructor; [exact IH|].
        destruct Hhd; constructor. apply Z.leb_le. assumption.
      * intros it Hin. apply offset_limit_In in Hin.
        apply (Permutation_in _ (order_by_perm _ _)) in Hin.
        apply filter_In in Hin. destruct Hin as [Hin Hid]. apply Z.eqb_eq in Hid. auto.
      * apply offset_limit_length.
      * intros Hs Hl. rewrite offset_limit_all by assumption. apply order_by_perm.
    + split.
      * intros (e & H). discriminate.
      * intros Hn. exfalso. apply Hn. apply find_some in Hp. destruct Hp as [Hin Hid].
        apply Z.eqb_eq in Hid. rewrite <- Hid. apply in_map, Hin.
    + intros k first rest all Hk H1 H2 H3. inversion H1; inversion H2; inversion H3.
      apply offset_limit_pages, Hk.
  - splits.
    + discriminate.
    + split; [|eauto]. intros _ Hin. apply in_map_iff in Hin.
      destruct Hin as (x & Hx & Hin). apply (find_none _ _ Hp) in Hin.
      apply Z.eqb_neq in Hin. contradiction.
    + discriminate.
Qed.

End FurtherItemSets.

Section FurtherValidation.

Variable E : Env.

Ltac run_validate :=
  unfold validate_object_against_schema, check_compliance, db_operation, on_world,
    zoom, elapse, try_except, bind, get, modify, ret, raise, lift_outcome;
  cbn.

Lemma validation_route_outcome schema_id json_object w :
  db_fault E (db_ops w) = None ->
  validate_object_against_schema E schema_id json_object w =
  (match find (fun sc => (db_models.schema_id sc =? schema_id)%Z) (db_json_schemas w) with
   | None =>
       Raised (HTTPException 404
                 ("JSON schema with ID " +++ string_of_Z schema_id +++ " not found."))
   | Some db_schema =>
       match db_models.schema_content db_schema with
       | JObject _ =>
           match validate E json_object (db_models.schema_content db_schema) with
           | Returned _ => Returned {| is_valid := true; errors := None |}
           | Raised (ValidationError m p v) =>
               Returned {| is_valid := false;
                           errors := Some [{| v_message := m; v_path := p;
                                              v_validator := v |}] |}
           | Raised (SchemaError m) =>
               Raised (HTTPException 500
                         ("The stored schema (ID: " +++ string_of_Z schema_id
                          +++ ") is invalid: " +++ m))
           | Raised e =>
               Raised (HTTPException 500
                         ("An unexpected error occurred during validation: " +++ str e))
           end
       | _ =>
           Raised (HTTPException 500
                     "Stored schema content is not in a valid format for validation.")
       end
   end, set_db_ops (S (db_ops w)) w).
Proof.
  intros F0. run_validate. rewrite F0. cbn.
  destruct (find _ (db_json_schemas w)) as [db_schema|]; [|reflexivity].
  destruct (db_models.schema_content db_schema); try reflexivity.
  run_validate. destruct (validate E json_object _) as [[]|e]; [reflexivity|].
  destruct e; reflexivity.
Qed.

(** X16. With a working database the validation route changes no table and
    raises nothing but [HTTPException], 404 exactly when the schema does
    not exist and 500 otherwise.  When it returns, the stored schema is an
    object, [is_valid] holds exactly when the checker accepts the object,
    and the errors are absent when valid and one error when not. *)
Theorem validation_route_verdict schema_id json_object w :
  db_fault E (db_ops w) = None ->
  let r := validate_object_against_schema E schema_id json_object w in
  snd r = set_db_ops (S (db_ops w)) w /\
  (forall e, fst r = Raised e ->
     exists code detail, e = HTTPException code detail /\
       (code = 404%Z <->
        ~ In schema_id (map db_models.schema_id (db_json_schemas w))) /\
       (code = 404%Z \/ code = 500%Z)) /\
  (forall resp, fst r = Returned resp ->
     (is_valid resp = true <-> errors resp = None) /\
     (is_valid resp = false <-> exists v, errors resp = Some [v]) /\
     exists db_schema members,
       find (fun sc => (db_models.schema_id sc =? schema_id)%Z) (db_json_schemas w)
       = Some db_schema /\
       db_models.schema_content db_schema = JObject members /\
       (is_valid resp = true <->
        validate E json_object (JObject members) = Returned tt)).
Proof.
  intros F0 r. subst r. rewrite validation_route_outcome by exact F0. cbn [fst snd].
  split; [reflexivity|].
  destruct (find _ (db_json_schemas w)) as [db_schema|] eqn:Hf.
  - assert (Hin : In schema_id (map db_models.schema_id (db_json_schemas w))).
    { apply find_some in Hf. destruct Hf as [Hin Hid]. apply Z.eqb_eq in Hid.
      rewrite <- Hid. apply in_map, Hin. }
    assert (H500 : forall detail e,
      @Raised SchemaValidationResponse (HTTPException 500 detail) = Raised e ->
      exists code detail, e = HTTPException code detail /\
       (code = 404%Z <->
        ~ In schema_id (map db_models.schema_id (db_json_schemas w))) /\
       (code = 404%Z \/ code = 500%Z)).
    { intros detail e H. inversion H. do 2 eexists. split; [reflexivity|].
      split; [|auto]. split; [discriminate|contradiction]. }
    destruct (db_models.schema_content db_schema) as [| | | | | |members] eqn:Hc;
      try (split; [apply H500|discriminate]).
    destruct (validate E json_object (JObject members)) as [[]|e] eqn:Hv.
    + split; [discriminate|]. intros resp H. inversion H. cbn. splits.
      * split; reflexivity.
      * split; [discriminate|]. intros (v & Hv'). discriminate.
      * exists db_schema, members. splits; auto. split; intros _; [exact Hv|reflexivity].
    + destruct e; try (split; [apply H500|discriminate]).
      split; [discriminate|]. intros resp H. inversion H. cbn. splits.
      * split; discriminate.
      * split; eauto.
      * exists db_schema, members. splits; auto.
        split; [discriminate|rewrite Hv; discriminate].
  - split; [|discriminate]. intros e H. inversion H. do 2 eexists.
    split; [reflexivity|]. split; [|auto]. split; [|reflexivity].
    intros _ Hin. apply in_map_iff in Hin. destruct Hin as (x & Hx & Hin).
    apply (find_none _ _ Hf) in Hin. apply Z.eqb_neq in Hin. contradiction.
Qed.

(** X17. For a stored schema that is an object, the validation route and
    the executor's compliance check agree when the checker accepts or
    rejects the object: valid with no error and [Pass], or invalid and
    [Fail] with the same single error.  When the checker fails in another
    way the route answers 500 while the executor records [Fail] with a
    [schema_error] entry; the executor's check never raises. *)
Theorem validation_route_and_executor schema_id json_object w db_schema members f :
  db_fault E (db_ops w) = None ->
  find (fun sc => (db_models.schema_id sc =? schema_id)%Z) (db_json_schemas w)
  = Some db_schema ->
  db_models.schema_content db_schema = JObject members ->
  validation_errors_list f = [] ->
  let route := fst (validate_object_against_schema E schema_id json_object w) in
  let executor := check_compliance E json_object (JObject members) f in
  fst executor = Returned tt /\
  match validate E json_object (JObject members) with
  | Returned _ =>
      route = Returned {| is_valid := true; errors := None |} /\
      schema_compliance_status (snd executor) = Some "Pass"%string /\
      validation_errors_list (snd executor) = []
  | Raised (ValidationError m p v) =>
      route = Returned {| is_valid := false;
                          errors := Some (validation_errors_list (snd executor)) |} /\
      schema_compliance_status (snd executor) = Some "Fail"%string /\
      validation_errors_list (snd executor)
      = [{| v_message := m; v_path := p; v_validator := v |}]
  | Raised e =>
      (exists detail, route = Raised (HTTPException 500 detail)) /\
      schema_compliance_status (snd executor) = Some "Fail"%string /\
      validation_errors_list (snd executor)
      = [{| v_message := str e; v_path := []; v_validator := "schema_error" |}]
  end.
Proof.
  intros F0 Hf Hc Hnil route executor. subst route executor.
  rewrite validation_route_outcome by exact F0. rewrite Hf, Hc. cbn [fst].
  run_validate.
  destruct (validate E json_object (JObject members)) as [[]|e]; cbn.
  - rewrite Hnil. auto.
  - destruct e; cbn; rewrite Hnil; cbn; splits; eauto.
Qed.

End FurtherValidation.

Section FurtherExecutor.

Variable E : Env.

#[local] Arguments Qplus : simpl never.
#[local] Arguments Qmult : simpl never.
#[local] Arguments Qminus : simpl never.

Ltac run_monad :=
  unfold guarded_case, validate_output, check_compliance, probe_response,
    call_llm_chat_completions, elapse, monotonic, on_world, zoom, try_except,
    bind, modify, get, ret, raise, lift_outcome;
  cbn.

Ltac leaf :=
  eexists; split; [reflexivity|]; cbn; splits;
  try reflexivity; try discriminate; eauto.

(** The locals that the guarded block leaves, from what the gateway, the
    parser and the checker answer. *)
Lemma guarded_case_locals mp it m sc w :
  exists f,
    guarded_case E mp it m sc (new_case_frame w) = (Returned tt, f) /\
    db_ops (cf_world f) = db_ops w /\
    db_test_results (cf_world f) = db_test_results w /\
    match reply_content
            (requests_post E (length (llm_trace w)) m (prompt_messages E mp it) (1 # 2) 1024)
    with
    | None =>
        error_message_str f <> None /\ parse_status f = None /\
        schema_compliance_status f = None /\ validation_errors_list f = []
    | Some raw =>
        llm_raw_output f = Some (clean_markdown raw) /\
        match json_loads E (clean_markdown raw) with
        | Returned v =>
            parse_status f = Some true /\ error_message_str f = None /\
            match validate E v sc with
            | Returned _ =>
                schema_compliance_status f = Some "Pass"%string /\
                validation_errors_list f = []
            | Raised _ =>
                schema_compliance_status f = Some "Fail"%string /\
                exists v, validation_errors_list f = [v]
            end
        | Raised (JSONDecodeError _) =>
            parse_status f = Some false /\ error_message_str f = None /\
            schema_compliance_status f = Some "N/A (not valid JSON)"%string /\
            validation_errors_list f = []
        | Raised e =>
            error_message_str f
            = Some ((match e with
                     | LLMServiceError _ _ => "LLM Service Error: "
                     | _ => "Unexpected error during test case: "
                     end) +++ str e) /\
            parse_status f = None /\ schema_compliance_status f = None /\
            validation_errors_list f = []
        end
    end.
Proof.
  unfold reply_content. run_monad.
  destruct (requests_post E _ _ _ _ _) as [r|e].
  - destruct r as [[|c cs]|err]; run_monad.
    + leaf.
    + destruct (message c) as [[[[|ch raw]|]]|]; run_monad.
      * leaf.
      * destruct (json_loads E _) as [v|e]; run_monad.
        -- destruct (validate E v sc) as [[]|e]; run_monad.
           ++ leaf.
           ++ destruct e; run_monad; leaf.
        -- destruct e; run_monad; leaf.
      * leaf.
      * leaf.
    + leaf.
  - destruct e as [| ? [[]|] | | | | | | | ]; run_monad; leaf.
Qed.

(** X18. When the write succeeds, the row that [run_single_test_case]
    stores is determined by the gateway's text, the parser and the
    checker: no usable text gives an error message and no verdict; a text
    that does not parse gives parse status false and [N/A (not valid
    JSON)]; a text that parses gives parse status true and [Pass] without
    errors or [Fail] with one error; any other parser failure gives an
    error message and no verdict.  The stored raw output is the text with
    its fence removed. *)
Theorem executor_row_follows_oracles id mp it m sc w :
  db_fault E (db_ops w) = None ->
  exists row,
    db_test_results (snd (run_single_test_case E id mp it m sc w))
    = db_test_results w ++ [row] /\
    match reply_content
            (requests_post E (length (llm_trace w)) m (prompt_messages E mp it) (1 # 2) 1024)
    with
    | None =>
        db_models.result_error_message row <> None /\
        db_models.parse_status row = None /\
        db_models.schema_compliance_status row = None /\
        db_models.validation_errors row = None
    | Some raw =>
        db_models.llm_raw_output row = Some (clean_markdown raw) /\
        match json_loads E (clean_markdown raw) with
        | Returned v =>
            db_models.parse_status row = Some true /\
            db_models.result_error_message row = None /\
            match validate E v sc with
            | Returned _ =>
                db_models.schema_compliance_status row = Some "Pass"%string /\
                db_models.validation_errors row = None
            | Raised _ =>
                db_models.schema_compliance_status row = Some "Fail"%string /\
                exists v, db_models.validation_errors row = Some [v]
            end
        | Raised (JSONDecodeError _) =>
            db_models.parse_status row = Some false /\
            db_models.result_error_message row = None /\
            db_models.schema_compliance_status row = Some "N/A (not valid JSON)"%string /\
            db_models.validation_errors row = None
        | Raised e =>
            db_models.result_error_message row
            = Some ((match e with
                     | LLMServiceError _ _ => "LLM Service Error: "
                     | _ => "Unexpected error during test case: "
                     end) +++ str e) /\
            db_models.parse_status row = None /\
            db_models.schema_compliance_status row = None /\
            db_models.validation_errors row = None
        end
    end.
Proof.
  intros F0.
  destruct (guarded_case_locals mp it m sc w) as (f & Hf & Hops & Hres & Hloc).
  rewrite (run_single_test_case_unfold E id mp it m sc w f Hf).
  rewrite add_test_result_ok by (rewrite Hops; exact F0).
  eexists. split; [cbn; rewrite Hres; reflexivity|].
  cbn [case_row db_models.result_error_message db_models.parse_status
       db_models.schema_compliance_status db_models.validation_errors
       db_models.llm_raw_output].
  destruct (reply_content _) as [raw|].
  - destruct Hloc as [Hraw Hloc]. split; [exact Hraw|].
    destruct (json_loads E (clean_markdown raw)) as [v|e].
    + destruct Hloc as (Hp & He & Hloc). splits; auto.
      destruct (validate E v sc) as [[]|e].
      * destruct Hloc as [Hs Hv]. rewrite Hv. auto.
      * destruct Hloc as [Hs (v0 & Hv)]. rewrite Hv. eauto.
    + destruct e; destruct Hloc as (H1 & H2 & H3 & H4); rewrite H4; auto.
  - destruct Hloc as (H1 & H2 & H3 & H4). rewrite H4. auto.
Qed.

(** What the guarded block notes when the gateway gives no usable text. *)
Lemma guarded_case_failure mp it m sc w :
  let reply :=
    requests_post E (length (llm_trace w)) m (prompt_messages E mp it) (1 # 2) 1024 in
  reply_content reply = None ->
  exists f,
    guarded_case E mp it m sc (new_case_frame w) = (Returned tt, f) /\
    db_ops (cf_world f) = db_ops w /\
    db_test_results (cf_world f) = db_test_results w /\
    parse_status f = None /\ schema_compliance_status f = None /\
    error_message_str f =
    Some match reply with
         | Raised (RequestException _ (Some (code, text))) =>
             "LLM Service Error: LLM service error: " +++ string_of_Z code
             +++ " - " +++ text
         | Raised (RequestException msg None) =>
             "LLM Service Error: Could not connect to LLM service: " +++ msg
         | Raised e =>
             "LLM Service Error: An unexpected error occurred during chat completion: "
             +++ str e
         | Returned (NotAnEnvelope err) => "Unexpected error during test case: " +++ err
         | Returned (Envelope _) => "LLM did not return any content."%string
         end.
Proof.
  unfold reply_content. run_monad.
  destruct (requests_post E _ _ _ _ _) as [r|e].
  - destruct r as [[|c cs]|err]; run_monad.
    + intros _. leaf.
    + destruct (message c) as [[[[|ch raw]|]]|]; run_monad; try discriminate;
        intros _; leaf.
    + intros _. leaf.
  - intros _. destruct e as [| ? [[]|] | | | | | | | ]; run_monad; leaf.
Qed.

(** X19. When the gateway fails or answers without usable text, the
    executor does not raise: with a working write it stores one row for
    the pairing, without parse status and without compliance status, whose
    error message says what happened (the gateway's status and text, the
    unreachable gateway, the malformed answer, or the missing content). *)
Theorem gateway_failure_is_recorded id mp it m sc w :
  let reply :=
    requests_post E (length (llm_trace w)) m (prompt_messages E mp it) (1 # 2) 1024 in
  db_fault E (db_ops w) = None ->
  reply_content reply = None ->
  let r := run_single_test_case E id mp it m sc w in
  fst r = Returned tt /\
  exists row,
    db_test_results (snd r) = db_test_results w ++ [row] /\
    db_models.test_run_id row = id /\
    db_models.target_llm_model_id row = m /\
    db_models.parse_status row = None /\
    db_models.schema_compliance_status row = None /\
    db_models.result_error_message row =
    Some match reply with
         | Raised (RequestException _ (Some (code, text))) =>
             "LLM Service Error: LLM service error: " +++ string_of_Z code
             +++ " - " +++ text
         | Raised (RequestException msg None) =>
             "LLM Service Error: Could not connect to LLM service: " +++ msg
         | Raised e =>
             "LLM Service Error: An unexpected error occurred during chat completion: "
             +++ str e
         | Returned (NotAnEnvelope err) => "Unexpected error during test case: " +++ err
         | Returned (Envelope _) => "LLM did not return any content."%string
         end.
Proof.
  intros reply F0 Hnone r. subst r.
  destruct (guarded_case_failure mp it m sc w Hnone)
    as (f & Hf & Hops & Hres & Hp & Hs & He).
  rewrite (run_single_test_case_unfold E id mp it m sc w f Hf).
  rewrite add_test_result_ok by (rewrite Hops; exact F0).
  split; [reflexivity|]. eexists. split; [cbn; rewrite Hres; reflexivity|].
  cbn. splits; auto.
Qed.

End FurtherExecutor.

Lemma round_half_even_bounds (q : Q) (n : Z) :
  (0 <= q)%Q -> (q <= inject_Z n)%Q ->
  (0 <= Py.round_half_even q <= n)%Z.
Proof.
  intros H0 Hn. unfold Py.round_half_even.
  pose proof (Qfloor_le q) as Hfl. pose proof (Qlt_floor q) as Hfu.
  assert (Hf0 : (0 <= Qfloor q)%Z).
  { change 0%Z with (Qfloor 0). apply Qfloor_resp_le, H0. }
  assert (Hfn : (Qfloor q <= n)%Z).
  { rewrite Zle_Qle. eapply Qle_trans; [exact Hfl|exact Hn]. }
  assert (Hup : ~ (q - inject_Z (Qfloor q) < 1 # 2)%Q -> (Qfloor q + 1 <= n)%Z).
  { intros Hge. apply Qnot_lt_le in Hge.
    destruct (Z.eq_dec (Qfloor q) n) as [Heq|Hne]; [|lia].
    exfalso. rewrite Heq in Hge.
    assert (H : (q - inject_Z n <= 0)%Q).
    { unfold Qminus. rewrite <- (Qplus_opp_r (inject_Z n)).
      apply Qplus_le_l. exact Hn. }
    assert (Hc : (1 # 2 <= 0)%Q) by (eapply Qle_trans; eassumption).
    unfold Qle in Hc. cbn in Hc. lia. }
  destruct (q - inject_Z (Qfloor q) ?= 1 # 2)%Q eqn:Hc.
  - assert (Hge : ~ (q - inject_Z (Qfloor q) < 1 # 2)%Q).
    { intros Hlt. apply -> Qlt_alt in Hlt. rewrite Hc in Hlt. discriminate. }
    specialize (Hup Hge). destruct (Z.even (Qfloor q)); lia.
  - lia.
  - assert (Hge : ~ (q - inject_Z (Qfloor q) < 1 # 2)%Q).
    { intros Hlt. apply -> Qlt_alt in Hlt. rewrite Hc in Hlt. discriminate. }
    specialize (Hup Hge). lia.
Qed.

Lemma round2_percentage (q : Q) :
  (0 <= q)%Q -> (q <= 100)%Q -> (0 <= Py.round2 q)%Q /\ (Py.round2 q <= 100)%Q.
Proof.
  intros H0 H1. unfold Py.round2.
  destruct (round_half_even_bounds (q * 100) 10000) as [Ha Hb].
  - apply Qmult_le_0_compat; [exact H0|discriminate].
  - change (inject_Z 10000) with (100 * 100)%Q. apply Qmult_le_compat_r; [exact H1|discriminate].
  - split.
    + apply Qle_shift_div_l; [reflexivity|]. rewrite Qmult_0_l.
      change 0%Q with (inject_Z 0). rewrite <- Zle_Qle. exact Ha.
    + apply Qle_shift_div_r; [reflexivity|].
      change (100 * 100)%Q with (inject_Z 10000). rewrite <- Zle_Qle. exact Hb.
Qed.

Lemma ratio_percentage (a b : nat) :
  a <= b -> 0 < b -> (0 <= ratio a b * 100)%Q /\ (ratio a b * 100 <= 100)%Q.
Proof.
  intros Hab Hb. unfold ratio.
  assert (Hb' : (0 < inject_Z (Z.of_nat b))%Q).
  { change 0%Q with (inject_Z 0). rewrite <- Zlt_Qlt. lia. }
  assert (H0 : (0 <= inject_Z (Z.of_nat a) / inject_Z (Z.of_nat b))%Q).
  { apply Qle_shift_div_l; [exact Hb'|]. rewrite Qmult_0_l.
    change 0%Q with (inject_Z 0). rewrite <- Zle_Qle. lia. }
  assert (H1 : (inject_Z (Z.of_nat a) / inject_Z (Z.of_nat b) <= 1)%Q).
  { apply Qle_shift_div_r; [exact Hb'|]. rewrite Qmult_1_l. rewrite <- Zle_Qle. lia. }
  split.
  - apply Qmult_le_0_compat; [exact H0|discriminate].
  - rewrite <- (Qmult_1_l 100) at 2. apply Qmult_le_compat_r; [exact H1|discriminate].
Qed.

Lemma filter_length_le' {A} (f : A -> bool) (l : list A) : length (filter f l) <= length l.
Proof.
  induction l as [|x l IH]; cbn; [lia|]. destruct (f x); cbn; lia.
Qed.

Lemma sum_totals_shift d : forall n, sum_totals d n = n + sum_totals d 0.
Proof.
  unfold sum_totals. induction d as [|e d IH]; intros n; cbn; [lia|].
  rewrite IH. rewrite (IH (st_total_tests (snd e))). lia.
Qed.

Lemma sum_totals_cons k v d n :
  sum_totals ((k, v) :: d) n = sum_totals d (n + st_total_tests v).
Proof. reflexivity. Qed.

Lemma sum_totals_update d k r :
  sum_totals (dict_update d k (record_result r)) 0 = S (sum_totals d 0).
Proof.
  induction d as [|[k' v] d IH]; cbn [dict_update]; [reflexivity|].
  destruct (String.eqb k' k); rewrite !sum_totals_cons.
  - rewrite (sum_totals_shift d (0 + st_total_tests (record_result r v))).
    rewrite (sum_totals_shift d (0 + st_total_tests v)).
    cbn [record_result st_total_tests]. lia.
  - rewrite (sum_totals_shift (dict_update d k (record_result r)) (0 + st_total_tests v)).
    rewrite (sum_totals_shift d (0 + st_total_tests v)).
    rewrite IH. lia.
Qed.

Lemma sum_totals_aggregate rs : forall d,
  sum_totals (aggregate_from d rs) 0 = sum_totals d 0 + length rs.
Proof.
  induction rs as [|r rs IH]; intros d.
  - unfold aggregate_from. cbn [fold_left length]. lia.
  - change (aggregate_from d (r :: rs))
      with (aggregate_from
              (dict_update d (db_models.target_llm_model_id r) (record_result r)) rs).
    rewrite IH, sum_totals_update. cbn [length]. lia.
Qed.

Lemma list_sum_totals d :
  list_sum (map (fun e => pydantic_models.total_tests (summarize e)) d) = sum_totals d 0.
Proof.
  induction d as [|[k v] d IH]; [reflexivity|].
  rewrite map_cons.
  change (list_sum (?x :: ?l)) with (x + list_sum l).
  rewrite IH, sum_totals_cons.
  rewrite (sum_totals_shift d (0 + st_total_tests v)).
  destruct v; cbn. lia.
Qed.

Section FurtherSummary.

Variable E : Env.

Lemma summary_outcome run_id w :
  db_fault E (db_ops w) = None ->
  let rs := filter (fun r => (db_models.test_run_id r =? run_id)%Z) (db_test_results w) in
  get_test_run_summary_by_llm E run_id w =
  match found_run run_id w with
  | None =>
      (Raised (HTTPException 404
                 ("TestRun with ID " +++ string_of_Z run_id +++ " not found.")),
       set_db_ops (1 + db_ops w) w)
  | Some db_test_run =>
      (match db_fault E (S (db_ops w)) with
       | Some msg => Raised (OperationalError msg)
       | None =>
           Returned
             {| pydantic_models.test_run_id := run_id;
                pydantic_models.test_run_name := db_models.name db_test_run;
                pydantic_models.overall_total_tests := sum_totals (aggregate rs) 0;
                pydantic_models.llm_summaries := map summarize (aggregate rs) |}
       end, set_db_ops (2 + db_ops w) w)
  end.
Proof.
  intros F0 rs. unfold found_run.
  unfold get_test_run_summary_by_llm, get_test_run_row, select_test_results,
    db_operation, bind, get, ret, raise.
  cbn -[aggregate]. rewrite F0. cbn -[aggregate].
  destruct (find _ (db_test_runs w)) as [obj|]; [|reflexivity].
  cbn -[aggregate]. destruct (db_fault E (S (db_ops w))); [reflexivity|].
  cbn -[aggregate]. fold rs. destruct rs; reflexivity.
Qed.

(** X20. For a run that exists, the overall total of the summary is the
    number of stored rows of the run and equals the sum of the per-model
    totals; every entry counts at least one row, its parse and compliance
    counts do not exceed its total, and its compliance percentage lies
    between 0 and 100. *)
Theorem summary_totals_add_up run_id w db_test_run :
  db_fault E (db_ops w) = None -> db_fault E (S (db_ops w)) = None ->
  found_run run_id w = Some db_test_run ->
  let rs := filter (fun r => (db_models.test_run_id r =? run_id)%Z) (db_test_results w) in
  exists resp,
    fst (get_test_run_summary_by_llm E run_id w) = Returned resp /\
    pydantic_models.test_run_id resp = run_id /\
    pydantic_models.test_run_name resp = db_models.name db_test_run /\
    pydantic_models.overall_total_tests resp = length rs /\
    list_sum (map pydantic_models.total_tests (pydantic_models.llm_summaries resp))
    = length rs /\
    Forall (fun s =>
              0 < pydantic_models.total_tests s /\
              pydantic_models.successful_parses s <= pydantic_models.total_tests s /\
              pydantic_models.schema_compliant_tests s <= pydantic_models.total_tests s /\
              (0 <= pydantic_models.schema_compliance_percentage s)%Q /\
              (pydantic_models.schema_compliance_percentage s <= 100)%Q)
           (pydantic_models.llm_summaries resp).
Proof.
  intros F0 F1 Hfound rs.
  pose proof (summary_outcome run_id w F0) as Hrun. cbn zeta in Hrun. fold rs in Hrun.
  rewrite Hfound, F1 in Hrun.
  destruct (summary_by_llm_spec E run_id w db_test_run F0 F1 Hfound)
    as (resp & Hresp & _ & _ & _ & Hentries).
  fold rs in Hentries.
  exists resp. split; [exact Hresp|].
  rewrite Hrun in Hresp. cbn [fst] in Hresp. inversion Hresp as [Hr]. clear Hresp.
  rewrite <- Hr in Hentries.
  cbn [pydantic_models.test_run_id pydantic_models.test_run_name
       pydantic_models.overall_total_tests pydantic_models.llm_summaries] in *.
  splits; try reflexivity.
  - apply (sum_totals_aggregate rs []).
  - rewrite map_map, list_sum_totals. apply (sum_totals_aggregate rs []).
  - apply Forall_forall. intros s Hin. destruct (Hentries s Hin) as [Hne Hs].
    set (mine := of_model (pydantic_models.target_llm_model_id s) rs) in *.
    assert (Hlen : 0 < length mine) by (destruct mine; [congruence|cbn; lia]).
    rewrite Hs.
    cbn [summary_of_model pydantic_models.total_tests pydantic_models.successful_parses
         pydantic_models.schema_compliant_tests
         pydantic_models.schema_compliance_percentage].
    pose proof (filter_length_le' parsed mine).
    pose proof (filter_length_le' compliant mine) as Hc.
    splits; try assumption.
    + apply round2_percentage; destruct (0 <? length mine) eqn:Hz;
        try (apply Nat.ltb_ge in Hz; lia);
        apply (ratio_percentage _ _ Hc Hlen).
    + apply round2_percentage; destruct (0 <? length mine) eqn:Hz;
        try (apply Nat.ltb_ge in Hz; lia);
        apply (ratio_percentage _ _ Hc Hlen).
Qed.

(** X21. The summary route changes no table and makes no gateway call;
    when the first read succeeds it answers 404 exactly when the run does
    not exist, and any other failure is a failure of the database. *)
Theorem summary_is_read_only run_id w :
  let r := get_test_run_summary_by_llm E run_id w in
  config_unchanged w (snd r) /\
  db_test_results (snd r) = db_test_results w /\
  llm_trace (snd r) = llm_trace w /\
  (db_fault E (db_ops w) = None ->
   (found_run run_id w = None <->
    fst r = Raised (HTTPException 404
                      ("TestRun with ID " +++ string_of_Z run_id +++ " not found."))) /\
   (forall e, fst r = Raised e ->
      found_run run_id w = None \/ exists msg, e = OperationalError msg)).
Proof.
  intros r. subst r.
  destruct (db_fault E (db_ops w)) as [msg|] eqn:F0.
  - unfold get_test_run_summary_by_llm, get_test_run_row, db_operation, bind.
    rewrite F0. cbn. unfold config_unchanged. cbn. splits; auto. discriminate.
  - rewrite (summary_outcome run_id w F0).
    destruct (found_run run_id w) as [obj|]; cbn [fst snd]; unfold config_unchanged; cbn;
      splits; auto; intros _; split.
    + split; [discriminate|].
      destruct (db_fault E (S (db_ops w))); discriminate.
    + intros e H. right. destruct (db_fault E (S (db_ops w))); inversion H. eauto.
    + split; reflexivity.
    + intros e H. left. reflexivity.
Qed.

End FurtherSummary.

Section FurtherMarkdown.

Local Open Scope string_scope.

Lemma append_assoc' (a b c : string) : (a +++ b) +++ c = a +++ (b +++ c).
Proof. induction a as [|x a IH]; cbn; [reflexivity|]. rewrite IH. reflexivity. Qed.

Lemma append_nil_r' (a : string) : a +++ EmptyString = a.
Proof. induction a as [|x a IH]; cbn; [reflexivity|]. rewrite IH. reflexivity. Qed.

Lemma length_append' (a b : string) :
  String.length (a +++ b) = String.length a + String.length b.
Proof. induction a as [|x a IH]; cbn; [reflexivity|]. rewrite IH. reflexivity. Qed.

Lemma rev_string_app (a b : string) :
  Py.rev_string (a +++ b) = Py.rev_string b +++ Py.rev_string a.
Proof.
  induction a as [|x a IH]; cbn.
  - rewrite append_nil_r'. reflexivity.
  - rewrite IH, append_assoc'. reflexivity.
Qed.

Lemma rev_string_involutive (a : string) : Py.rev_string (Py.rev_string a) = a.
Proof.
  induction a as [|x a IH]; cbn; [reflexivity|].
  rewrite rev_string_app, IH. reflexivity.
Qed.

Lemma prefix_app (p s : string) : String.prefix p (p +++ s) = true.
Proof.
  induction p as [|x p IH]; cbn; [destruct s; reflexivity|].
  destruct (ascii_dec x x); [exact IH|congruence].
Qed.

Lemma take_app (a b : string) : Py.take (String.length a) (a +++ b) = a.
Proof. induction a as [|x a IH]; cbn; [destruct b; reflexivity|]. rewrite IH. reflexivity. Qed.

Lemma drop_app (a b : string) : Py.drop (String.length a) (a +++ b) = b.
Proof. induction a as [|x a IH]; cbn; [reflexivity|exact IH]. Qed.

Lemma lstrip_app_space (ws t : string) :
  Py.lstrip ws = EmptyString -> Py.lstrip (ws +++ t) = Py.lstrip t.
Proof.
  induction ws as [|c ws IH]; cbn; [reflexivity|].
  destruct (Py.isspace c); [exact IH|discriminate].
Qed.

Lemma lstrip_rev_space (ws : string) :
  Py.lstrip ws = EmptyString -> Py.lstrip (Py.rev_string ws) = EmptyString.
Proof.
  induction ws as [|c ws IH]; cbn; [reflexivity|].
  destruct (Py.isspace c) eqn:Hc; [|discriminate].
  intros H. rewrite lstrip_app_space by (apply IH, H). cbn. rewrite Hc. reflexivity.
Qed.

(** Stripping removes the white space around a text that neither begins
    nor ends with white space. *)
Lemma strip_between (before mid after : string) (c1 c2 : ascii) :
  Py.lstrip before = EmptyString -> Py.lstrip after = EmptyString ->
  Py.isspace c1 = false -> Py.isspace c2 = false ->
  Py.strip (before +++ String c1 (mid +++ String c2 after))
  = String c1 (mid +++ String c2 EmptyString).
Proof.
  intros Hb Ha H1 H2. unfold Py.strip.
  rewrite lstrip_app_space by exact Hb.
  cbn [Py.lstrip]. rewrite H1.
  replace (String c1 (mid +++ String c2 after))
    with (String c1 (mid +++ String c2 EmptyString) +++ after)
    by (cbn; rewrite append_assoc'; reflexivity).
  rewrite rev_string_app.
  rewrite lstrip_app_space by (apply lstrip_rev_space, Ha).
  assert (Hrev : Py.rev_string (String c1 (mid +++ String c2 EmptyString))
                 = String c2 (Py.rev_string mid +++ String c1 EmptyString)).
  { cbn [Py.rev_string]. rewrite rev_string_app. reflexivity. }
  rewrite Hrev. cbn [Py.lstrip]. rewrite H2. rewrite <- Hrev.
  apply rev_string_involutive.
Qed.

Lemma slice_fenced (opening body closing : string) :
  Py.slice (String.length opening) (String.length closing) (opening +++ body +++ closing)
  = body.
Proof.
  unfold Py.slice. rewrite !length_append'.
  replace (String.length opening + (String.length body + String.length closing)
           - String.length closing)
    with (String.length (opening +++ body))
    by (rewrite length_append'; lia).
  rewrite <- append_assoc', take_app. apply drop_app.
Qed.

Lemma endswith_app (s p : string) : Py.endswith (s +++ p) p = true.
Proof. unfold Py.endswith. rewrite rev_string_app. apply prefix_app. Qed.

Lemma prefix_trans_app (p q s : string) :
  String.prefix (p +++ q) s = true -> String.prefix p s = true.
Proof.
  revert s. induction p as [|x p IH]; intros s.
  - intros _. destruct s; reflexivity.
  - destruct s as [|y s]; [discriminate|]. simpl.
    destruct (ascii_dec x y); [apply IH|discriminate].
Qed.

Lemma strip_fenced (before opening body after : string) :
  Py.lstrip before = EmptyString -> Py.lstrip after = EmptyString ->
  Py.strip (before +++ (String "`" opening) +++ body +++ "```" +++ after)
  = (String "`" opening) +++ body +++ "```".
Proof.
  intros Hb Ha.
  replace (before +++ (String "`" opening) +++ body +++ "```" +++ after)
    with (before +++ String "`" ((opening +++ body +++ "``") +++ String "`" after))
    by (cbn; rewrite !append_assoc'; reflexivity).
  rewrite (strip_between before (opening +++ body +++ "``") after "`" "`" Hb Ha)
    by reflexivity.
  cbn. rewrite !append_assoc'. reflexivity.
Qed.

Lemma prefix_json_fence (body : string) :
  String.prefix "json" (body +++ "```") = String.prefix "json" body.
Proof.
  destruct body as [|a [|b [|c [|d body]]]]; cbn;
    repeat match goal with
           | |- context [ascii_dec ?x ?y] => destruct (ascii_dec x y)
           end;
    try reflexivity; try discriminate.
  destruct body; reflexivity.
Qed.

(** X22. [clean_markdown] returns exactly the body of an answer that is
    wrapped in a [```json] fence, or in a bare fence when the body does
    not begin with [json], whatever white space surrounds the fence; a
    text that does not begin with a fence after stripping is returned as
    it is. *)
Theorem clean_markdown_unwraps_fence (before body after : string) :
  Py.lstrip before = EmptyString -> Py.lstrip after = EmptyString ->
  clean_markdown (before +++ "```json" +++ body +++ "```" +++ after) = body /\
  (Py.startswith body "json" = false ->
   clean_markdown (before +++ "```" +++ body +++ "```" +++ after) = body) /\
  (forall raw, Py.startswith (Py.strip raw) "```" = false -> clean_markdown raw = raw).
Proof.
  intros Hb Ha. splits.
  - unfold clean_markdown.
    rewrite (strip_fenced before "``json" body after Hb Ha).
    assert (Hstart : Py.startswith ("```json" +++ body +++ "```") "```json" = true)
      by apply prefix_app.
    assert (Hend : Py.endswith ("```json" +++ body +++ "```") "```" = true)
      by (rewrite <- append_assoc'; apply endswith_app).
    rewrite Hstart, Hend. exact (slice_fenced "```json" body "```").
  - intros Hjson. unfold clean_markdown.
    rewrite (strip_fenced before "``" body after Hb Ha).
    assert (Hstart : Py.startswith ("```" +++ body +++ "```") "```json" = false).
    { unfold Py.startswith in *. cbn [String.prefix String.append].
      repeat (destruct (ascii_dec _ _) as [_|Hne]; [|exfalso; apply Hne; reflexivity]).
      rewrite prefix_json_fence. exact Hjson. }
    assert (Hstart' : Py.startswith ("```" +++ body +++ "```") "```" = true)
      by apply prefix_app.
    assert (Hend : Py.endswith ("```" +++ body +++ "```") "```" = true)
      by (rewrite <- append_assoc'; apply endswith_app).
    rewrite Hstart, Hstart', Hend. exact (slice_fenced "```" body "```").
  - intros raw H. unfold clean_markdown.
    destruct (Py.startswith (Py.strip raw) "```json") eqn:Hj.
    + apply (prefix_trans_app "```" "json") in Hj. unfold Py.startswith in H. congruence.
    + rewrite H. reflexivity.
Qed.

End FurtherMarkdown.

Lemma NoDup_map_injective {A B} (f : A -> B) (l : list A) :
  NoDup (map f l) -> forall a b, In a l -> In b l -> f a = f b -> a = b.
Proof.
  induction l as [|x l IH]; intros Hnd a b Ha Hb Hab; [contradiction|].
  inversion Hnd as [|? ? Hx Hnd']; subst.
  destruct Ha as [->|Ha]; destruct Hb as [->|Hb]; try reflexivity.
  - exfalso. apply Hx. rewrite Hab. apply in_map, Hb.
  - exfalso. apply Hx. rewrite <- Hab. apply in_map, Ha.
  - apply IH; assumption.
Qed.

(** With unique item ids, loading by the ids of a prompt's items gives
    those items back. *)
Lemma loaded_items_of_prompt (P : db_models.MockDataItem -> bool) w :
  NoDup (map db_models.item_id (db_mock_data_items w)) ->
  loaded_items (map db_models.item_id (filter P (db_mock_data_items w))) w
  = filter P (db_mock_data_items w).
Proof.
  intros Hnd. unfold loaded_items. apply filter_ext_in. intros it Hin.
  destruct (P it) eqn:HP.
  - apply existsb_exists. exists (db_models.item_id it). split; [|apply Z.eqb_refl].
    apply in_map. apply filter_In. auto.
  - destruct (existsb _ _) eqn:Hex; [|reflexivity].
    apply existsb_exists in Hex. destruct Hex as (i & Hi & Heq).
    apply Z.eqb_eq in Heq. apply in_map_iff in Hi. destruct Hi as (it' & Hid & Hin').
    apply filter_In in Hin'. destruct Hin' as [Hin' HP'].
    assert (it' = it).
    { apply (NoDup_map_injective _ _ Hnd); [assumption|assumption|congruence]. }
    congruence.
Qed.

Lemma store_test_run_ids obj rows :
  map db_models.id (store_test_run obj rows) = map db_models.id rows.
Proof.
  induction rows as [|r rows IH]; cbn; [reflexivity|].
  destruct (Z.eqb_spec (db_models.id r) (db_models.id obj)) as [H|H]; cbn.
  - rewrite H. reflexivity.
  - rewrite IH. reflexivity.
Qed.

Lemma find_store_other other obj rows :
  db_models.id obj <> other ->
  find (fun r => (db_models.id r =? other)%Z) (store_test_run obj rows)
  = find (fun r => (db_models.id r =? other)%Z) rows.
Proof.
  intros Hne. induction rows as [|r rows IH]; cbn; [reflexivity|].
  destruct (Z.eqb_spec (db_models.id r) (db_models.id obj)) as [H|H]; cbn.
  - rewrite H. destruct (Z.eqb_spec (db_models.id obj) other); [contradiction|reflexivity].
  - destruct (db_models.id r =? other)%Z; [reflexivity|exact IH].
Qed.

Section FurtherDriver.

Variable E : Env.

#[local] Arguments Qplus : simpl never.
#[local] Arguments Qmult : simpl never.
#[local] Arguments Qminus : simpl never.

(** Creation followed by the background task, with a working database. *)
Lemma created_run_execution test_run_create w run task w1 :
  (forall n, db_fault E n = None) ->
  NoDup (map db_models.item_id (db_mock_data_items w)) ->
  create_and_initiate_test_run E test_run_create w = (Returned (run, task), w1) ->
  let w2 := snd (run_background_task E task w1) in
  let items :=
    filter (fun it => (db_models.prompt_id it
                       =? pydantic_models.mock_data_prompt_id test_run_create)%Z)
           (db_mock_data_items w) in
  let models := pydantic_models.target_llm_model_ids test_run_create in
  exists obj rows,
    found_run (db_models.id run) w2 = Some obj /\
    db_models.status obj = "completed"%string /\
    db_models.started_at obj <> None /\ db_models.completed_at obj <> None /\
    db_test_results w2 = db_test_results w ++ rows /\
    length rows = length models * length items /\
    Forall (fun row => db_models.test_run_id row = db_models.id run) rows /\
    length (llm_trace w2) = length (llm_trace w) + length models * length items.
Proof.
  intros Hok Hnd Hcreate w2 items models.
  destruct (create_returns E _ _ _ _ _ Hcreate)
    as (mp & sch & Hmp & Hsch & Hrun & Htask & Hw1 & Hitems).
  destruct (fresh_run_facts E _ _ _ _ _ Hcreate)
    as (_ & _ & Hfound & Hres).
  assert (Hitems1 : db_mock_data_items w1 = db_mock_data_items w)
    by (rewrite Hw1; reflexivity).
  assert (Htrace1 : llm_trace w1 = llm_trace w) by (rewrite Hw1; reflexivity).
  assert (Hloaded : loaded_items (task_mock_data_item_ids task) w1 = items).
  { rewrite Htask. cbn [task_mock_data_item_ids]. rewrite <- Hitems1.
    rewrite loaded_items_of_prompt by (rewrite Hitems1; exact Hnd).
    rewrite Hitems1. reflexivity. }
  subst w2. unfold run_background_task.
  assert (Htid : task_test_run_id task = db_models.id run)
    by (rewrite Htask; reflexivity).
  assert (Hms : task_target_llm_ids task = models) by (rewrite Htask; reflexivity).
  rewrite Htid, Hms.
  set (w2 := snd (execute_test_run_background E _ _ _ _ _ w1)).
  pose proof (driver_terminal E (db_models.id run) (task_master_prompt_content task)
                (task_mock_data_item_ids task) models (task_master_schema_content task)
                w1 run (Hok _)) as Hterm.
  rewrite Hloaded in Hterm.
  specialize (Hterm Hitems (Hok _) Hfound (Hok _)). cbn zeta in Hterm.
  specialize (Hterm (Hok _)).
  destruct Hterm as (rows & calls & obj & Hrows & Hlen & Hcalls & Hclen & Hobj & Hstart
                     & Hdone & Hcompleted & _).
  rewrite completed_cases_all in Hlen, Hclen, Hcompleted by (intros; apply Hok).
  rewrite length_prod in Hlen, Hclen.
  destruct (driver_results E (db_models.id run) (task_master_prompt_content task)
              (task_mock_data_item_ids task) models (task_master_schema_content task) w1)
    as (rows' & calls' & Hrows' & Hf2 & _).
  fold w2 in Hrows, Hcalls, Hobj, Hrows'.
  assert (rows' = rows) by (rewrite Hrows in Hrows'; apply app_inv_head in Hrows'; auto).
  subst rows'.
  exists obj, rows. splits.
  - exact Hobj.
  - apply Hcompleted. reflexivity.
  - rewrite Hstart. discriminate.
  - exact Hdone.
  - rewrite Hrows, Hres. reflexivity.
  - exact Hlen.
  - apply Forall_forall. intros row Hin.
    destruct (Forall2_In_right _ _ _ Hf2 row Hin) as (p & _ & Hp & _). exact Hp.
  - rewrite Hcalls, length_app, Hclen, Htrace1. lia.
Qed.

(** X23. With a working database and unique item ids, running the
    background task of a run that has just been created completes the run:
    the run is found with status completed, a start and a completion time,
    one gateway call was made and one row stored for every pairing of a
    requested model with an item of the input set, and every new row
    carries the id of the run. *)
Theorem created_run_completes test_run_create w run task w1 :
  (forall n, db_fault E n = None) ->
  NoDup (map db_models.item_id (db_mock_data_items w)) ->
  create_and_initiate_test_run E test_run_create w = (Returned (run, task), w1) ->
  let w2 := snd (run_background_task E task w1) in
  let items :=
    filter (fun it => (db_models.prompt_id it
                       =? pydantic_models.mock_data_prompt_id test_run_create)%Z)
           (db_mock_data_items w) in
  let models := pydantic_models.target_llm_model_ids test_run_create in
  exists obj rows,
    found_run (db_models.id run) w2 = Some obj /\
    db_models.status obj = "completed"%string /\
    db_models.started_at obj <> None /\ db_models.completed_at obj <> None /\
    db_test_results w2 = db_test_results w ++ rows /\
    length rows = length models * length items /\
    Forall (fun row => db_models.test_run_id row = db_models.id run) rows /\
    length (llm_trace w2) = length (llm_trace w) + length models * length items.
Proof.
  intros Hok Hnd Hcreate w2 items models.
  destruct (created_run_execution test_run_create w run task w1 Hok Hnd Hcreate)
    as (obj & rows & Hfound & Hstatus & Hstart & Hdone & Hrows & Hlen & Hids & Hcalls).
  exists obj, rows. splits; assumption.
Qed.

Lemma filter_run_rows (id : Z) (old rows : list db_models.TestResult) :
  Forall (fun x => db_models.test_run_id x <> id) old ->
  Forall (fun x => db_models.test_run_id x = id) rows ->
  filter (fun x => (db_models.test_run_id x =? id)%Z) (old ++ rows) = rows.
Proof.
  intros Hold Hrows. rewrite filter_app.
  assert (H1 : filter (fun x => (db_models.test_run_id x =? id)%Z) old = []).
  { induction Hold as [|x l Hx _ IH]; [reflexivity|]. cbn.
    destruct (Z.eqb_spec (db_models.test_run_id x) id); [contradiction|exact IH]. }
  assert (H2 : filter (fun x => (db_models.test_run_id x =? id)%Z) rows = rows).
  { induction Hrows as [|x l Hx _ IH]; [reflexivity|]. cbn.
    rewrite Hx, Z.eqb_refl, IH. reflexivity. }
  rewrite H1, H2. reflexivity.
Qed.

(** X27. With a working database, unique item ids and results that all
    belong to stored runs, a run that is created and then executed is
    reported by [get_test_run] as completed with one result per pairing of
    a requested model with an item of the input set, and the summary route
    reports that same number as its overall total. *)
Theorem completed_run_is_reported test_run_create w run task w1 :
  (forall n, db_fault E n = None) ->
  NoDup (map db_models.item_id (db_mock_data_items w)) ->
  Forall (fun x => In (db_models.test_run_id x) (map db_models.id (db_test_runs w)))
         (db_test_results w) ->
  create_and_initiate_test_run E test_run_create w = (Returned (run, task), w1) ->
  let w2 := snd (run_background_task E task w1) in
  let pairings :=
    length (pydantic_models.target_llm_model_ids test_run_create)
    * length (filter (fun it => (db_models.prompt_id it
                                 =? pydantic_models.mock_data_prompt_id test_run_create)%Z)
                     (db_mock_data_items w)) in
  exists resp summary,
    fst (get_test_run E (db_models.id run) w2) = Returned resp /\
    db_models.status (tr_run resp) = "completed"%string /\
    length (tr_results resp) = pairings /\
    fst (get_test_run_summary_by_llm E (db_models.id run) w2) = Returned summary /\
    pydantic_models.overall_total_tests summary = pairings.
Proof.
  intros Hok Hnd Hint Hcreate w2 pairings.
  destruct (created_run_execution test_run_create w run task w1 Hok Hnd Hcreate)
    as (obj & rows & Hfound & Hstatus & _ & _ & Hrows & Hlen & Hids & _).
  fold w2 in Hfound, Hrows.
  destruct (fresh_run_facts E _ _ _ _ _ Hcreate) as (Hfresh & _).
  assert (Hold : Forall (fun x => db_models.test_run_id x <> db_models.id run)
                   (db_test_results w)).
  { apply Forall_forall. intros x Hx Heq.
    pose proof (proj1 (Forall_forall _ _) Hint x Hx) as Hin.
    apply Hfresh in Hin. lia. }
  pose proof (filter_run_rows (db_models.id run) (db_test_results w) rows Hold Hids)
    as Hfilter.
  rewrite <- Hrows in Hfilter.
  exists (with_results w2 obj). eexists. split.
  { rewrite (get_test_run_found E _ _ obj (Hok _) Hfound). reflexivity. }
  split; [exact Hstatus|]. split.
  { cbn [tr_results with_results]. rewrite (found_run_id _ _ _ Hfound), Hfilter.
    exact Hlen. }
  rewrite (summary_outcome E (db_models.id run) w2 (Hok _)). rewrite Hfound, Hok.
  cbn [fst]. split; [reflexivity|].
  cbn [pydantic_models.overall_total_tests]. rewrite Hfilter.
  transitivity (length rows); [exact (sum_totals_aggregate rows [])|exact Hlen].
Qed.

Ltac run_driver :=
  unfold execute_test_run_background, try_finally, try_except, run_body,
    run_handler, run_finally, commit, update_test_run_obj,
    select_mock_data_items, get_test_run_row, utcnow, db_operation,
    in_session, zoom, bind, modify, get, ret, raise;
  cbn [fst snd rf_world test_run_obj test_cases_count new_run_frame
       rf_set_world set_test_run_obj set_test_cases_count option_map
       db_ops set_db_ops db_test_runs db_mock_data_items].

(** The driver writes to the run table and the result table only. *)
Lemma driver_static_tables id mp ids ms sc w :
  let w' := snd (execute_test_run_background E id mp ids ms sc w) in
  db_master_prompts w' = db_master_prompts w /\
  db_mock_data_prompts w' = db_mock_data_prompts w /\
  db_mock_data_items w' = db_mock_data_items w /\
  db_json_schemas w' = db_json_schemas w.
Proof.
  assert (Hun : forall w0,
    config_unchanged w w0 ->
    db_master_prompts w0 = db_master_prompts w /\
    db_mock_data_prompts w0 = db_mock_data_prompts w /\
    db_mock_data_items w0 = db_mock_data_items w /\
    db_json_schemas w0 = db_json_schemas w).
  { intros w0 (C1 & C2 & C3 & C4 & C5). auto. }
  destruct (db_fault E (db_ops w)) as [m0|] eqn:F0.
  { apply Hun, driver_unloaded. left. congruence. }
  destruct (list_eq_dec_nil (loaded_items ids w)) as [Hnil|Hitems].
  { apply Hun, driver_unloaded. auto. }
  destruct (db_fault E (S (db_ops w))) as [m1|] eqn:F1.
  { apply Hun, driver_unloaded. right. right. left. congruence. }
  destruct (found_run id w) as [obj|] eqn:Hfind.
  2: { apply Hun, driver_unloaded. auto. }
  unfold loaded_items, found_run in *. run_driver.
  rewrite F0; cbn.
  destruct (filter _ (db_mock_data_items w)) as [|it0 its] eqn:Hf; [congruence|]. cbn.
  rewrite F1; cbn. rewrite Hfind; cbn.
  destruct (db_fault E (S (S (db_ops w)))) as [m2|] eqn:F2; cbn.
  { destruct (db_fault E (S (S (S (db_ops w))))); cbn; auto. }
  rewrite (for_each_nested ms (it0 :: its)
             (fun m it => case_step E id mp sc (m, it))).
  match goal with
  | |- context [for_each ?l ?b ?g] =>
      change (for_each l b g) with (for_each l (case_step E id mp sc) g)
  end.
  match goal with
  | |- context [for_each ?l _ ?g] =>
      destruct (cases_loop E id mp sc l g) as (o & f' & Hloop & Hpost); rewrite Hloop
  end.
  unfold loop_post, config_unchanged in Hpost; cbn in Hpost.
  destruct Hpost as (P1 & (C1 & C2 & C3 & C4 & C5) & _).
  destruct o as [[]|e]; cbn; repeat (rewrite P1; cbn);
    destruct (db_fault E (db_ops (rf_world f'))); cbn; auto.
Qed.

(** The run table after the driver: the row of the run may have been
    replaced, no other row has. *)
Lemma driver_run_table id mp ids ms sc w :
  let w' := snd (execute_test_run_background E id mp ids ms sc w) in
  db_test_runs w' = db_test_runs w \/
  exists obj', db_models.id obj' = id /\
    (db_test_runs w' = store_test_run obj' (db_test_runs w) \/
     exists obj'', db_models.id obj'' = id /\
       db_test_runs w' = store_test_run obj' (store_test_run obj'' (db_test_runs w))).
Proof.
  intros w'. subst w'.
  destruct (db_fault E (db_ops w)) as [m0|] eqn:F0.
  { left. apply driver_unloaded. left. congruence. }
  destruct (list_eq_dec_nil (loaded_items ids w)) as [Hnil|Hitems].
  { left. apply driver_unloaded. auto. }
  destruct (db_fault E (S (db_ops w))) as [m1|] eqn:F1.
  { left. apply driver_unloaded. right. right. left. congruence. }
  destruct (found_run id w) as [obj|] eqn:Hfind.
  2: { left. apply driver_unloaded. auto. }
  pose proof (found_run_id id w obj Hfind) as Hid.
  destruct (db_fault E (S (S (db_ops w)))) as [m2|] eqn:F2.
  - destruct (driver_start_commit_fault E id mp ids ms sc w obj m2 F0 Hitems F1 Hfind F2)
      as (_ & _ & _ & Hok & Hbad).
    destruct (db_fault E (S (S (S (db_ops w))))) as [m3|] eqn:F3.
    + left. apply Hbad. discriminate.
    + right. eexists. split; [|left; apply Hok; reflexivity]. exact Hid.
  - destruct (driver_loaded E id mp ids ms sc w obj F0 Hitems F1 Hfind F2)
      as (rows & calls & t & final & _ & _ & _ & _ & _ & Hc & Hf & Hok & Hbad).
    assert (Hfinal : db_models.id final = id).
    { destruct (Nat.eq_dec
                  (completed_cases E (3 + db_ops w)
                     (length (list_prod ms (loaded_items ids w))))
                  (length (list_prod ms (loaded_items ids w)))) as [Heq|Hne].
      - rewrite (Hc Heq). exact Hid.
      - destruct Hf as (msg & _ & ->); [|exact Hid].
        pose proof (completed_cases_le E (3 + db_ops w)
                      (length (list_prod ms (loaded_items ids w)))). lia. }
    match type of Hok with
    | ?c = None -> _ => destruct c eqn:FF
    end.
    + right. exists (running_obj w obj). split; [exact Hid|]. left. apply Hbad. discriminate.
    + right. eexists. split; [|right; exists (running_obj w obj); split;
                                 [exact Hid|apply Hok; reflexivity]].
      exact Hfinal.
Qed.

(** X24. The background driver never changes the prompts, the input sets,
    the items or the schemas; it keeps the ids of the run table and the
    row of every other run, and it only appends to the result table, rows
    that carry the id of its own run. *)
Theorem driver_touches_only_its_run id mp ids ms sc w :
  let w' := snd (execute_test_run_background E id mp ids ms sc w) in
  db_master_prompts w' = db_master_prompts w /\
  db_mock_data_prompts w' = db_mock_data_prompts w /\
  db_mock_data_items w' = db_mock_data_items w /\
  db_json_schemas w' = db_json_schemas w /\
  map db_models.id (db_test_runs w') = map db_models.id (db_test_runs w) /\
  (forall other, other <> id -> found_run other w' = found_run other w) /\
  (exists rows,
     db_test_results w' = db_test_results w ++ rows /\
     Forall (fun row => db_models.test_run_id row = id) rows).
Proof.
  intros w'.
  destruct (driver_static_tables id mp ids ms sc w) as (S1 & S2 & S3 & S4).
  fold w' in S1, S2, S3, S4.
  pose proof (driver_run_table id mp ids ms sc w) as Hruns. cbn zeta in Hruns.
  fold w' in Hruns.
  splits; auto.
  - destruct Hruns as [->|(obj' & Hid & [->|(obj'' & Hid' & ->)])];
      rewrite ?store_test_run_ids; reflexivity.
  - intros other Hne. unfold found_run.
    destruct Hruns as [->|(obj' & Hid & [->|(obj'' & Hid' & ->)])];
      rewrite ?find_store_other by congruence; reflexivity.
  - destruct (driver_results E id mp ids ms sc w) as (rows & calls & Hrows & Hf2 & _).
    exists rows. split; [exact Hrows|].
    apply Forall_forall. intros row Hin.
    destruct (Forall2_In_right _ _ _ Hf2 row Hin) as (p & _ & Hp & _). exact Hp.
Qed.

(** X25. When no step takes negative time, the duration of the gateway
    call is not negative and the execution time stored with the row is at
    least that duration, in milliseconds. *)
Theorem execution_time_covers_gateway_call id mp it m sc w :
  (forall ph n, (0 <= latency E ph n)%Q) ->
  exists row w1 call t,
    run_single_test_case E id mp it m sc w = add_test_result E row w1 /\
    llm_trace w1 = llm_trace w ++ [call] /\
    db_models.execution_time_ms row = Some t /\
    (0 <= (call_finished call - call_started call) * 1000)%Q /\
    ((call_finished call - call_started call) * 1000 <= t)%Q.
Proof.
  intros Hlat.
  destruct (guarded_case_returns E mp it m sc w) as (f & Hf & _ & Htrace & Hclock & _).
  exists (case_row id it m (clock w) f), (cf_world f), (case_call E mp it m w).
  eexists. split; [apply run_single_test_case_unfold, Hf|].
  split; [exact Htrace|]. split; [reflexivity|].
  assert (Hpost : (0 <= post_call_time E (db_ops w)
             (requests_post E (length (llm_trace w)) m (prompt_messages E mp it)
                (1 # 2) 1024))%Q).
  { unfold post_call_time.
    destruct (requests_post E _ _ _ _ _) as [[[|c cs]|]|]; try apply Qle_refl.
    destruct (message c) as [[[[|ch raw]|]]|]; try apply Qle_refl.
    destruct (json_loads E _).
    - rewrite <- (Qplus_0_r 0). apply Qplus_le_compat; apply Hlat.
    - rewrite <- (Qplus_0_r 0). apply Qplus_le_compat; [apply Hlat|apply Qle_refl]. }
  rewrite Hclock. unfold case_call. cbn [call_finished call_started].
  pose proof (Hlat PhBuildPrompt (db_ops w)) as H1.
  pose proof (Hlat PhLLMCall (db_ops w)) as H2.
  set (a := latency E PhBuildPrompt (db_ops w)) in *.
  set (b := latency E PhLLMCall (db_ops w)) in *.
  set (p := post_call_time E _ _) in *.
  split.
  - setoid_replace (clock w + a + b - (clock w + a))%Q with b by ring.
    apply Qmult_le_0_compat; [exact H2|discriminate].
  - apply Qmult_le_compat_r; [|discriminate].
    setoid_replace (clock w + a + b - (clock w + a))%Q with b by ring.
    setoid_replace (clock w + a + b + p - clock w)%Q with (b + (a + p))%Q by ring.
    rewrite <- (Qplus_0_r b) at 1. apply Qplus_le_compat; [apply Qle_refl|].
    rewrite <- (Qplus_0_r 0). apply Qplus_le_compat; assumption.
Qed.

(** X26. When the first read of the driver fails, no item of the given ids
    exists, the read of the run fails or the run does not exist, the
    background driver returns without raising and without doing anything:
    no gateway call, no result row, and every table, the run table
    included, is as before, so that a run in that situation keeps the
    status it had. *)
Theorem driver_without_inputs_or_run_does_nothing id mp ids ms sc w :
  db_fault E (db_ops w) <> None \/ loaded_items ids w = [] \/
  db_fault E (S (db_ops w)) <> None \/ found_run id w = None ->
  let r := execute_test_run_background E id mp ids ms sc w in
  fst r = Returned tt /\
  config_unchanged w (snd r) /\
  db_test_results (snd r) = db_test_results w /\
  llm_trace (snd r) = llm_trace w.
Proof.
  intros H r. split; [|apply (driver_unloaded E id mp ids ms sc w H)].
  subst r. unfold loaded_items, found_run in H. run_driver.
  destruct (db_fault E (db_ops w)) eqn:F0; cbn; [reflexivity|].
  destruct (filter _ (db_mock_data_items w)) as [|it0 its] eqn:Hitems; cbn; [reflexivity|].
  destruct (db_fault E (S (db_ops w))) eqn:F1; cbn; [reflexivity|].
  destruct (find _ (db_test_runs w)) eqn:Hfind; cbn; [|reflexivity].
  exfalso. destruct H as [H|[H|[H|H]]]; congruence.
Qed.

End FurtherDriver.

(** ** The further properties at concrete inputs *)

(** X1 witness: the gateway answers 429. *)
Lemma call_llm_raises_only_service_errors_witness :
  let E := Cases.env_gateway (Raised Cases.too_many_requests) in
  let e := LLMServiceError "LLM service error: 429 - slow down" (Some 429%Z) in
  fst (call_llm_chat_completions E "a" [] (1 # 2) 1024 (world [] [])) = Raised e /\
  exists msg code, e = LLMServiceError msg (Some code).
Proof.
  intros E e. split; [reflexivity|].
  destruct (proj1 (call_llm_raises_only_service_errors E "a"%string [] (1 # 2)%Q 1024
                     (world [] [])) e eq_refl) as (msg & code & Heq & _).
  exists msg, code. exact Heq.
Defined.

(** X2 witness: the status 429 of the gateway is the status of the route. *)
Lemma chat_route_status_follows_gateway_witness :
  let E := Cases.env_gateway (Raised Cases.too_many_requests) in
  requests_post E 0 "a" [] (7 # 10) 1024 = Raised Cases.too_many_requests /\
  fst (test_chat_completions_with_llm_service E "a" [] (7 # 10) 1024 (world [] []))
  = Raised (HTTPException 429 "LLM service error: 429 - slow down").
Proof.
  intros E. split; [reflexivity|].
  destruct (chat_route_status_follows_gateway E "a"%string [] (7 # 10)%Q 1024 (world [] []))
    as (_ & _ & H & _).
  exact (H _ _ _ eq_refl).
Defined.

(** X3 witness: a listing of two models. *)
Lemma models_listing_round_trip_witness :
  let ms := [Cases.gpt; Cases.llama] in
  let members := Cases.listing (map entry_of_model ms) in
  Forall (fun m => model_id m <> EmptyString) ms /\
  dict_lookup "data" members = Some (JArray (map entry_of_model ms)) /\
  get_available_models Cases.pydantic_text (Returned (JObject members)) = Returned ms.
Proof.
  intros ms members.
  assert (H : Forall (fun m => model_id m <> EmptyString) ms)
    by (repeat constructor; discriminate).
  split; [exact H|]. split; [reflexivity|].
  exact (proj1 (models_listing_round_trip Cases.pydantic_text members) ms H eq_refl).
Defined.

(** X4 witness: the gateway cannot be reached. *)
Lemma models_listing_errors_witness :
  let response := Raised (RequestException "Connection refused" None) in
  let e := LLMServiceError "Could not connect to LLM service: Connection refused"
             (Some 503%Z) in
  get_available_models Cases.pydantic_text response = Raised e /\
  exists msg code, e = LLMServiceError msg (Some code) /\ (code = 500%Z \/ code = 503%Z).
Proof.
  intros response e. split; [reflexivity|].
  destruct (proj1 (models_listing_errors Cases.pydantic_text response) e eq_refl)
    as (msg & code & Heq & _ & Hcode).
  exists msg, code. split; assumption.
Defined.

(** X5 witness: an entry without id between two models. *)
Lemma models_listing_skips_unusable_entries_witness :
  let bad := JObject [("object"%string, JString "model")] in
  let members :=
    Cases.listing [entry_of_model Cases.gpt; bad; entry_of_model Cases.llama] in
  unusable_entry bad /\
  dict_lookup "data" members
  = Some (JArray ([entry_of_model Cases.gpt] ++ bad :: [entry_of_model Cases.llama])) /\
  get_available_models Cases.pydantic_text (Returned (JObject members))
  = Returned [Cases.gpt; Cases.llama].
Proof.
  intros bad members.
  assert (H : unusable_entry bad).
  { right. exists [("object"%string, JString "model")]. split; [reflexivity|].
    left. reflexivity. }
  split; [exact H|]. split; [reflexivity|].
  destruct (models_listing_skips_unusable_entries Cases.pydantic_text) as (_ & _ & Hskip & _).
  rewrite (Hskip members [entry_of_model Cases.gpt] bad [entry_of_model Cases.llama]
             H eq_refl).
  reflexivity.
Defined.

(** X6 witness: an entry whose id is a number. *)
Lemma models_listing_is_all_or_nothing_witness :
  let bad := JObject [("id"%string, JInt 7)] in
  let items := [entry_of_model Cases.gpt; bad] in
  let members := Cases.listing items in
  dict_lookup "data" members = Some (JArray items) /\ In bad items /\ malformed_entry bad /\
  exists msg,
    list_available_llm_models Cases.pydantic_text (Returned (JObject members))
    = Raised (HTTPException 500 msg).
Proof.
  intros bad items members.
  assert (Hin : In bad items) by (right; left; reflexivity).
  assert (Hbad : malformed_entry bad).
  { exists [("id"%string, JInt 7)], (JInt 7).
    split; [reflexivity|]. split; [reflexivity|]. split; [reflexivity|].
    left. intros s. discriminate. }
  split; [reflexivity|]. split; [exact Hin|]. split; [exact Hbad|].
  destruct (models_listing_is_all_or_nothing Cases.pydantic_text members items bad
              eq_refl Hin Hbad) as (msg & _ & H).
  exists msg. exact H.
Defined.

(** X7 witness: a request that names a prompt that does not exist. *)
Lemma create_rejection_changes_nothing_witness :
  let req :=
    {| pydantic_models.name := None; pydantic_models.master_prompt_id := 9;
       pydantic_models.mock_data_prompt_id := 1;
       pydantic_models.target_llm_model_ids := ["a"%string];
       pydantic_models.master_schema_id := 1 |} in
  let w := world [] [] in
  let r := create_and_initiate_test_run env_ok req w in
  fst r = Raised (HTTPException 404 "MasterPrompt with ID 9 not found.") /\
  config_unchanged w (snd r) /\ db_test_results (snd r) = db_test_results w.
Proof.
  intros req w r. split; [reflexivity|].
  exact (proj2 (proj1 (create_rejection_changes_nothing env_ok req w) _ _ eq_refl)).
Defined.

(** X8 witness: the first run of an empty run table. *)
Lemma create_queues_fresh_run_witness :
  let w := world [] [] in
  exists run task w1,
    create_and_initiate_test_run env_ok request w = (Returned (run, task), w1) /\
    found_run (db_models.id run) w1 = Some run /\
    db_models.status run = "queued"%string.
Proof.
  intros w.
  destruct (create_and_initiate_test_run env_ok request w) as [[[run task]|e] w1] eqn:Hc;
    [|vm_compute in Hc; discriminate].
  exists run, task, w1. split; [reflexivity|].
  destruct (create_queues_fresh_run env_ok request w run task w1 Hc)
    as (_ & _ & Hfound & Hstatus & _).
  split; [exact Hfound|exact Hstatus].
Defined.

(** X9 witness: two runs, listed one per page. *)
Lemma list_test_runs_newest_first_witness :
  let older := queued_run ["a"%string] in
  let newer :=
    db_models.with_status "completed"
      {| db_models.id := 2; db_models.name := None;
         db_models.master_prompt_id := 1; db_models.mock_data_prompt_id := 1;
         db_models.target_llm_model_ids := ["a"%string]; db_models.master_schema_id := 1;
         db_models.status := "queued"; db_models.started_at := None;
         db_models.completed_at := None; db_models.error_message := None |} in
  let w := world [older; newer] [] in
  db_fault env_ok (db_ops w) = None /\
  exists page all,
    fst (list_test_runs env_ok 0 1 w) = Returned page /\
    fst (list_test_runs env_ok 0 (-1) w) = Returned all /\
    Permutation (map tr_run all) (db_test_runs w) /\
    length page <= 1.
Proof.
  intros older newer w. split; [reflexivity|].
  destruct (list_test_runs_newest_first env_ok 0 1 w eq_refl)
    as (page & all & Hpage & Hall & Hperm & _ & _ & Hlen & _).
  exists page, all. split; [exact Hpage|]. split; [exact Hall|]. split; [exact Hperm|].
  apply Hlen. discriminate.
Defined.

(** X10 witness: a run that is stored. *)
Lemma get_test_run_finds_stored_run_witness :
  let w := world [queued_run ["a"%string]] [timed_result "a" 1] in
  db_fault env_ok (db_ops w) = None /\
  found_run 1 w = Some (queued_run ["a"%string]) /\
  fst (get_test_run env_ok 1 w) = Returned (with_results w (queued_run ["a"%string])).
Proof.
  intros w. split; [reflexivity|]. split; [reflexivity|].
  destruct (get_test_run_finds_stored_run env_ok 1 w eq_refl) as (_ & _ & _ & H).
  exact (H _ eq_refl).
Defined.

(** X11 witness: a second run is created and listed. *)
Lemma created_run_is_listed_first_witness :
  let w := world [queued_run ["a"%string]] [] in
  exists run task w1,
    create_and_initiate_test_run env_ok request w = (Returned (run, task), w1) /\
    db_fault env_ok (db_ops w1) = None /\
    fst (list_test_runs env_ok 0 1 w1) = Returned [with_results w1 run].
Proof.
  intros w.
  destruct (create_and_initiate_test_run env_ok request w) as [[[run task]|e] w1] eqn:Hc;
    [|vm_compute in Hc; discriminate].
  exists run, task, w1. split; [reflexivity|]. split; [reflexivity|].
  destruct (created_run_is_listed_first env_ok request w run task w1 Hc eq_refl)
    as (_ & H & _).
  exact H.
Defined.

(** X12 witness: the first item gets a new content. *)
Lemma updated_item_is_read_back_witness :
  let w := world [] [] in
  (forall n, db_fault env_ok n = None) /\
  fst (get_specific_mock_data_item env_ok 1 w) = Returned item_x /\
  exists updated,
    fst (get_specific_mock_data_item env_ok 1
           (snd (update_specific_mock_data_item env_ok 1 (JString "z") w)))
    = Returned updated /\
    db_models.item_content updated = JString "z".
Proof.
  intros w.
  assert (Hok : forall n, db_fault env_ok n = None) by reflexivity.
  split; [exact Hok|]. split; [reflexivity|].
  destruct (proj1 (updated_item_is_read_back env_ok Hok 1 (JString "z") w) item_x eq_refl)
    as (updated & _ & Hget & Hcontent & _).
  exists updated. split; [exact Hget|exact Hcontent].
Defined.

(** X13 witness: the first item is deleted. *)
Lemma deleted_item_is_gone_witness :
  let w := world [] [] in
  (forall n, db_fault env_ok n = None) /\
  fst (get_specific_mock_data_item env_ok 1 w) = Returned item_x /\
  fst (get_specific_mock_data_item env_ok 1
         (snd (delete_specific_mock_data_item env_ok 1 w)))
  = Raised (HTTPException 404 "MockDataItem with ID 1 not found.").
Proof.
  intros w.
  assert (Hok : forall n, db_fault env_ok n = None) by reflexivity.
  split; [exact Hok|]. split; [reflexivity|].
  destruct (proj1 (deleted_item_is_gone env_ok Hok 1 w) item_x eq_refl) as (_ & H & _).
  exact H.
Defined.

(** X14 witness: a third item is added to the input set. *)
Lemma added_item_is_stored_witness :
  let w := world [] [] in
  (forall n, db_fault env_ok n = None) /\
  fst (list_items_for_prompt env_ok 1 0 (-1) w) = Returned [item_x; item_y] /\
  exists item,
    fst (manually_add_item_to_prompt_set env_ok 1 (JString "z") w) = Returned item /\
    fst (list_items_for_prompt env_ok 1 0 (-1)
           (snd (manually_add_item_to_prompt_set env_ok 1 (JString "z") w)))
    = Returned ([item_x; item_y] ++ [item]).
Proof.
  intros w.
  assert (Hok : forall n, db_fault env_ok n = None) by reflexivity.
  split; [exact Hok|]. split; [reflexivity|].
  destruct (proj1 (added_item_is_stored env_ok Hok 1 (JString "z") w) _ eq_refl)
    as (item & Hadd & _ & _ & _ & _ & _ & Hlist).
  exists item. split; [exact Hadd|exact Hlist].
Defined.

(** X15 witness: the items of the input set, in the order of their ids. *)
Lemma list_items_sorted_by_id_witness :
  let w := world [] [] in
  (forall n, db_fault env_ok n = None) /\
  fst (list_items_for_prompt env_ok 1 0 1000 w) = Returned [item_x; item_y] /\
  Sorted (fun a b => (db_models.item_id a <= db_models.item_id b)%Z) [item_x; item_y].
Proof.
  intros w.
  assert (Hok : forall n, db_fault env_ok n = None) by reflexivity.
  split; [exact Hok|]. split; [reflexivity|].
  exact (proj1 (proj1 (list_items_sorted_by_id env_ok Hok 1 0 1000 w) _ eq_refl)).
Defined.

(** X16 witness: the checker rejects the object. *)
Lemma validation_route_verdict_witness :
  let E := Cases.env_checker (Raised Cases.not_an_integer) in
  let w := world [] [] in
  db_fault E (db_ops w) = None /\
  exists resp,
    fst (validate_object_against_schema E 1 (JArray [JString "x"]) w) = Returned resp /\
    (is_valid resp = false <-> exists v, errors resp = Some [v]).
Proof.
  intros E w. split; [reflexivity|].
  destruct (validation_route_verdict E 1 (JArray [JString "x"]) w eq_refl) as (_ & _ & H).
  eexists. split; [reflexivity|].
  exact (proj1 (proj2 (H _ eq_refl))).
Defined.

(** X17 witness: the route and the executor on a rejected object. *)
Lemma validation_route_and_executor_witness :
  let E := Cases.env_checker (Raised Cases.not_an_integer) in
  let w := world [] [] in
  let f := new_case_frame w in
  let members := [("type"%string, JString "object")] in
  db_fault E (db_ops w) = None /\
  find (fun sc => (db_models.schema_id sc =? 1)%Z) (db_json_schemas w)
  = Some {| db_models.schema_id := 1; db_models.schema_status := "approved_master";
            db_models.schema_content := schema |} /\
  validation_errors_list f = [] /\
  fst (check_compliance E (JArray [JString "x"]) (JObject members) f) = Returned tt.
Proof.
  intros E w f members. split; [reflexivity|]. split; [reflexivity|].
  split; [reflexivity|].
  exact (proj1 (validation_route_and_executor E 1 (JArray [JString "x"]) w _ members f
                  eq_refl eq_refl eq_refl eq_refl)).
Defined.

(** X18 witness: an answer that parses and passes. *)
Lemma executor_row_follows_oracles_witness :
  let w := world [queued_run ["a"%string]] [] in
  db_fault env_ok (db_ops w) = None /\
  exists row,
    db_test_results (snd (run_single_test_case env_ok 1 master_prompt item_x "a" schema w))
    = db_test_results w ++ [row] /\
    db_models.parse_status row = Some true /\
    db_models.schema_compliance_status row = Some "Pass"%string.
Proof.
  intros w. split; [reflexivity|].
  destruct (executor_row_follows_oracles env_ok 1 master_prompt item_x "a"%string schema w
              eq_refl) as (row & Hrows & Hrow).
  exists row. split; [exact Hrows|].
  cbn in Hrow. destruct Hrow as (_ & Hp & _ & Hs & _). split; assumption.
Defined.

(** X19 witness: the gateway answers 429. *)
Lemma gateway_failure_is_recorded_witness :
  let E := Cases.env_gateway (Raised Cases.too_many_requests) in
  let w := world [queued_run ["a"%string]] [] in
  db_fault E (db_ops w) = None /\
  reply_content
    (requests_post E (length (llm_trace w)) "a" (prompt_messages E master_prompt item_x)
       (1 # 2) 1024) = None /\
  fst (run_single_test_case E 1 master_prompt item_x "a" schema w) = Returned tt.
Proof.
  intros E w. split; [reflexivity|]. split; [reflexivity|].
  exact (proj1 (gateway_failure_is_recorded E 1 master_prompt item_x "a"%string schema w
                  eq_refl eq_refl)).
Defined.

(** X20 witness: three rows of one model. *)
Lemma summary_totals_add_up_witness :
  let w := world [queued_run ["a"%string]]
             [timed_result "a" 1; timed_result "a" 1; timed_result "a" 2] in
  (db_fault env_ok (db_ops w) = None /\ db_fault env_ok (S (db_ops w)) = None /\
   found_run 1 w = Some (queued_run ["a"%string])) /\
  exists resp,
    fst (get_test_run_summary_by_llm env_ok 1 w) = Returned resp /\
    pydantic_models.overall_total_tests resp = 3.
Proof.
  intros w. split; [repeat split|].
  destruct (summary_totals_add_up env_ok 1 w (queued_run ["a"%string])
              eq_refl eq_refl eq_refl) as (resp & Hresp & _ & _ & Htotal & _).
  exists resp. split; [exact Hresp|exact Htotal].
Defined.

(** X21 witness: a run that does not exist. *)
Lemma summary_is_read_only_witness :
  let w := world [] [timed_result "a" 1] in
  db_fault env_ok (db_ops w) = None /\ found_run 1 w = None /\
  fst (get_test_run_summary_by_llm env_ok 1 w)
  = Raised (HTTPException 404 "TestRun with ID 1 not found.").
Proof.
  intros w. split; [reflexivity|]. split; [reflexivity|].
  destruct (summary_is_read_only env_ok 1 w) as (_ & _ & _ & H).
  exact (proj1 (proj1 (H eq_refl)) eq_refl).
Defined.

(** X22 witness: a fenced answer between a space and a line feed. *)
Lemma clean_markdown_unwraps_fence_witness :
  let before := " "%string in
  let after := String "010" EmptyString in
  Py.lstrip before = EmptyString /\ Py.lstrip after = EmptyString /\
  clean_markdown (before +++ "```json" +++ "[1, 2]" +++ "```" +++ after) = "[1, 2]"%string.
Proof.
  intros before after. split; [reflexivity|]. split; [reflexivity|].
  exact (proj1 (clean_markdown_unwraps_fence before "[1, 2]" after eq_refl eq_refl)).
Defined.

(** X23 witness: a run of one model over the two inputs. *)
Lemma created_run_completes_witness :
  let w := world [] [] in
  (forall n, db_fault env_ok n = None) /\
  NoDup (map db_models.item_id (db_mock_data_items w)) /\
  exists run task w1 obj,
    create_and_initiate_test_run env_ok request w = (Returned (run, task), w1) /\
    found_run (db_models.id run) (snd (run_background_task env_ok task w1)) = Some obj /\
    db_models.status obj = "completed"%string.
Proof.
  intros w.
  assert (Hok : forall n, db_fault env_ok n = None) by reflexivity.
  assert (Hnd : NoDup (map db_models.item_id (db_mock_data_items w))).
  { repeat constructor; cbn; intuition discriminate. }
  split; [exact Hok|]. split; [exact Hnd|].
  destruct (create_and_initiate_test_run env_ok request w) as [[[run task]|e] w1] eqn:Hc;
    [|vm_compute in Hc; discriminate].
  destruct (created_run_completes env_ok request w run task w1 Hok Hnd Hc)
    as (obj & rows & Hfound & Hstatus & _).
  exists run, task, w1, obj. split; [reflexivity|]. split; [exact Hfound|exact Hstatus].
Defined.

(** X24 witness: another run keeps its row while run 1 is executed. *)
Lemma driver_touches_only_its_run_witness :
  let other :=
    {| db_models.id := 2; db_models.name := None;
       db_models.master_prompt_id := 1; db_models.mock_data_prompt_id := 1;
       db_models.target_llm_model_ids := ["b"%string]; db_models.master_schema_id := 1;
       db_models.status := "queued"; db_models.started_at := None;
       db_models.completed_at := None; db_models.error_message := None |} in
  let w := world [queued_run ["a"%string]; other] [] in
  let w' := snd (execute_test_run_background env_ok 1 master_prompt [1%Z; 2%Z]
                   ["a"%string] schema w) in
  2%Z <> 1%Z /\ found_run 2 w' = Some other.
Proof.
  intros other w w'. split; [discriminate|].
  destruct (driver_touches_only_its_run env_ok 1 master_prompt [1%Z; 2%Z] ["a"%string]
              schema w) as (_ & _ & _ & _ & _ & H & _).
  fold w' in H. rewrite (H 2%Z); [reflexivity|discriminate].
Defined.

(** X25 witness: a call of two seconds. *)
Lemma execution_time_covers_gateway_call_witness :
  let w := world [queued_run ["a"%string]] [] in
  (forall ph n, (0 <= latency env_ok ph n)%Q) /\
  exists row w1 call t,
    run_single_test_case env_ok 1 master_prompt item_x "a" schema w
    = add_test_result env_ok row w1 /\
    db_models.execution_time_ms row = Some t /\
    ((call_finished call - call_started call) * 1000 <= t)%Q.
Proof.
  intros w.
  assert (Hlat : forall ph n, (0 <= latency env_ok ph n)%Q).
  { intros [] n; cbn; discriminate. }
  split; [exact Hlat|].
  destruct (execution_time_covers_gateway_call env_ok 1 master_prompt item_x "a"%string
              schema w Hlat) as (row & w1 & call & t & Hrun & _ & Ht & _ & Hle).
  exists row, w1, call, t. split; [exact Hrun|]. split; [exact Ht|exact Hle].
Defined.

(** X26 witness: the items of the run have been deleted. *)
Lemma driver_without_inputs_or_run_does_nothing_witness :
  let w := world [queued_run ["a"%string]] [] in
  let r := execute_test_run_background env_ok 1 master_prompt [7%Z] ["a"%string] schema w in
  loaded_items [7%Z] w = [] /\
  fst r = Returned tt /\ found_run 1 (snd r) = Some (queued_run ["a"%string]).
Proof.
  intros w r. split; [reflexivity|].
  destruct (driver_without_inputs_or_run_does_nothing env_ok 1 master_prompt [7%Z]
              ["a"%string] schema w (or_intror (or_introl eq_refl)))
    as (Hret & (_ & _ & _ & _ & Hruns) & _).
  split; [exact Hret|]. unfold found_run. fold r in Hruns. rewrite Hruns. reflexivity.
Defined.

(** X27 witness: the run of one model over the two inputs, as reported. *)
Lemma completed_run_is_reported_witness :
  let w := world [] [] in
  (forall n, db_fault env_ok n = None) /\
  NoDup (map db_models.item_id (db_mock_data_items w)) /\
  Forall (fun x => In (db_models.test_run_id x) (map db_models.id (db_test_runs w)))
         (db_test_results w) /\
  exists run task w1 resp,
    create_and_initiate_test_run env_ok request w = (Returned (run, task), w1) /\
    fst (get_test_run env_ok (db_models.id run) (snd (run_background_task env_ok task w1)))
    = Returned resp /\
    length (tr_results resp) = 1 * 2.
Proof.
  intros w.
  assert (Hok : forall n, db_fault env_ok n = None) by reflexivity.
  assert (Hnd : NoDup (map db_models.item_id (db_mock_data_items w))).
  { repeat constructor; cbn; intuition discriminate. }
  assert (Hint : Forall (fun x => In (db_models.test_run_id x)
                                    (map db_models.id (db_test_runs w)))
                        (db_test_results w)) by constructor.
  split; [exact Hok|]. split; [exact Hnd|]. split; [exact Hint|].
  destruct (create_and_initiate_test_run env_ok request w) as [[[run task]|e] w1] eqn:Hc;
    [|vm_compute in Hc; discriminate].
  destruct (completed_run_is_reported env_ok request w run task w1 Hok Hnd Hint Hc)
    as (resp & summary & Hget & _ & Hlen & _).
  exists run, task, w1, resp. split; [reflexivity|]. split; [exact Hget|exact Hlen].
Defined.
